(** * Ray-ES on COCO: the experiment driver of [coco_experiment_rayes.cpp]

    A shallow embedding of the budget-governed restart loop, of the random,
    grid and solver-backed search strategies and of the timing record of
    [src/coco/coco_experiment_rayes.cpp], with the properties the
    specification states about them.

    Conventions of the embedding.
    - [size_t] and [long] values are integers of [Z]; the 64-bit wrap-around
      of unsigned arithmetic and the conversion to [long] are written out
      ([size_t_wrap], [to_long]).
    - In the point computations of the strategies a [double] is an exact
      rational of [Q]; what is stated over them is what rounding does not
      change: the order of the nodes and of the draws, the calls made, the
      closed bounds of random search.  The module [Binary64] gives the same
      computations in IEEE 754 binary64 arithmetic, with the operations of
      the Standard Library's [SpecFloat], for the statements that rounding
      decides.  The call
      [floor(pow((double) max_budget, 1.0 / (double) dimension))] of the C
      library is taken as a function [floor_pow] that the statements
      quantify over.
    - The global [PROBLEM] is threaded through every function as an explicit
      state; the observer's trace of evaluations is a field of that state.
    - Arrays are lists read with [!!!] and written with [<[ _ := _ ]>]. *)

From Stdlib Require Import ZArith QArith Lia Lqa String SpecFloat.
From stdpp Require Import base list.

Local Open Scope Z_scope.

(** ** Machine integers *)

Definition SIZE_T_MODULUS : Z := 2 ^ 64.
Definition LONG_LIMIT : Z := 2 ^ 63.

(** Arithmetic on [size_t] is arithmetic modulo [2^64]. *)
Definition size_t_wrap (n : Z) : Z := n mod SIZE_T_MODULUS.

(** The conversion [(long) n] of a [size_t]. *)
Definition to_long (n : Z) : Z :=
  let m := n mod SIZE_T_MODULUS in
  if m <? LONG_LIMIT then m else m - SIZE_T_MODULUS.

(** ** Points and arrays of doubles *)

(** A point of the search space: a vector of doubles. *)
Abbreviation point := (list Q).

#[global] Instance Q_inhabited : Inhabited Q := populate 0%Q.

(** ** The problem descriptor and the evaluation gateway *)

Inductive evaluator : Type := Objective | Constraint.

(** One record of the observer: which evaluator was called, on which point,
    and how many evaluations (objective plus constraint) the problem had
    counted when the call was made. *)
Record evaluation : Type := Evaluation {
  ev_kind : evaluator;
  ev_point : point;
  ev_count : Z
}.

Record coco_problem_t : Type := Problem {
  dimension : Z;
  number_of_objectives : Z;
  number_of_constraints : Z;
  smallest_values_of_interest : list Q;
  largest_values_of_interest : list Q;
  initial_solution : list Q;
  evaluations : Z;
  evaluations_constraints : Z;
  final_target_hit : bool;
  objective : point -> list Q;
  constraint : point -> list Q;
  reaches_target : point -> bool;
  logged : list evaluation
}.

(** The accessors of the COCO interface read the fields. *)
Abbreviation coco_problem_get_dimension := dimension.
Abbreviation coco_problem_get_number_of_objectives := number_of_objectives.
Abbreviation coco_problem_get_number_of_constraints := number_of_constraints.
Abbreviation coco_problem_get_smallest_values_of_interest := smallest_values_of_interest.
Abbreviation coco_problem_get_largest_values_of_interest := largest_values_of_interest.
Abbreviation coco_problem_get_initial_solution := initial_solution.
Abbreviation coco_problem_get_evaluations := evaluations.
Abbreviation coco_problem_get_evaluations_constraints := evaluations_constraints.
Abbreviation coco_problem_final_target_hit := final_target_hit.

(** The count the budget checks read:
    [coco_problem_get_evaluations(PROBLEM) +
     coco_problem_get_evaluations_constraints(PROBLEM)], a [size_t] sum. *)
Definition evaluations_total (p : coco_problem_t) : Z :=
  size_t_wrap (coco_problem_get_evaluations p +
               coco_problem_get_evaluations_constraints p).

(** Modelled from the spec: [coco_evaluate_function] of the COCO library
    (section 4.1, Evaluation Gateway): it returns the objective values at
    [x], increments the problem's objective evaluation counter and triggers
    the external logging. *)
Definition coco_evaluate_function (p : coco_problem_t) (x : point)
  : coco_problem_t * list Q :=
  (Problem (dimension p) (number_of_objectives p) (number_of_constraints p)
     (smallest_values_of_interest p) (largest_values_of_interest p)
     (initial_solution p)
     (size_t_wrap (evaluations p + 1)) (evaluations_constraints p)
     (final_target_hit p || reaches_target p x)
     (objective p) (constraint p) (reaches_target p)
     (logged p ++ [Evaluation Objective x (evaluations_total p)]),
   objective p x).

(** Modelled from the spec: [coco_evaluate_constraint] of the COCO library
    (section 4.1): as above for the constraints and their counter. *)
Definition coco_evaluate_constraint (p : coco_problem_t) (x : point)
  : coco_problem_t * list Q :=
  (Problem (dimension p) (number_of_objectives p) (number_of_constraints p)
     (smallest_values_of_interest p) (largest_values_of_interest p)
     (initial_solution p)
     (evaluations p) (size_t_wrap (evaluations_constraints p + 1))
     (final_target_hit p)
     (objective p) (constraint p) (reaches_target p)
     (logged p ++ [Evaluation Constraint x (evaluations_total p)]),
   constraint p x).

(** [evaluate_function_t]: a callback that evaluates [x] on the global
    [PROBLEM] and stores the values in [y].  The global is the state. *)
Definition evaluate_function_t : Type :=
  point -> coco_problem_t -> coco_problem_t * list Q.

Definition evaluate_function : evaluate_function_t :=
  fun x PROBLEM => coco_evaluate_function PROBLEM x.

Definition evaluate_constraint : evaluate_function_t :=
  fun x PROBLEM => coco_evaluate_constraint PROBLEM x.

(** ** Grid search *)

(** [max_nodes]: [(long) floor(pow(max_budget, 1/dimension)) - 1], and the
    borderline case [if (max_nodes < 1) max_nodes = 1]. *)
Definition grid_max_nodes (floor_pow : Z -> nat -> Z)
    (dimension : nat) (max_budget : Z) : Z :=
  let max_nodes := floor_pow max_budget dimension - 1 in
  if max_nodes <? 1 then 1 else max_nodes.

(** [grid_step[j] = (upper_bounds[j] - lower_bounds[j]) / (double) max_nodes]
    for [j < dimension]. *)
Definition grid_steps (dimension : nat) (lower_bounds upper_bounds : list Q)
    (max_nodes : Z) : list Q :=
  map (fun j => ((upper_bounds !!! j - lower_bounds !!! j) / inject_Z max_nodes)%Q)
      (seq 0 dimension).

(** [x[j] = lower_bounds[j] + grid_step[j] * (double) nodes[j]]. *)
Definition grid_point (dimension : nat) (lower_bounds grid_step : list Q)
    (nodes : list Z) : point :=
  map (fun j => (lower_bounds !!! j + grid_step !!! j * inject_Z (nodes !!! j))%Q)
      (seq 0 dimension).

(** [for (i = 0; i < j; i++) nodes[i] = 0;] *)
Definition reset_below (j : nat) (nodes : list Z) : list Z :=
  foldl (fun ns i => <[i := 0]> ns) nodes (seq 0 j).

(** The loop [for (j = 1; j < dimension; j++)] that looks for the first
    coordinate below [max_nodes], from index [j], with [fuel = dimension - j]
    iterations left.  It returns the value of [j] on exit and the nodes. *)
Fixpoint grid_carry (max_nodes : Z) (fuel j : nat) (nodes : list Z)
  : nat * list Z :=
  match fuel with
  | O => (j, nodes)
  | S fuel' =>
      if nodes !!! j <? max_nodes
      then (j, reset_below j (<[j := nodes !!! j + 1]> nodes))
      else grid_carry max_nodes fuel' (S j) nodes
  end.

(** The move to the next node after an evaluation; the boolean says that the
    [break] at the end of the grid was taken. *)
Definition grid_advance (max_nodes : Z) (dimension : nat) (nodes : list Z)
  : list Z * bool :=
  if nodes !!! 0%nat <? max_nodes then
    (<[0%nat := nodes !!! 0%nat + 1]> nodes, false)
  else if 0 <? max_nodes then
    let '(j, nodes') := grid_carry max_nodes (dimension - 1) 1 nodes in
    (nodes', (j =? dimension)%nat && (nodes' !!! (j - 1)%nat =? max_nodes))
  else (nodes, false).

(** [while (evaluations < max_budget)]: every iteration evaluates once, so the
    loop is written by recursion on [max_budget - evaluations]. *)
Fixpoint grid_loop (evaluate : evaluate_function_t) (max_nodes : Z)
    (dimension : nat) (lower_bounds grid_step : list Q)
    (remaining : nat) (nodes : list Z) (PROBLEM : coco_problem_t)
  : coco_problem_t :=
  match remaining with
  | O => PROBLEM
  | S remaining' =>
      let x := grid_point dimension lower_bounds grid_step nodes in
      let '(PROBLEM', _) := evaluate x PROBLEM in
      let '(nodes', at_end) := grid_advance max_nodes dimension nodes in
      if at_end then PROBLEM'
      else grid_loop evaluate max_nodes dimension lower_bounds grid_step
             remaining' nodes' PROBLEM'
  end.

Definition my_grid_search (floor_pow : Z -> nat -> Z)
    (evaluate : evaluate_function_t)
    (dimension : nat) (number_of_objectives : Z)
    (lower_bounds upper_bounds : list Q) (max_budget : Z)
    (PROBLEM : coco_problem_t) : coco_problem_t :=
  let max_nodes := grid_max_nodes floor_pow dimension max_budget in
  let nodes := replicate dimension 0 in
  let grid_step := grid_steps dimension lower_bounds upper_bounds max_nodes in
  grid_loop evaluate max_nodes dimension lower_bounds grid_step
    (Z.to_nat max_budget) nodes PROBLEM.

(** The exact integer root [floor(b^(1/d))]: the number of [r >= 1] with
    [r^d <= b].  It is what [floor_pow] computes when [pow] is exact. *)
Definition exact_floor_pow (b : Z) (d : nat) : Z :=
  Z.of_nat (length (filter (fun r => Z.of_nat r ^ Z.of_nat d <= b)
                           (seq 1 (Z.to_nat b)))).

(** ** Random search *)

(** Modelled from the spec: the seeded uniform random source
    [coco_random_state_t] of the COCO library, as the sequence of the values
    it will deliver and the number of values already drawn. *)
Record coco_random_state_t : Type := RandomState {
  deliveries : nat -> Q;
  drawn : nat
}.

(** Modelled from the spec: [coco_random_uniform] of the COCO library: the
    next value of the source. *)
Definition coco_random_uniform (g : coco_random_state_t)
  : Q * coco_random_state_t :=
  (deliveries g (drawn g), RandomState (deliveries g) (S (drawn g))).

(** The inner loop [for (j = 0; j < dimension; ++j)], over the indices still
    to fill: [range = upper_bounds[j] - lower_bounds[j]] and
    [x[j] = lower_bounds[j] + coco_random_uniform(random_generator) * range]. *)
Fixpoint random_point (lower_bounds upper_bounds : list Q) (js : list nat)
    (random_generator : coco_random_state_t) : point * coco_random_state_t :=
  match js with
  | [] => ([], random_generator)
  | j :: js' =>
      let range := (upper_bounds !!! j - lower_bounds !!! j)%Q in
      let '(u, g1) := coco_random_uniform random_generator in
      let xj := (lower_bounds !!! j + u * range)%Q in
      let '(xs, g2) := random_point lower_bounds upper_bounds js' g1 in
      (xj :: xs, g2)
  end.

(** [for (i = 0; i < max_budget; ++i)], by recursion on [max_budget - i]. *)
Fixpoint random_loop (evaluate_func evaluate_cons : evaluate_function_t)
    (dimension : nat) (number_of_constraints : Z)
    (lower_bounds upper_bounds : list Q) (remaining : nat)
    (random_generator : coco_random_state_t) (PROBLEM : coco_problem_t)
  : coco_problem_t * coco_random_state_t :=
  match remaining with
  | O => (PROBLEM, random_generator)
  | S remaining' =>
      let '(x, g1) :=
        random_point lower_bounds upper_bounds (seq 0 dimension) random_generator in
      let '(P1, _) := evaluate_func x PROBLEM in
      let P2 := if 0 <? number_of_constraints
                then fst (evaluate_cons x P1) else P1 in
      random_loop evaluate_func evaluate_cons dimension number_of_constraints
        lower_bounds upper_bounds remaining' g1 P2
  end.

Definition my_random_search (evaluate_func evaluate_cons : evaluate_function_t)
    (dimension : nat) (number_of_objectives number_of_constraints : Z)
    (lower_bounds upper_bounds : list Q) (max_budget : Z)
    (random_generator : coco_random_state_t) (PROBLEM : coco_problem_t)
  : coco_problem_t * coco_random_state_t :=
  random_loop evaluate_func evaluate_cons dimension number_of_constraints
    lower_bounds upper_bounds (Z.to_nat max_budget) random_generator PROBLEM.

(** ** The solver-backed search *)

(** What can be thrown inside the [try] block of [my_search]:
    [BudgetExhaustedException], a class derived from [std::exception];
    another [std::exception] with its [what()] message; or, since C++ lets a
    value of any type be thrown, something that is not derived from
    [std::exception]. *)
Inductive exception : Type :=
| BudgetExhaustedException
| std_exception (what : string)
| other_throwable (value : string).

(** The external solver [es::rayes::RayEs], seen from [my_search]: its run
    asks for objective values through [evalFuncWrapper] and for constraint
    values through [evalConsWrapper], and ends with a termination criterion,
    with a failure that is a [std::exception], or by throwing something
    else.  A run that never ends is not modelled. *)
Inductive RayEs : Type :=
| Terminates (criterion : string)
| Fails (what : string)
| Throws (value : string)
| AsksObjective (xVec : point) (resume : Q -> RayEs)
| AsksConstraints (xVec : point) (resume : list Q -> RayEs).

(** [for (i = 0; i < dimension; ++i) x[i] = xVec(i);] *)
Definition copy_vector (n : nat) (v : list Q) : list Q :=
  map (fun i => v !!! i) (seq 0 n).

(** [evalConsWrapper]: the budget test, then the constraint evaluation. *)
Definition evalConsWrapper (evaluate_cons : evaluate_function_t)
    (dimension : nat) (number_of_constraints : Z) (max_budget : Z)
    (xVec : point) (PROBLEM : coco_problem_t)
  : coco_problem_t * (exception + list Q) :=
  if evaluations_total PROBLEM >? max_budget
  then (PROBLEM, inl BudgetExhaustedException)
  else
    let x := copy_vector dimension xVec in
    let '(P1, constraints_values) := evaluate_cons x PROBLEM in
    (P1, inr (copy_vector (Z.to_nat number_of_constraints) constraints_values)).

(** [evalFuncWrapper]: the budget test, then the objective evaluation; it
    returns [functions_values[0]]. *)
Definition evalFuncWrapper (evaluate_func : evaluate_function_t)
    (dimension : nat) (max_budget : Z)
    (xVec : point) (PROBLEM : coco_problem_t)
  : coco_problem_t * (exception + Q) :=
  if evaluations_total PROBLEM >? max_budget
  then (PROBLEM, inl BudgetExhaustedException)
  else
    let x := copy_vector dimension xVec in
    let '(P1, functions_values) := evaluate_func x PROBLEM in
    (P1, inr (functions_values !!! 0%nat)).

(** [solver.run()] with the two wrappers as its callbacks: an exception of a
    wrapper unwinds the solver. *)
Fixpoint solver_run (evaluate_func evaluate_cons : evaluate_function_t)
    (dimension : nat) (number_of_constraints : Z) (max_budget : Z)
    (solver : RayEs) (PROBLEM : coco_problem_t)
  : coco_problem_t * (exception + string) :=
  match solver with
  | Terminates criterion => (PROBLEM, inr criterion)
  | Fails what => (PROBLEM, inl (std_exception what))
  | Throws value => (PROBLEM, inl (other_throwable value))
  | AsksObjective xVec resume =>
      match evalFuncWrapper evaluate_func dimension max_budget xVec PROBLEM with
      | (P1, inl e) => (P1, inl e)
      | (P1, inr y) =>
          solver_run evaluate_func evaluate_cons dimension
            number_of_constraints max_budget (resume y) P1
      end
  | AsksConstraints xVec resume =>
      match evalConsWrapper evaluate_cons dimension number_of_constraints
              max_budget xVec PROBLEM with
      | (P1, inl e) => (P1, inl e)
      | (P1, inr y) =>
          solver_run evaluate_func evaluate_cons dimension
            number_of_constraints max_budget (resume y) P1
      end
  end.

(** How a call of [my_search] ends. *)
Inductive search_end : Type :=
| AssertionFailed                       (* one of the two [assert]s *)
| SolverTerminated (criterion : string) (* [solver.run()] returned *)
| BudgetExhausted                       (* first [catch] clause *)
| UnexpectedError (what : string)       (* second [catch] clause *)
| Uncaught (e : exception).             (* no clause applies *)

Definition returns_normally (e : search_end) : bool :=
  match e with
  | SolverTerminated _ | BudgetExhausted | UnexpectedError _ => true
  | AssertionFailed | Uncaught _ => false
  end.

(** [catch (BudgetExhaustedException &)]: the clause takes the exception when
    it is of that class. *)
Definition catch_BudgetExhaustedException (e : exception) : bool :=
  match e with
  | BudgetExhaustedException => true
  | std_exception _ | other_throwable _ => false
  end.

(** [catch (std::exception &e)]: the clause takes every [std::exception],
    [BudgetExhaustedException] included, and gives its message; it does not
    take what is not derived from [std::exception]. *)
Definition catch_std_exception (e : exception) : option string :=
  match e with
  | BudgetExhaustedException => Some "std::exception"%string
  | std_exception what => Some what
  | other_throwable _ => None
  end.

Record search_result : Type := SearchResult {
  search_problem : coco_problem_t;
  search_stdout : list string;
  search_ending : search_end
}.

(** The two evaluations [my_search] makes before anything else:
    [coco_problem_get_initial_solution(PROBLEM, x); evaluate_cons(x, ..);
     evaluate_func(x, ..);]. *)
Definition my_search_warm_up (evaluate_func evaluate_cons : evaluate_function_t)
    (PROBLEM : coco_problem_t) : coco_problem_t :=
  let x := coco_problem_get_initial_solution PROBLEM in
  let '(P1, _) := evaluate_cons x PROBLEM in
  let '(P2, _) := evaluate_func x P1 in
  P2.

(** The [try] block: the solver is built from the bound vectors and the
    initial solution and run; the result is the criterion it terminates with
    or the exception that leaves the block. *)
Definition my_search_try (solver : list Q -> list Q -> list Q -> RayEs)
    (evaluate_func evaluate_cons : evaluate_function_t)
    (dimension : nat) (number_of_constraints : Z)
    (lbnds ubnds : list Q) (max_budget : Z) (PROBLEM : coco_problem_t)
  : coco_problem_t * (exception + string) :=
  let values := coco_problem_get_initial_solution PROBLEM in
  let rayInit := copy_vector dimension values in
  solver_run evaluate_func evaluate_cons dimension number_of_constraints
    max_budget (solver lbnds ubnds rayInit) PROBLEM.

(** The end of the [try] block and the two [catch] clauses, in their order.
    There is no [catch (...)]: what neither clause takes leaves
    [my_search]. *)
Definition my_search_catch (PROBLEM : coco_problem_t)
    (thrown : exception + string) : search_result :=
  match thrown with
  | inr criterion =>
      SearchResult PROBLEM
        [("Termination criterion: " ++ criterion ++ ".")%string]
        (SolverTerminated criterion)
  | inl e =>
      if catch_BudgetExhaustedException e
      then SearchResult PROBLEM [] BudgetExhausted
      else match catch_std_exception e with
           | Some what =>
               SearchResult PROBLEM [("unexpected error: " ++ what)%string]
                 (UnexpectedError what)
           | None => SearchResult PROBLEM [] (Uncaught e)
           end
  end.

(** [my_search].  [solver] gives the behaviour of the solver built from the
    bound vectors and the initial point. *)
Definition my_search (solver : list Q -> list Q -> list Q -> RayEs)
    (evaluate_func evaluate_cons : evaluate_function_t)
    (dimension : nat) (number_of_objectives number_of_constraints : Z)
    (lower_bounds upper_bounds : list Q) (max_budget : Z)
    (PROBLEM : coco_problem_t) : search_result :=
  if negb (number_of_objectives =? 1)
  then SearchResult PROBLEM [] AssertionFailed
  else if negb (number_of_constraints >? 0)
  then SearchResult PROBLEM [] AssertionFailed
  else
    let P2 := my_search_warm_up evaluate_func evaluate_cons PROBLEM in
    let lbnds := copy_vector dimension lower_bounds in
    let ubnds := copy_vector dimension upper_bounds in
    let '(P3, thrown) :=
      my_search_try solver evaluate_func evaluate_cons dimension
        number_of_constraints lbnds ubnds max_budget P2 in
    my_search_catch P3 thrown.

(** ** Timing *)

(** Modelled from the spec: the wall clock read by [time()], as the sequence
    of the values its successive calls return and the number of calls made. *)
Record wall_clock : Type := WallClock {
  readings : nat -> Z;
  reads : nat
}.

Definition time (clock : wall_clock) : Z * wall_clock :=
  (readings clock (reads clock), WallClock (readings clock) (S (reads clock))).

(** A summary string ["d=%lu done in %.2e seconds/evaluation\n"], kept as the
    two values it is formatted from. *)
Record summary_line : Type := SummaryLine {
  summary_dimension : Z;
  seconds_per_evaluation : Q
}.

(** [timing_data_t].  [output] has [number_of_dimensions] cells; [written] is
    not a field of the source: it keeps the indices at which [output] was
    assigned, in order, whether or not they lie inside the array. *)
Record timing_data_t : Type := TimingData {
  number_of_dimensions : Z;
  current_idx : Z;
  output : list (option summary_line);
  previous_dimension : Z;
  cumulative_evaluations : Z;
  start_time : Z;
  overall_start_time : Z;
  written : list Z
}.

(** Modelled from the spec: the suite provider [coco_suite_t], as the stream
    of problems it yields and the [dimension_idx] that
    [coco_suite_decode_problem_index] gives for its last problem index. *)
Record coco_suite_t : Type := Suite {
  suite_problems : list coco_problem_t;
  suite_last_dimension_idx : Z
}.

Definition timing_data_initialize (suite : coco_suite_t) (clock : wall_clock)
  : timing_data_t * wall_clock :=
  let dimension_idx := suite_last_dimension_idx suite in
  let number_of_dimensions := size_t_wrap (dimension_idx + 1) in
  let output := replicate (Z.to_nat number_of_dimensions) None in
  let '(start_time, clock1) := time clock in
  let '(overall_start_time, clock2) := time clock1 in
  (TimingData number_of_dimensions 0 output 0 0 start_time overall_start_time [],
   clock2).

(** [timing_data->output[timing_data->current_idx++] = coco_strdupf(...)]. *)
Definition timing_data_write (timing_data : timing_data_t) (line : summary_line)
  : timing_data_t :=
  let idx := current_idx timing_data in
  TimingData (number_of_dimensions timing_data)
    (size_t_wrap (idx + 1))
    (<[Z.to_nat idx := Some line]> (output timing_data))
    (previous_dimension timing_data)
    (cumulative_evaluations timing_data)
    (start_time timing_data)
    (overall_start_time timing_data)
    (written timing_data ++ [idx]).

(** The re-initialisation for a problem of a new dimension. *)
Definition timing_data_restart (timing_data : timing_data_t)
    (problem : coco_problem_t) (now : Z) : timing_data_t :=
  TimingData (number_of_dimensions timing_data)
    (current_idx timing_data)
    (output timing_data)
    (coco_problem_get_dimension problem)
    (coco_problem_get_evaluations problem)
    now
    (overall_start_time timing_data)
    (written timing_data).

(** [timing_data->cumulative_evaluations += coco_problem_get_evaluations(problem)]. *)
Definition timing_data_accumulate (timing_data : timing_data_t)
    (problem : coco_problem_t) : timing_data_t :=
  TimingData (number_of_dimensions timing_data)
    (current_idx timing_data)
    (output timing_data)
    (previous_dimension timing_data)
    (size_t_wrap (cumulative_evaluations timing_data +
                  coco_problem_get_evaluations problem))
    (start_time timing_data)
    (overall_start_time timing_data)
    (written timing_data).

(** [timing_data_time_problem]; [None] is the [NULL] problem. *)
Definition timing_data_time_problem (timing_data : timing_data_t)
    (problem : option coco_problem_t) (clock : wall_clock)
  : timing_data_t * wall_clock :=
  let new_segment :=
    match problem with
    | None => true
    | Some p =>
        negb (previous_dimension timing_data =? coco_problem_get_dimension p)
    end in
  if new_segment then
    let '(td1, clock1) :=
      if cumulative_evaluations timing_data >? 0 then
        let '(now, clock') := time clock in
        let elapsed_seconds :=
          (inject_Z (now - start_time timing_data) /
           inject_Z (cumulative_evaluations timing_data))%Q in
        (timing_data_write timing_data
           (SummaryLine (previous_dimension timing_data) elapsed_seconds),
         clock')
      else (timing_data, clock) in
    match problem with
    | Some p =>
        let '(now, clock2) := time clock1 in
        (timing_data_restart td1 p now, clock2)
    | None => (td1, clock1)
    end
  else
    match problem with
    | Some p => (timing_data_accumulate timing_data p, clock)
    | None => (timing_data, clock)
    end.

(** What [timing_data_finalize] prints: the summary strings found in
    [output], then the total elapsed time as hours, minutes and seconds. *)
Record timing_report : Type := TimingReport {
  report_lines : list summary_line;
  report_hours : Z;
  report_minutes : Z;
  report_seconds : Z
}.

Definition timing_data_finalize (timing_data : timing_data_t)
    (clock : wall_clock) : timing_report * timing_data_t * wall_clock :=
  let '(td, clock1) := timing_data_time_problem timing_data None clock in
  let '(now, clock2) := time clock1 in
  let elapsed_seconds := now - overall_start_time td in
  let lines :=
    omap (fun i => output td !!! i)
         (seq 0 (Z.to_nat (number_of_dimensions td))) in
  let hours := Z.quot elapsed_seconds 3600 in
  let minutes := Z.quot (Z.rem elapsed_seconds 3600) 60 in
  let seconds := elapsed_seconds - hours * 3600 - minutes * 60 in
  (TimingReport lines hours minutes seconds, td, clock2).

(** ** The experiment loop *)

Definition BUDGET_MULTIPLIER : Z := 100000.
Definition INDEPENDENT_RESTARTS : Z := 0.

(** The search strategy the driver calls, with the parameters of
    [my_search]. *)
Definition search_strategy : Type :=
  evaluate_function_t -> evaluate_function_t ->
  nat -> Z -> Z -> list Q -> list Q -> Z -> coco_problem_t -> search_result.

(** What the driver writes to the standard output. *)
Inductive output_line : Type :=
| StrategyOutput (text : string)
| BudgetNotExhaustedWarning (evaluations_done budget : Z)
| EndOfSuite
| TimingOutput (report : timing_report).

(** How one pass through the body of the restart loop ends. *)
Inductive run_end : Type :=
| StoppedBeforeCall      (* first [break]: target hit or no budget left *)
| StrategyDied (e : search_end) (* the call did not return *)
| StrategyMalfunction    (* the warning and the second [break] *)
| EvaluationsDecreased   (* [coco_error] *)
| RunCompleted.          (* the body is left at its end *)

Record run_record : Type := RunRecord {
  run_before : coco_problem_t;
  run_evaluations_done : Z;
  run_evaluations_remaining : Z;
  run_after : coco_problem_t;
  run_stdout : list output_line;
  run_ending : run_end
}.


(** The body of the loop [for (run = 1; run <= 1 + INDEPENDENT_RESTARTS; run++)].
    The difference of the two [long] values is taken in [Z]. *)
Definition restart_run (search : search_strategy) (multiplier : Z)
    (PROBLEM : coco_problem_t) : run_record :=
  let dimension := coco_problem_get_dimension PROBLEM in
  let evaluations_done :=
    size_t_wrap (coco_problem_get_evaluations PROBLEM +
                 coco_problem_get_evaluations_constraints PROBLEM) in
  let evaluations_remaining :=
    to_long (size_t_wrap (dimension * multiplier)) - to_long evaluations_done in
  if (coco_problem_final_target_hit PROBLEM &&
      (coco_problem_get_number_of_constraints PROBLEM =? 0))
     || (evaluations_remaining <=? 0)
  then RunRecord PROBLEM evaluations_done evaluations_remaining PROBLEM []
         StoppedBeforeCall
  else
    let result :=
      search evaluate_function evaluate_constraint
        (Z.to_nat dimension)
        (coco_problem_get_number_of_objectives PROBLEM)
        (coco_problem_get_number_of_constraints PROBLEM)
        (coco_problem_get_smallest_values_of_interest PROBLEM)
        (coco_problem_get_largest_values_of_interest PROBLEM)
        (size_t_wrap evaluations_remaining) PROBLEM in
    let P1 := search_problem result in
    let out := map StrategyOutput (search_stdout result) in
    if negb (returns_normally (search_ending result)) then
      RunRecord PROBLEM evaluations_done evaluations_remaining P1 out
        (StrategyDied (search_ending result))
    else if coco_problem_get_evaluations P1 =? evaluations_done then
      RunRecord PROBLEM evaluations_done evaluations_remaining P1
        (out ++ [BudgetNotExhaustedWarning evaluations_done
                   (size_t_wrap (dimension * multiplier))])
        StrategyMalfunction
    else if size_t_wrap (coco_problem_get_evaluations P1 +
                         coco_problem_get_evaluations_constraints P1)
            <? evaluations_done then
      RunRecord PROBLEM evaluations_done evaluations_remaining P1 out
        EvaluationsDecreased
    else
      RunRecord PROBLEM evaluations_done evaluations_remaining P1 out
        RunCompleted.

(** The restart loop, by recursion on the number of values of [run] still to
    take; it gives the runs made, in order. *)
Fixpoint restart_loop (search : search_strategy) (multiplier : Z)
    (runs_left : nat) (PROBLEM : coco_problem_t) : list run_record :=
  match runs_left with
  | O => []
  | S runs_left' =>
      let r := restart_run search multiplier PROBLEM in
      match run_ending r with
      | RunCompleted =>
          r :: restart_loop search multiplier runs_left' (run_after r)
      | _ => [r]
      end
  end.

(** The number of values [run] takes in [1 .. 1 + restarts]. *)
Definition number_of_runs (restarts : Z) : nat :=
  Z.to_nat (size_t_wrap (1 + restarts)).

Definition restarts_of_problem (search : search_strategy)
    (multiplier restarts : Z) (PROBLEM : coco_problem_t) : list run_record :=
  restart_loop search multiplier (number_of_runs restarts) PROBLEM.

(** The problem as the restart loop leaves it. *)
Definition problem_after (PROBLEM : coco_problem_t) (runs : list run_record)
  : coco_problem_t :=
  match last runs with
  | Some r => run_after r
  | None => PROBLEM
  end.

(** The state of [example_experiment] between two problems. *)
Record experiment_state : Type := ExperimentState {
  cnt : Z;
  prevDimension : Z;
  timing_data : timing_data_t;
  clock : wall_clock;
  stdout : list output_line;
  history : list (list run_record); (* the runs of each accepted problem *)
  processed : list coco_problem_t   (* the problems handed to the timing *)
}.

(** How [example_experiment] ends. *)
Inductive experiment_end : Type :=
| SuiteCompleted
| FatalError (message : string)   (* [coco_error] *)
| ProcessDied (e : search_end).

(** The test that sets [good]. *)
Definition in_function_range (firstFunction lastFunction cnt : Z) : bool :=
  let nInstances := 15 in
  ((firstFunction - 1) * nInstances <? cnt) &&
  (cnt <? lastFunction * nInstances + 1).

(** The ending of the process that the last run of a problem asks for. *)
Definition fatal_ending (runs : list run_record) : option experiment_end :=
  match last runs with
  | Some r =>
      match run_ending r with
      | EvaluationsDecreased =>
          Some (FatalError
            "Something unexpected happened - function evaluations were decreased!")
      | StrategyDied e => Some (ProcessDied e)
      | _ => None
      end
  | None => None
  end.

(** The loop [while ((PROBLEM = coco_suite_get_next_problem(...)) != NULL)],
    over the problems the suite still has to yield. *)
Fixpoint experiment_loop (search : search_strategy)
    (multiplier restarts firstFunction lastFunction : Z)
    (problems : list coco_problem_t) (s : experiment_state)
  : experiment_state * experiment_end :=
  match problems with
  | [] => (s, SuiteCompleted)
  | PROBLEM :: problems' =>
      let dimension := coco_problem_get_dimension PROBLEM in
      let cnt1 := if negb (dimension =? prevDimension s) then 1 else cnt s in
      if negb (in_function_range firstFunction lastFunction cnt1) then
        experiment_loop search multiplier restarts firstFunction lastFunction
          problems'
          (ExperimentState (cnt1 + 1) dimension (timing_data s) (clock s)
             (stdout s) (history s) (processed s))
      else
        let runs := restarts_of_problem search multiplier restarts PROBLEM in
        let out := stdout s ++ concat (map run_stdout runs) in
        match fatal_ending runs with
        | Some e =>
            (ExperimentState cnt1 dimension (timing_data s) (clock s) out
               (history s ++ [runs]) (processed s), e)
        | None =>
            let timed := problem_after PROBLEM runs in
            let '(td, clock1) :=
              timing_data_time_problem (timing_data s) (Some timed) (clock s) in
            experiment_loop search multiplier restarts firstFunction
              lastFunction problems'
              (ExperimentState (cnt1 + 1) dimension td clock1 out
                 (history s ++ [runs]) (processed s ++ [timed]))
        end
  end.

Definition example_experiment (search : search_strategy)
    (multiplier restarts firstFunction lastFunction : Z)
    (suite : coco_suite_t) (clock0 : wall_clock)
  : experiment_state * experiment_end :=
  let '(td0, clock1) := timing_data_initialize suite clock0 in
  match experiment_loop search multiplier restarts firstFunction lastFunction
          (suite_problems suite)
          (ExperimentState 1 0 td0 clock1 [] [] []) with
  | (s, SuiteCompleted) =>
      let '(report, td, clock2) :=
        timing_data_finalize (timing_data s) (clock s) in
      (ExperimentState (cnt s) (prevDimension s) td clock2
         (stdout s ++ [EndOfSuite; TimingOutput report]) (history s)
         (processed s),
       SuiteCompleted)
  | (s, e) => (s, e)
  end.

(** The timing calls of a run over the processed problems alone: one
    [timing_data_time_problem] per problem, in order. *)
Definition time_problems (problems : list coco_problem_t)
    (timing_data : timing_data_t) (clock : wall_clock)
  : timing_data_t * wall_clock :=
  foldl (fun '(td, c) p => timing_data_time_problem td (Some p) c)
        (timing_data, clock) problems.

(** Initialisation, the processed problems, then [timing_data_finalize]. *)
Definition timing_of_stream (suite : coco_suite_t)
    (processed : list coco_problem_t) (clock0 : wall_clock)
  : timing_report * timing_data_t * wall_clock :=
  let '(td0, clock1) := timing_data_initialize suite clock0 in
  let '(td1, clock2) := time_problems processed td0 clock1 in
  timing_data_finalize td1 clock2.

(** ** Notions used in the statements *)

(** *** Grid search *)

(** The rank of a node vector in the enumeration of the grid: its value as a
    number in base [max_nodes + 1], least significant digit first. *)
Fixpoint grid_rank (max_nodes : Z) (nodes : list Z) : Z :=
  match nodes with
  | [] => 0
  | n :: rest => n + (max_nodes + 1) * grid_rank max_nodes rest
  end.

(** Every coordinate index lies in [0 .. max_nodes]. *)
Definition grid_nodes_ok (max_nodes : Z) (nodes : list Z) : Prop :=
  Forall (fun n => 0 <= n <= max_nodes) nodes.

(** [x] has [dimension] coordinates and each lies between its bounds. *)
Definition within_bounds (dimension : nat) (lower_bounds upper_bounds : list Q)
    (x : point) : Prop :=
  length x = dimension /\
  forall j, (j < dimension)%nat ->
    (lower_bounds !!! j <= x !!! j)%Q /\ (x !!! j <= upper_bounds !!! j)%Q.

(** *** Random search *)

(** [x] has [dimension] coordinates and each lies in the half-open interval
    from its lower bound to its upper bound. *)
Definition within_half_open (dimension : nat)
    (lower_bounds upper_bounds : list Q) (x : point) : Prop :=
  length x = dimension /\
  forall j, (j < dimension)%nat ->
    (lower_bounds !!! j <= x !!! j)%Q /\ (x !!! j < upper_bounds !!! j)%Q.

(** The evaluator called and the point, for each record of the observer. *)
Definition calls_of (evaluated : list evaluation) : list (evaluator * list Q) :=
  map (fun e => (ev_kind e, ev_point e)) evaluated.

(** The calls of one iteration of random search on the point [x]. *)
Definition random_round (number_of_constraints : Z) (x : point)
  : list (evaluator * list Q) :=
  if 0 <? number_of_constraints
  then [(Objective, x); (Constraint, x)]
  else [(Objective, x)].

(** The source of random numbers delivers values of [[0, 1)]. *)
Definition uniform_source (g : coco_random_state_t) : Prop :=
  forall n, (0 <= deliveries g n)%Q /\ (deliveries g n < 1)%Q.

(** Random search makes [max_budget] iterations, each one an objective
    evaluation, followed when there are constraints by a constraint
    evaluation of the same point, and every point sampled lies in the
    half-open box of the bounds. *)
Definition random_search_samples (dimension : nat)
    (number_of_objectives number_of_constraints : Z)
    (lower_bounds upper_bounds : list Q) (max_budget : Z)
    (random_generator : coco_random_state_t) (PROBLEM : coco_problem_t)
  : Prop :=
  exists (points : list (list Q)) (evaluated : list evaluation),
    logged (fst (my_random_search evaluate_function evaluate_constraint
                   dimension number_of_objectives number_of_constraints
                   lower_bounds upper_bounds max_budget random_generator
                   PROBLEM))
      = logged PROBLEM ++ evaluated /\
    Z.of_nat (length points) = max_budget /\
    calls_of evaluated
      = concat (map (random_round number_of_constraints) points) /\
    Forall (within_half_open dimension lower_bounds upper_bounds) points.

(** *** The solver-backed search *)

(** The solver asks for an evaluation before it terminates or fails. *)
Definition asks_for_evaluation (solver : RayEs) : bool :=
  match solver with
  | AsksObjective _ _ | AsksConstraints _ _ => true
  | Terminates _ | Fails _ | Throws _ => false
  end.

(** The solver throws, before any request, something that is not a
    [std::exception]. *)
Definition throws_at_once (solver : RayEs) : bool :=
  match solver with
  | Throws _ => true
  | Terminates _ | Fails _ | AsksObjective _ _ | AsksConstraints _ _ => false
  end.

(** Whatever it is answered, the solver throws nothing but exceptions
    derived from [std::exception]. *)
Fixpoint throws_only_std (solver : RayEs) : Prop :=
  match solver with
  | Terminates _ | Fails _ => True
  | Throws _ => False
  | AsksObjective _ resume => forall y, throws_only_std (resume y)
  | AsksConstraints _ resume => forall y, throws_only_std (resume y)
  end.

(** The same for the solver built from any bounds and initial point. *)
Definition solver_throws_only_std
    (solver : list Q -> list Q -> list Q -> RayEs) : Prop :=
  forall lbnds ubnds rayInit, throws_only_std (solver lbnds ubnds rayInit).

(** Whatever leaves the [try] block is caught at the boundary of
    [my_search], which returns normally. *)
Definition failures_caught_at_boundary
    (solver : list Q -> list Q -> list Q -> RayEs)
    (dimension : nat) (number_of_objectives number_of_constraints : Z)
    (lower_bounds upper_bounds : list Q) (max_budget : Z)
    (PROBLEM : coco_problem_t) : Prop :=
  returns_normally
    (search_ending
       (my_search solver evaluate_function evaluate_constraint dimension
          number_of_objectives number_of_constraints
          lower_bounds upper_bounds max_budget PROBLEM)) = true.

(** The counters of the problem are [size_t] values and leave room for the
    two evaluations of the warm-up. *)
Definition counters_in_range (p : coco_problem_t) : Prop :=
  0 <= evaluations p /\ 0 <= evaluations_constraints p /\
  evaluations p + evaluations_constraints p + 2 < SIZE_T_MODULUS.

(** With a budget of zero, [my_search] makes the two evaluations of the
    warm-up, no other, and ends through the clause for
    [BudgetExhaustedException]. *)
Definition zero_budget_ends_by_exhaustion
    (solver : list Q -> list Q -> list Q -> RayEs)
    (dimension : nat) (number_of_objectives number_of_constraints : Z)
    (lower_bounds upper_bounds : list Q) (PROBLEM : coco_problem_t) : Prop :=
  let r := my_search solver evaluate_function evaluate_constraint dimension
             number_of_objectives number_of_constraints
             lower_bounds upper_bounds 0 PROBLEM in
  let x0 := coco_problem_get_initial_solution PROBLEM in
  calls_of (logged (search_problem r))
    = calls_of (logged PROBLEM) ++ [(Constraint, x0); (Objective, x0)] /\
  search_ending r = BudgetExhausted.



(** *** The restart loop *)

(** The value of [evaluations_remaining] that a run computes. *)
Definition remaining_of (multiplier : Z) (p : coco_problem_t) : Z :=
  to_long (size_t_wrap (dimension p * multiplier))
  - to_long (size_t_wrap (evaluations p + evaluations_constraints p)).

(** The test of the first [break]. *)
Definition stops_before_call (multiplier : Z) (p : coco_problem_t) : bool :=
  (final_target_hit p && (number_of_constraints p =? 0))
  || (remaining_of multiplier p <=? 0).

(** The strategy was called in the run and its call returned. *)
Definition strategy_returned (r : run_record) : bool :=
  match run_ending r with
  | StoppedBeforeCall | StrategyDied _ => false
  | StrategyMalfunction | EvaluationsDecreased | RunCompleted => true
  end.




(** The number of evaluations a run added to the trace of the observer. *)
Definition evaluations_performed (r : run_record) : nat :=
  length (logged (run_after r)) - length (logged (run_before r)).

(** The counters of a problem are [size_t] values whose sum is one too. *)
Definition counters_representable (p : coco_problem_t) : Prop :=
  0 <= evaluations p /\ 0 <= evaluations_constraints p /\
  evaluations p + evaluations_constraints p < SIZE_T_MODULUS.

(** The value of [cnt] with which a problem is tested for acceptance. *)
Definition cnt_for (s : experiment_state) (p : coco_problem_t) : Z :=
  if negb (dimension p =? prevDimension s) then 1 else cnt s.

(** *** Timing *)

(** The number of maximal runs of equal dimension in a stream. *)
Fixpoint dimension_groups (dims : list Z) : nat :=
  match dims with
  | [] => 0
  | d :: rest =>
      match rest with
      | [] => 1
      | d' :: _ =>
          if d =? d' then dimension_groups rest
          else S (dimension_groups rest)
      end
  end.

(** A bound on the summaries still to be written when the timing record
    tracks dimension [prev], its segment may ([live]) or may not have
    evaluations, and the problems to come have the dimensions [dims]: one
    for every change of dimension that ends a live segment, and one for the
    final flush. *)
Fixpoint pending_summaries (prev : Z) (live : bool) (dims : list Z) : nat :=
  match dims with
  | [] => if live then 1 else 0
  | d :: rest =>
      if prev =? d then pending_summaries prev true rest
      else ((if live then 1 else 0) + pending_summaries d true rest)%nat
  end.

(** The value the [k]-th coming call of [time()] returns. *)
Definition reading (clock : wall_clock) (k : nat) : Z :=
  readings clock (reads clock + k).

(** The clock after [k] more calls of [time()]. *)
Definition later (clock : wall_clock) (k : nat) : wall_clock :=
  WallClock (readings clock) (reads clock + k).

(** A later call of [time()] never returns an earlier time. *)
Definition monotone_clock (clock : wall_clock) : Prop :=
  forall m n, (m <= n)%nat -> readings clock m <= readings clock n.

(** The writes made so far lie inside [output]. *)
Definition writes_in_bounds (td : timing_data_t) : Prop :=
  Forall (fun i => 0 <= i < number_of_dimensions td) (written td).

(** The report of [timing_data_finalize] for a stream. *)
Definition report_of (suite : coco_suite_t) (processed : list coco_problem_t)
    (clock : wall_clock) : timing_report :=
  fst (fst (timing_of_stream suite processed clock)).

(** The timing of the stream gives three summary lines, each with a
    positive time per evaluation, and the timing of the empty stream gives
    no line and a total of zero. *)
Definition timing_reports_positive (suite : coco_suite_t)
    (processed : list coco_problem_t) (clock : wall_clock) : Prop :=
  let report := report_of suite processed clock in
  let empty := report_of suite [] clock in
  length (report_lines report) = 3%nat /\
  Forall (fun l => (0 < seconds_per_evaluation l)%Q) (report_lines report) /\
  report_lines empty = [] /\
  report_hours empty = 0 /\ report_minutes empty = 0 /\
  report_seconds empty = 0.

(** ** Concrete inputs for the examples *)

(** A problem as the suite yields it: no evaluation counted yet. *)
Definition new_problem (dimension number_of_constraints : Z)
    (lower_bounds upper_bounds x0 : list Q) : coco_problem_t :=
  Problem dimension 1 number_of_constraints lower_bounds upper_bounds x0
    0 0 false (fun _ => [0%Q]) (fun _ => [0%Q]) (fun _ => false) [].

(** A problem with the given readings of its two counters. *)
Definition used_problem (evaluations evaluations_constraints : Z)
  : coco_problem_t :=
  Problem 2 1 1 [(-5)%Q; (-5)%Q] [5%Q; 5%Q] [1%Q; 1%Q]
    evaluations evaluations_constraints false
    (fun _ => [0%Q]) (fun _ => [0%Q]) (fun _ => false) [].

(** A processed problem of the given dimension and number of evaluations. *)
Definition processed_problem (dimension evaluations : Z) : coco_problem_t :=
  Problem dimension 1 1 [] [] [] evaluations evaluations false
    (fun _ => [0%Q]) (fun _ => [0%Q]) (fun _ => false) [].

(** The stream of dimensions 2, 2, 3, 3, 3, 5, ten evaluations each. *)
Definition six_problems : list coco_problem_t :=
  [processed_problem 2 10; processed_problem 2 10; processed_problem 3 10;
   processed_problem 3 10; processed_problem 3 10; processed_problem 5 10].

(** A suite of the three dimensions 2, 3 and 5. *)
Definition three_dimensions : coco_suite_t := Suite [] 2.

(** A source of random numbers that always delivers one half. *)
Definition halves : coco_random_state_t := RandomState (fun _ => (1 # 2)%Q) 0.

(** A solver that fails before it asks for any evaluation. *)
Definition failing_solver : list Q -> list Q -> list Q -> RayEs :=
  fun _ _ _ => Fails "std::bad_alloc".

(** A solver that asks for the objective value at its initial point and
    then throws a value that is not a [std::exception]. *)
Definition throwing_solver : list Q -> list Q -> list Q -> RayEs :=
  fun _ _ rayInit =>
    AsksObjective rayInit (fun _ => Throws "singular matrix").

(** A solver that asks for the objective value at its initial point and
    then terminates. *)
Definition one_step_solver : list Q -> list Q -> list Q -> RayEs :=
  fun _ _ rayInit => AsksObjective rayInit (fun _ => Terminates "MaxIter").

(** A solver that asks for the objective value and for the constraint values
    at its initial point, and then terminates. *)
Definition two_step_solver : list Q -> list Q -> list Q -> RayEs :=
  fun _ _ rayInit =>
    AsksObjective rayInit (fun _ =>
    AsksConstraints rayInit (fun _ => Terminates "MaxIter")).

(** A strategy that returns at once, without any evaluation. *)
Definition idle_search : search_strategy :=
  fun _ _ _ _ _ _ _ _ PROBLEM => SearchResult PROBLEM [] (SolverTerminated "idle").

(** A strategy that evaluates the constraints once and nothing else. *)
Definition constraints_only_search : search_strategy :=
  fun _ evaluate_cons _ _ _ lower_bounds _ _ PROBLEM =>
    SearchResult (fst (evaluate_cons lower_bounds PROBLEM)) []
      (SolverTerminated "constraints only").

(** A strategy that hands back a problem whose counters were reset. *)
Definition resetting_search : search_strategy :=
  fun _ _ _ _ _ _ _ _ p =>
    SearchResult
      (Problem (dimension p) (number_of_objectives p) (number_of_constraints p)
         (smallest_values_of_interest p) (largest_values_of_interest p)
         (initial_solution p) 1 0 (final_target_hit p)
         (objective p) (constraint p) (reaches_target p) (logged p))
      [] (SolverTerminated "reset").

(** The state of the experiment before its first problem, with a clock that
    stands still. *)
Definition initial_state : experiment_state :=
  ExperimentState 1 0 (TimingData 6 0 (replicate 6 None) 0 0 0 0 [])
    (WallClock (fun _ => 0) 2) [] [] [].

(** A clock that stands still, and one that advances at every call. *)
Definition frozen_clock : wall_clock := WallClock (fun _ => 1000) 0.
Definition ticking_clock : wall_clock := WallClock (fun n => Z.of_nat n) 0.

(** ** The program as it is configured *)

(** What [main] prints around the experiment. *)
Inductive main_line : Type :=
| RunningTheExperiment
| ExperimentOutput (line : output_line)
| Done.

(** [main]: the suite ["bbob-constrained"], the functions 1 to 48, all the
    dimensions, and [my_search] as the strategy, as [example_experiment]
    calls it.  The exit status goes with the output: [0] after ["Done!"], and
    the end of the process where the experiment did not return. *)
Definition main (solver : list Q -> list Q -> list Q -> RayEs)
    (suite : coco_suite_t) (clock0 : wall_clock)
  : list main_line * experiment_end :=
  let firstFunction := 1 in
  let lastFunction := 48 in
  let '(s, e) :=
    example_experiment (my_search solver) BUDGET_MULTIPLIER
      INDEPENDENT_RESTARTS firstFunction lastFunction suite clock0 in
  match e with
  | SuiteCompleted =>
      (RunningTheExperiment :: map ExperimentOutput (stdout s) ++ [Done],
       SuiteCompleted)
  | _ => (RunningTheExperiment :: map ExperimentOutput (stdout s), e)
  end.

(** ** Further notions used in the statements *)

(** The node of the grid with a given rank: the digits of the rank in base
    [max_nodes + 1], least significant first. *)
Fixpoint grid_node_of_rank (max_nodes : Z) (dimension : nat) (rank : Z)
  : list Z :=
  match dimension with
  | O => []
  | S dimension' =>
      rank mod (max_nodes + 1)
      :: grid_node_of_rank max_nodes dimension' (rank / (max_nodes + 1))
  end.

(** The sum of the two counters of a problem, as a number. *)
Definition evaluations_sum (p : coco_problem_t) : Z :=
  evaluations p + evaluations_constraints p.

(** A problem as the suite yields it for [my_search]: nothing evaluated yet,
    one objective, at least one constraint, and a budget that is positive
    and fits [long]. *)
Definition new_constrained_problem (multiplier : Z) (p : coco_problem_t)
  : Prop :=
  evaluations p = 0 /\ evaluations_constraints p = 0 /\
  number_of_objectives p = 1 /\ 0 < number_of_constraints p /\
  0 < dimension p * multiplier < LONG_LIMIT.

(** The function number of the [cnt]-th problem of a dimension, with the 15
    instances of each function in a row. *)
Definition function_number (cnt : Z) : Z := (cnt - 1) / 15 + 1.

(** The first dimension of each maximal run of equal dimensions. *)
Fixpoint group_heads (dims : list Z) : list Z :=
  match dims with
  | [] => []
  | d :: rest =>
      match rest with
      | [] => [d]
      | d' :: _ => if d =? d' then group_heads rest else d :: group_heads rest
      end
  end.

(** The dimensions of the summaries still to be written when the timing
    record tracks [prev], its segment is live or not, and the problems to
    come have the dimensions [dims]. *)
Fixpoint summary_dimensions (prev : Z) (live : bool) (dims : list Z)
  : list Z :=
  match dims with
  | [] => if live then [prev] else []
  | d :: rest =>
      if prev =? d then summary_dimensions prev true rest
      else (if live then [prev] else []) ++ summary_dimensions d true rest
  end.

(** The sum of the objective evaluation counts of a stream. *)
Definition stream_evaluations (processed : list coco_problem_t) : Z :=
  foldr (fun p total => evaluations p + total) 0 processed.

(** The runs of the problem [p]: one run, made from [p], in which the
    strategy was called and returned, and which left between two
    evaluations and one more than the budget. *)
Definition completed_run_of (multiplier : Z) (p : coco_problem_t)
    (runs : list run_record) : Prop :=
  exists r, runs = [r] /\ run_before r = p /\ run_ending r = RunCompleted /\
    2 <= evaluations_sum (run_after r) <= dimension p * multiplier + 1.

(** The problems of a stream that pass the test of [good], in their order,
    when the stream is entered with the given values of [prevDimension] and
    [cnt]: [cnt] starts again at 1 when the dimension changes, and counts
    every problem, accepted or not. *)
Fixpoint accepted_problems (firstFunction lastFunction : Z)
    (prevDimension cnt : Z) (problems : list coco_problem_t)
  : list coco_problem_t :=
  match problems with
  | [] => []
  | PROBLEM :: problems' =>
      let dimension := coco_problem_get_dimension PROBLEM in
      let cnt1 := if negb (dimension =? prevDimension) then 1 else cnt in
      let rest :=
        accepted_problems firstFunction lastFunction dimension (cnt1 + 1)
          problems' in
      if in_function_range firstFunction lastFunction cnt1
      then PROBLEM :: rest
      else rest
  end.

(** A line that is not the warning of the restart loop. *)
Definition not_a_warning (line : output_line) : Prop :=
  forall a b, line <> BudgetNotExhaustedWarning a b.

(** The problem as the experiment hands it to the timing, after its runs. *)
Definition processed_as (search : search_strategy) (multiplier restarts : Z)
    (p : coco_problem_t) : coco_problem_t :=
  problem_after p (restarts_of_problem search multiplier restarts p).

(** The point random search samples in its iteration [i], read off the
    source of random numbers: coordinate [j] takes the delivery number
    [i * dimension + j] after those already drawn. *)
Definition random_sample (dimension : nat) (lower_bounds upper_bounds : list Q)
    (g : coco_random_state_t) (i : nat) : list Q :=
  map (fun j =>
         (lower_bounds !!! j
          + deliveries g (drawn g + i * dimension + j)
            * (upper_bounds !!! j - lower_bounds !!! j))%Q)
      (seq 0 dimension).

(** The elapsed time that [timing_data_finalize] casts to [int] fits it,
    whenever the clock is read. *)
Definition elapsed_fits_int (clock : wall_clock) : Prop :=
  forall k, reading clock k - reading clock 1 < 2 ^ 31.

(** A clock that ticks once a reading for a day and then stands still. *)
Definition day_clock : wall_clock :=
  WallClock (fun n => Z.min (Z.of_nat n) 86400) 0.

(** ** The point computations in binary64 arithmetic *)

Module Binary64.

(** A [double]: an IEEE 754 binary64 number, with the operations of the
    Standard Library's specification of floating-point arithmetic, which
    round to nearest, ties to even. *)
Definition double : Type := spec_float.

Definition prec : Z := 53.
Definition emax : Z := 1024.

#[global] Instance double_inhabited : Inhabited double :=
  populate (S754_zero false).

(** [(double) n] for an integer [n]. *)
Definition of_Z (n : Z) : double := binary_normalize prec emax n 0 false.

Definition add : double -> double -> double := SFadd prec emax.
Definition sub : double -> double -> double := SFsub prec emax.
Definition mul : double -> double -> double := SFmul prec emax.
Definition div : double -> double -> double := SFdiv prec emax.

(** The double nearest to the quotient of two integers. *)
Definition quotient (n d : Z) : double := div (of_Z n) (of_Z d).

(** The rational a finite double stands for.  An infinity or a NaN stands
    for no rational: the statements are made where the results are finite. *)
Definition value (x : double) : Q :=
  match x with
  | S754_finite s m e =>
      let q := (inject_Z (Z.pos m) * 2 ^ e)%Q in
      if s then (- q)%Q else q
  | S754_zero _ | S754_infinity _ | S754_nan => 0%Q
  end.

(** [grid_step[j] = (upper_bounds[j] - lower_bounds[j]) / (double) max_nodes]. *)
Definition grid_steps (dimension : nat) (lower_bounds upper_bounds : list double)
    (max_nodes : Z) : list double :=
  map (fun j => div (sub (upper_bounds !!! j) (lower_bounds !!! j))
                    (of_Z max_nodes))
      (seq 0 dimension).

(** [x[j] = lower_bounds[j] + grid_step[j] * (double) nodes[j]]. *)
Definition grid_point (dimension : nat) (lower_bounds grid_step : list double)
    (nodes : list Z) : list double :=
  map (fun j => add (lower_bounds !!! j)
                    (mul (grid_step !!! j) (of_Z (nodes !!! j))))
      (seq 0 dimension).

(** The loop of [my_grid_search], with the point of each node computed in
    binary64 arithmetic. *)
Fixpoint grid_loop (evaluate : evaluate_function_t) (max_nodes : Z)
    (dimension : nat) (lower_bounds grid_step : list double)
    (remaining : nat) (nodes : list Z) (PROBLEM : coco_problem_t)
  : coco_problem_t :=
  match remaining with
  | O => PROBLEM
  | S remaining' =>
      let x := grid_point dimension lower_bounds grid_step nodes in
      let '(PROBLEM', _) := evaluate (map value x) PROBLEM in
      let '(nodes', at_end) := grid_advance max_nodes dimension nodes in
      if at_end then PROBLEM'
      else grid_loop evaluate max_nodes dimension lower_bounds grid_step
             remaining' nodes' PROBLEM'
  end.

Definition my_grid_search (floor_pow : Z -> nat -> Z)
    (evaluate : evaluate_function_t)
    (dimension : nat) (number_of_objectives : Z)
    (lower_bounds upper_bounds : list double) (max_budget : Z)
    (PROBLEM : coco_problem_t) : coco_problem_t :=
  let max_nodes := grid_max_nodes floor_pow dimension max_budget in
  let nodes := replicate dimension 0 in
  let grid_step := grid_steps dimension lower_bounds upper_bounds max_nodes in
  grid_loop evaluate max_nodes dimension lower_bounds grid_step
    (Z.to_nat max_budget) nodes PROBLEM.

(** The double that [coco_random_uniform] returns when the source delivers
    the rational [u]. *)
Definition of_Q (u : Q) : double := quotient (Qnum u) (Z.pos (Qden u)).

(** The inner loop of [my_random_search]:
    [range = upper_bounds[j] - lower_bounds[j]] and
    [x[j] = lower_bounds[j] + coco_random_uniform(random_generator) * range]. *)
Fixpoint random_point (lower_bounds upper_bounds : list double) (js : list nat)
    (random_generator : coco_random_state_t)
  : list double * coco_random_state_t :=
  match js with
  | [] => ([], random_generator)
  | j :: js' =>
      let range := sub (upper_bounds !!! j) (lower_bounds !!! j) in
      let '(u, g1) := coco_random_uniform random_generator in
      let xj := add (lower_bounds !!! j) (mul (of_Q u) range) in
      let '(xs, g2) := random_point lower_bounds upper_bounds js' g1 in
      (xj :: xs, g2)
  end.

End Binary64.

(** The number of evaluations the claim about grid search gives, with the
    exact root. *)
Definition grid_evaluations_claimed (dimension : nat) (max_budget : Z) : Z :=
  let max_nodes := Z.max 1 (exact_floor_pow max_budget dimension - 1) in
  Z.min max_budget ((max_nodes + 1) ^ Z.of_nat dimension).

(** A source of random numbers that always delivers three quarters. *)
Definition three_quarters : coco_random_state_t :=
  RandomState (fun _ => (3 # 4)%Q) 0.

(** * Properties *)

(** ** Grid search *)

Section grid_enumeration.
Variable max_nodes : Z.
Hypothesis max_nodes_pos : 1 <= max_nodes.

Lemma grid_rank_app (l1 l2 : list Z) :
  grid_rank max_nodes (l1 ++ l2) =
  grid_rank max_nodes l1 + (max_nodes + 1) ^ Z.of_nat (length l1) * grid_rank max_nodes l2.
Proof.
  induction l1 as [|n l1 IH]; simpl length; simpl app; simpl grid_rank.
  - lia.
  - rewrite IH, Nat2Z.inj_succ, Z.pow_succ_r by lia. ring.
Qed.

Lemma grid_rank_replicate_0 (j : nat) : grid_rank max_nodes (replicate j 0) = 0.
Proof. induction j as [|j IH]; simpl; [reflexivity | rewrite IH; lia]. Qed.

Lemma grid_rank_replicate_max (j : nat) :
  grid_rank max_nodes (replicate j max_nodes) = (max_nodes + 1) ^ Z.of_nat j - 1.
Proof.
  induction j as [|j IH]; [reflexivity|].
  simpl replicate; simpl grid_rank.
  rewrite IH, Nat2Z.inj_succ, Z.pow_succ_r by lia. ring.
Qed.

Lemma grid_rank_bounds (nodes : list Z) :
  grid_nodes_ok max_nodes nodes ->
  0 <= grid_rank max_nodes nodes < (max_nodes + 1) ^ Z.of_nat (length nodes).
Proof.
  induction 1 as [|n rest Hn _ IH]; simpl length; simpl grid_rank.
  - lia.
  - rewrite Nat2Z.inj_succ, Z.pow_succ_r by lia. nia.
Qed.

Lemma all_max_replicate (rest : list Z) :
  Forall (fun n => n = max_nodes) rest ->
  rest = replicate (length rest) max_nodes.
Proof. induction 1 as [|n rest -> _ IH]; simpl; [done | by rewrite <- IH]. Qed.

Lemma reset_below_spec (j : nat) (nodes : list Z) :
  (j <= length nodes)%nat ->
  reset_below j nodes = replicate j 0 ++ drop j nodes.
Proof.
  unfold reset_below. induction j as [|j IH]; intros Hj.
  - by rewrite drop_0.
  - rewrite seq_S, foldl_app. simpl. rewrite IH by lia.
    destruct (lookup_lt_is_Some_2 nodes j) as [x Hx]; [lia|].
    rewrite (drop_S _ x j Hx).
    rewrite insert_app_r_alt by (rewrite length_replicate; lia).
    rewrite length_replicate, Nat.sub_diag. simpl.
    rewrite app_comm_cons, replicate_cons_app, <- app_assoc. done.
Qed.

(** The carry loop, started at index [j] on nodes whose first [j]
    coordinates are at [max_nodes]: either all the others are at
    [max_nodes] too and nothing changes, or the rank grows by one. *)
Lemma grid_carry_spec (rest : list Z) (j j' : nat) (nodes' : list Z) :
  grid_nodes_ok max_nodes rest ->
  grid_carry max_nodes (length rest) j (replicate j max_nodes ++ rest)
    = (j', nodes') ->
  (j' = (j + length rest)%nat /\ nodes' = replicate j max_nodes ++ rest /\
     Forall (fun n => n = max_nodes) rest)
  \/ ((j' < j + length rest)%nat /\
      grid_rank max_nodes nodes' = grid_rank max_nodes (replicate j max_nodes ++ rest) + 1 /\
      grid_nodes_ok max_nodes nodes' /\
      length nodes' = length (replicate j max_nodes ++ rest)).
Proof.
  revert j. induction rest as [|r rest IH]; intros j Hok Hrun.
  - simpl in Hrun. injection Hrun as <- <-. left.
    rewrite Nat.add_0_r. done.
  - inversion Hok as [|? ? Hr Hrest]; subst.
    assert (Hlook : (replicate j max_nodes ++ r :: rest) !!! j = r).
    { apply list_lookup_total_correct.
      rewrite lookup_app_r by (rewrite length_replicate; lia).
      by rewrite length_replicate, Nat.sub_diag. }
    cbn [length grid_carry] in Hrun. rewrite Hlook in Hrun.
    destruct (Z.ltb_spec r max_nodes) as [Hlt|Hge].
    + right. injection Hrun as <- <-.
      rewrite insert_app_r_alt by (rewrite length_replicate; lia).
      rewrite length_replicate, Nat.sub_diag. cbn [insert list_insert].
      rewrite reset_below_spec
        by (rewrite length_app, length_replicate; simpl; lia).
      rewrite drop_app_length' by (by rewrite length_replicate).
      split; [simpl; lia|]. split; [|split].
      * rewrite !grid_rank_app, grid_rank_replicate_0,
          grid_rank_replicate_max, !length_replicate. simpl. ring.
      * apply Forall_app. split.
        -- apply Forall_replicate. lia.
        -- constructor; [lia | done].
      * rewrite !length_app, !length_replicate. done.
    + assert (r = max_nodes) as -> by lia.
      assert (Heq : replicate j max_nodes ++ max_nodes :: rest
                    = replicate (S j) max_nodes ++ rest)
        by (rewrite replicate_S_end, <- app_assoc; done).
      rewrite Heq in Hrun |- *.
      destruct (IH (S j) Hrest Hrun)
        as [(-> & -> & Hall) | (Hlt & Hrank & Hok' & Hlen)].
      * left. split; [simpl; lia|]. split; [done|]. by constructor.
      * right. split; [simpl; lia|]. done.
Qed.

(** One move of the enumeration: at the last node the loop is left, at any
    other node the rank grows by one. *)
Lemma grid_advance_spec (dimension : nat) (nodes nodes' : list Z)
    (at_end : bool) :
  (1 <= dimension)%nat -> length nodes = dimension -> grid_nodes_ok max_nodes nodes ->
  grid_advance max_nodes dimension nodes = (nodes', at_end) ->
  (at_end = true /\
     grid_rank max_nodes nodes = (max_nodes + 1) ^ Z.of_nat dimension - 1)
  \/ (at_end = false /\ grid_rank max_nodes nodes' = grid_rank max_nodes nodes + 1 /\
      grid_nodes_ok max_nodes nodes' /\ length nodes' = dimension).
Proof.
  intros Hd Hlen Hok. unfold grid_advance.
  destruct nodes as [|n rest]; [simpl in Hlen; lia|].
  inversion Hok as [|? ? Hn Hrest]; subst.
  change ((n :: rest) !!! 0%nat) with n.
  destruct (Z.ltb_spec n max_nodes) as [Hlt|Hge].
  - intros [= <- <-]. right. simpl. split; [done|]. split; [lia|].
    split; [|done]. constructor; [lia | done].
  - assert (n = max_nodes) as -> by lia.
    destruct (Z.ltb_spec 0 max_nodes) as [_|?]; [|lia].
    cbn [length]. replace (S (length rest) - 1)%nat with (length rest) by lia.
    destruct (grid_carry max_nodes (length rest) 1 (max_nodes :: rest))
      as [j1 nodes1] eqn:Hrun.
    intros [= <- <-].
    destruct (grid_carry_spec rest 1 j1 nodes1 Hrest Hrun)
      as [(-> & -> & Hall) | (Hlt & Hrank & Hok' & Hlen')].
    + left. rewrite Nat.eqb_refl. cbn [andb]. split.
      * apply Z.eqb_eq.
        replace (1 + length rest - 1)%nat with (length rest) by lia.
        rewrite (all_max_replicate rest Hall).
        change (replicate 1 max_nodes ++
                replicate (length rest) max_nodes)
          with (replicate (S (length rest)) max_nodes).
        rewrite length_replicate.
        apply list_lookup_total_correct, lookup_replicate_2. lia.
      * rewrite (all_max_replicate rest Hall).
        change (max_nodes :: replicate (length rest) max_nodes)
          with (replicate (S (length rest)) max_nodes).
        rewrite grid_rank_replicate_max, length_replicate. done.
    + right. replace (j1 =? S (length rest))%nat with false
        by (symmetry; apply Nat.eqb_neq; lia).
      cbn [andb]. split; [done|]. split; [done|]. split; [done|].
      simpl in Hlen'. done.
Qed.
End grid_enumeration.

Lemma lookup_total_map_seq {A : Type} `{!Inhabited A} (f : nat -> A) (n j : nat) :
  (j < n)%nat -> map f (seq 0 n) !!! j = f j.
Proof.
  intros Hj. apply list_lookup_total_correct.
  change (map f (seq 0 n)) with (f <$> seq 0 n).
  rewrite list_lookup_fmap, lookup_seq_lt by done. done.
Qed.

Lemma map_seq_shift {A : Type} (f : nat -> A) (n : nat) :
  map f (seq 1 n) = map (fun k => f (S k)) (seq 0 n).
Proof. by rewrite <- seq_shift, map_map. Qed.

(** C1 on the code.  In the arithmetic of [double], [my_grid_search] leaves
    the box and misses the count of the claim.  With one dimension, the
    bounds 0 and 0.1 and a budget of 12, where [floor(pow(12, 1))] is 12 and
    [max_nodes] is 11, the twelfth point evaluated is
    [0 + (0.1 / 11) * 11], which is above 0.1.  With three dimensions and a
    budget of 64, when [floor(pow(64, 1.0 / 3.0))] is 3, as it is for a [pow]
    that rounds correctly, since [1.0 / 3.0] is below one third, 27 points
    are evaluated where the claim gives 64. *)
Theorem my_grid_search_leaves_box (floor_pow : Z -> nat -> Z) :
  (floor_pow 12 1%nat = 12 ->
   let lower := [Binary64.of_Z 0] in
   let upper := [Binary64.quotient 1 10] in
   let evaluated :=
     map ev_point
       (logged (Binary64.my_grid_search floor_pow evaluate_function 1 1
                  lower upper 12
                  (new_problem 1 0 (map Binary64.value lower)
                     (map Binary64.value upper) [0%Q]))) in
   (Binary64.value (lower !!! 0%nat) <= Binary64.value (upper !!! 0%nat))%Q /\
   length evaluated = 12%nat /\
   exists x, last evaluated = Some x /\
     (Binary64.value (upper !!! 0%nat) < x !!! 0%nat)%Q) /\
  (floor_pow 64 3%nat = 3 ->
   let lower := replicate 3 (Binary64.of_Z (-5)) in
   let upper := replicate 3 (Binary64.of_Z 5) in
   let evaluated :=
     logged (Binary64.my_grid_search floor_pow evaluate_function 3 1
               lower upper 64
               (new_problem 3 0 (map Binary64.value lower)
                  (map Binary64.value upper) [0%Q; 0%Q; 0%Q])) in
   length evaluated = 27%nat /\ grid_evaluations_claimed 3 64 = 64).
Proof.
  split; intros Hpow; cbv zeta;
    unfold Binary64.my_grid_search, grid_max_nodes; rewrite Hpow.
  - split; [by vm_compute|]. split; [vm_compute; reflexivity|].
    eexists. split; vm_compute; reflexivity.
  - split; vm_compute; reflexivity.
Qed.

(** The scenario of the specification: dimension 2, bounds [-5, 5] on both
    axes and a budget of 25 give [max_nodes = 4] and the 25 nodes of the
    5 x 5 grid, 2.5 apart, the first coordinate moving fastest. *)
Example grid_search_5_by_5 :
  grid_max_nodes exact_floor_pow 2 25 = 4 /\
  let evaluated :=
    map ev_point
      (logged (my_grid_search exact_floor_pow evaluate_function 2 1
                 [(-5)%Q; (-5)%Q] [5%Q; 5%Q] 25
                 (new_problem 2 0 [(-5)%Q; (-5)%Q] [5%Q; 5%Q] [0%Q; 0%Q]))) in
  length evaluated = 25%nat /\
  Forall2 (Forall2 Qeq) (take 6 evaluated)
    [[(-5)%Q; (-5)%Q]; [(-5 # 2)%Q; (-5)%Q]; [0%Q; (-5)%Q];
     [(5 # 2)%Q; (-5)%Q]; [5%Q; (-5)%Q]; [(-5)%Q; (-5 # 2)%Q]].
Proof.
  split; [reflexivity|]. split; [reflexivity|].
  vm_compute. repeat constructor.
Qed.

(** [exact_floor_pow b d] is the integer part of the [d]-th root of [b]. *)
Lemma filter_threshold_seq (P : nat -> Prop) `{!forall r, Decision (P r)}
    (a n : nat) :
  (forall r r', (a <= r <= r')%nat -> P r' -> P r) ->
  filter P (seq a n) = seq a (length (filter P (seq a n))).
Proof.
  revert a. induction n as [|n IH]; intros a Hdown; [done|].
  cbn [seq]. rewrite filter_cons. destruct (decide (P a)) as [Ha|Hna].
  - cbn [length seq]. f_equal. apply IH.
    intros r r' Hr. apply Hdown. lia.
  - destruct (filter P (seq (S a) n)) as [|r l] eqn:Hrest; [done|].
    assert (Hr : r ∈ filter P (seq (S a) n))
      by (rewrite Hrest; apply list_elem_of_here).
    apply list_elem_of_filter in Hr as [Pr Hr]. apply elem_of_seq in Hr.
    exfalso. apply Hna. apply (Hdown a r); [lia | done].
Qed.

Lemma exact_floor_pow_spec (b : Z) (d : nat) :
  1 <= b -> (1 <= d)%nat ->
  let r := exact_floor_pow b d in
  1 <= r /\ r ^ Z.of_nat d <= b < (r + 1) ^ Z.of_nat d.
Proof.
  intros Hb Hd. cbv zeta. unfold exact_floor_pow.
  set (P := fun r : nat => Z.of_nat r ^ Z.of_nat d <= b).
  assert (Hdown : forall r r', (1 <= r <= r')%nat -> P r' -> P r).
  { intros r r' Hr HP. unfold P in *.
    etrans; [|exact HP]. apply Z.pow_le_mono_l. lia. }
  pose proof (filter_threshold_seq P 1 (Z.to_nat b) Hdown) as Hfilter.
  set (k := length (filter P (seq 1 (Z.to_nat b)))) in *.
  assert (Hmem : forall r, r ∈ seq 1 k <-> P r /\ r ∈ seq 1 (Z.to_nat b))
    by (intros r; rewrite <- Hfilter; apply list_elem_of_filter).
  assert (Hk : (k <= Z.to_nat b)%nat).
  { unfold k. etrans; [apply length_filter|]. by rewrite length_seq. }
  assert (H1 : P 1%nat).
  { unfold P. rewrite Z.pow_1_l by lia. done. }
  assert (Hk1 : (1 <= k)%nat).
  { assert (H : 1%nat ∈ seq 1 k)
      by (apply Hmem; split; [done | apply elem_of_seq; lia]).
    apply elem_of_seq in H. lia. }
  split; [lia|]. split.
  - assert (H : k ∈ seq 1 k) by (apply elem_of_seq; lia).
    apply Hmem in H as [HP _]. exact HP.
  - destruct (decide (k = Z.to_nat b)) as [Heq|Hne].
    + replace (Z.of_nat k) with b by lia.
      assert (b + 1 <= (b + 1) ^ Z.of_nat d); [|lia].
      replace (Z.of_nat d) with (Z.succ (Z.of_nat (d - 1))) by lia.
      rewrite Z.pow_succ_r by lia.
      assert (0 < (b + 1) ^ Z.of_nat (d - 1))
        by (apply Z.pow_pos_nonneg; lia).
      nia.
    + apply Z.lt_nge. intros HP.
      assert (H : S k ∈ seq 1 k).
      { apply Hmem. split.
        - unfold P. replace (Z.of_nat (S k)) with (Z.of_nat k + 1) by lia.
          exact HP.
        - apply elem_of_seq. lia. }
      apply elem_of_seq in H. lia.
Qed.

(** ** Random search *)

Lemma random_point_explicit (lower_bounds upper_bounds : list Q) (n a : nat)
    (g : coco_random_state_t) :
  random_point lower_bounds upper_bounds (seq a n) g
  = (map (fun j =>
            (lower_bounds !!! j
             + deliveries g (drawn g + (j - a))
               * (upper_bounds !!! j - lower_bounds !!! j))%Q)
         (seq a n),
     RandomState (deliveries g) (drawn g + n)).
Proof.
  revert a g. induction n as [|n IH]; intros a g.
  - cbn. rewrite Nat.add_0_r. by destruct g.
  - cbn [seq random_point]. unfold coco_random_uniform.
    rewrite IH. cbn [deliveries drawn map].
    rewrite Nat.sub_diag, Nat.add_0_r. f_equal.
    + f_equal. apply map_ext_in. intros j Hj. apply in_seq in Hj.
      do 3 f_equal. lia.
    + f_equal. lia.
Qed.

(** The iterations of random search: the points they sample and what is
    left of the random source. *)
Lemma random_loop_explicit (dimension : nat) (number_of_constraints : Z)
    (lower_bounds upper_bounds : list Q) (remaining : nat)
    (g : coco_random_state_t) (PROBLEM : coco_problem_t) :
  let result :=
    random_loop evaluate_function evaluate_constraint dimension
      number_of_constraints lower_bounds upper_bounds remaining g PROBLEM in
  snd result = RandomState (deliveries g) (drawn g + remaining * dimension) /\
  exists evaluated : list evaluation,
    logged (fst result) = logged PROBLEM ++ evaluated /\
    calls_of evaluated
    = concat (map (random_round number_of_constraints)
                (map (random_sample dimension lower_bounds upper_bounds g)
                   (seq 0 remaining))).
Proof.
  cbv zeta. revert g PROBLEM.
  induction remaining as [|remaining IH]; intros g PROBLEM.
  - cbn. rewrite Nat.add_0_r. split; [by destruct g|].
    exists []. by rewrite app_nil_r.
  - cbn [random_loop]. rewrite random_point_explicit.
    set (x := map _ (seq 0 dimension)).
    assert (Hx : x = random_sample dimension lower_bounds upper_bounds g 0).
    { unfold x, random_sample. apply map_ext. intros j.
      do 3 f_equal. lia. }
    change (evaluate_function x PROBLEM)
      with (coco_evaluate_function PROBLEM x).
    cbn [coco_evaluate_function].
    match goal with
    | |- context [random_loop _ _ _ _ _ _ _ ?g1 ?P] =>
        destruct (IH g1 P) as (Hgen & evs & Hlog & Hcalls)
    end.
    cbn [deliveries drawn] in Hgen, Hcalls.
    split.
    + rewrite Hgen. f_equal. lia.
    + assert (Hrest :
        map (random_sample dimension lower_bounds upper_bounds
               (RandomState (deliveries g) (drawn g + dimension)))
            (seq 0 remaining)
        = map (random_sample dimension lower_bounds upper_bounds g)
            (seq 1 remaining)).
      { rewrite map_seq_shift. apply map_ext. intros i.
        unfold random_sample. cbn [deliveries drawn].
        apply map_ext. intros j. do 3 f_equal. lia. }
      rewrite Hrest in Hcalls. rewrite Hlog.
      cbn [seq map concat]. rewrite <- Hx.
      unfold calls_of in Hcalls |- *. rewrite <- Hcalls.
      unfold random_round.
      destruct (0 <? number_of_constraints).
      * eexists (_ :: _ :: evs).
        cbn [fst evaluate_constraint coco_evaluate_constraint logged].
        rewrite <- !app_assoc. split; reflexivity.
      * eexists (_ :: evs). cbn [logged].
        rewrite <- !app_assoc. split; reflexivity.
Qed.

(** With every lower bound at most its upper bound, a sampled point lies
    between the bounds. *)
Lemma random_sample_within_bounds (dimension : nat)
    (lower_bounds upper_bounds : list Q) (g : coco_random_state_t) (i : nat) :
  uniform_source g ->
  (forall j, (j < dimension)%nat ->
     (lower_bounds !!! j <= upper_bounds !!! j)%Q) ->
  within_bounds dimension lower_bounds upper_bounds
    (random_sample dimension lower_bounds upper_bounds g i).
Proof.
  intros Hg Hbounds. split.
  - unfold random_sample. by rewrite length_map, length_seq.
  - intros j Hj. unfold random_sample.
    rewrite lookup_total_map_seq by done.
    destruct (Hg (drawn g + i * dimension + j)%nat) as [H0 H1].
    specialize (Hbounds j Hj). split; nra.
Qed.

(** C7, as the code has it.  For every budget and bound vectors with
    [lower[j] <= upper[j]], [my_random_search] performs exactly [budget]
    objective evaluations, each followed when the problem has constraints by
    one constraint evaluation of the same point, and every sampled
    coordinate lies in the closed interval from [lower[j]] to [upper[j]]. *)
Theorem my_random_search_samples (dimension : nat)
    (number_of_objectives number_of_constraints : Z)
    (lower_bounds upper_bounds : list Q) (max_budget : Z)
    (random_generator : coco_random_state_t) (PROBLEM : coco_problem_t) :
  0 <= max_budget ->
  uniform_source random_generator ->
  (forall j, (j < dimension)%nat ->
     (lower_bounds !!! j <= upper_bounds !!! j)%Q) ->
  exists (points : list (list Q)) (evaluated : list evaluation),
    logged (fst (my_random_search evaluate_function evaluate_constraint
                   dimension number_of_objectives number_of_constraints
                   lower_bounds upper_bounds max_budget random_generator
                   PROBLEM))
      = logged PROBLEM ++ evaluated /\
    Z.of_nat (length points) = max_budget /\
    calls_of evaluated
      = concat (map (random_round number_of_constraints) points) /\
    Forall (within_bounds dimension lower_bounds upper_bounds) points.
Proof.
  intros Hb Hg Hbounds. unfold my_random_search.
  destruct (random_loop_explicit dimension number_of_constraints lower_bounds
              upper_bounds (Z.to_nat max_budget) random_generator PROBLEM)
    as (_ & evs & Hlog & Hcalls).
  eexists _, evs. split; [exact Hlog|]. split; [|split; [exact Hcalls|]].
  - rewrite length_map, length_seq. lia.
  - apply Forall_forall. intros x Hx.
    apply list_elem_of_fmap in Hx as (i & -> & _).
    by apply random_sample_within_bounds.
Qed.

Lemma my_random_search_samples_witness :
  exists (points : list (list Q)) (evaluated : list evaluation),
    logged (fst (my_random_search evaluate_function evaluate_constraint
                   2 1 1 [0%Q; 1%Q] [1%Q; 1%Q] 2 halves
                   (new_problem 2 1 [0%Q; 1%Q] [1%Q; 1%Q] [0%Q; 1%Q])))
      = [] ++ evaluated /\
    Z.of_nat (length points) = 2 /\
    calls_of evaluated = concat (map (random_round 1) points) /\
    Forall (within_bounds 2 [0%Q; 1%Q] [1%Q; 1%Q]) points.
Proof.
  apply (my_random_search_samples 2 1 1 [0%Q; 1%Q] [1%Q; 1%Q] 2 halves).
  - lia.
  - intros n. split; by vm_compute.
  - intros j Hj. destruct j as [|[|j]]; [by vm_compute | by vm_compute | lia].
Defined.

(** C7, as stated, fails when a lower bound equals its upper bound: the
    interval [[lower[j], upper[j])] is then empty, and the point sampled is
    the bound itself. *)
Lemma my_random_search_degenerate_bounds :
  uniform_source halves /\
  ~ random_search_samples 1 1 0 [0%Q] [0%Q] 1 halves
      (new_problem 1 0 [0%Q] [0%Q] [0%Q]).
Proof.
  split; [intros n; split; by vm_compute|].
  intros (points & evs & Hlog & Hcount & Hcalls & Hall).
  cbn in Hlog. subst evs.
  destruct points as [|x [|x' points]]; [simpl in Hcount; lia | |
    simpl in Hcount; lia].
  cbn in Hcalls. injection Hcalls as <-.
  inversion Hall as [|? ? [_ Hx] _]; subst.
  destruct (Hx 0%nat) as [_ Hlt]; [lia|].
  vm_compute in Hlt. discriminate.
Qed.

(** In the arithmetic of [double] the upper bound itself is sampled, also
    when the lower bound is below it and the number drawn is below one: with
    the bounds [1e16] and [1e16 + 2] and the number 0.75, the sum
    [1e16 + 0.75 * 2] rounds to [1e16 + 2]. *)
Lemma random_point_reaches_upper_bound :
  let lower := [Binary64.of_Z 10000000000000000] in
  let upper := [Binary64.of_Z 10000000000000002] in
  uniform_source three_quarters /\
  (Binary64.value (lower !!! 0%nat) < Binary64.value (upper !!! 0%nat))%Q /\
  fst (Binary64.random_point lower upper [0%nat] three_quarters) = upper.
Proof.
  split; [intros n; split; by vm_compute|].
  split; vm_compute; reflexivity.
Qed.

(** ** The solver-backed search *)

Lemma logged_evaluate_function (x : list Q) (p : coco_problem_t) :
  logged (fst (evaluate_function x p))
  = logged p ++ [Evaluation Objective x (evaluations_total p)].
Proof. reflexivity. Qed.

Lemma logged_evaluate_constraint (x : list Q) (p : coco_problem_t) :
  logged (fst (evaluate_constraint x p))
  = logged p ++ [Evaluation Constraint x (evaluations_total p)].
Proof. reflexivity. Qed.

Lemma logged_warm_up (p : coco_problem_t) :
  logged (my_search_warm_up evaluate_function evaluate_constraint p)
  = logged p ++
    [Evaluation Constraint (initial_solution p) (evaluations_total p);
     Evaluation Objective (initial_solution p)
       (evaluations_total (fst (evaluate_constraint (initial_solution p) p)))].
Proof.
  unfold my_search_warm_up. cbn. rewrite <- app_assoc. reflexivity.
Qed.

Lemma initial_solution_warm_up (p : coco_problem_t) :
  initial_solution (my_search_warm_up evaluate_function evaluate_constraint p)
  = initial_solution p.
Proof. reflexivity. Qed.

(** After the warm-up the count of evaluations is two more than before. *)
Lemma evaluations_total_warm_up (p : coco_problem_t) :
  counters_in_range p ->
  evaluations_total (my_search_warm_up evaluate_function evaluate_constraint p)
  = evaluations p + evaluations_constraints p + 2.
Proof.
  intros (He & Hc & Hsum).
  unfold my_search_warm_up, evaluations_total, size_t_wrap. cbn.
  unfold size_t_wrap, SIZE_T_MODULUS in *.
  rewrite Zplus_mod_idemp_l, Zplus_mod_idemp_r, Z.mod_small; lia.
Qed.

(** The wrappers throw nothing but [BudgetExhaustedException], they throw it
    without touching the problem, and only above the budget. *)
Lemma evalFuncWrapper_throws (dimension : nat) (max_budget : Z)
    (xVec : list Q) (p p' : coco_problem_t) (e : exception) :
  evalFuncWrapper evaluate_function dimension max_budget xVec p = (p', inl e) ->
  e = BudgetExhaustedException /\ p' = p /\ max_budget < evaluations_total p.
Proof.
  unfold evalFuncWrapper.
  destruct (Z.gtb_spec (evaluations_total p) max_budget) as [Hgt|Hle].
  - intros [= <- <-]. done.
  - cbn. discriminate.
Qed.

Lemma evalConsWrapper_throws (dimension : nat) (number_of_constraints : Z)
    (max_budget : Z) (xVec : list Q) (p p' : coco_problem_t) (e : exception) :
  evalConsWrapper evaluate_constraint dimension number_of_constraints
    max_budget xVec p = (p', inl e) ->
  e = BudgetExhaustedException /\ p' = p /\ max_budget < evaluations_total p.
Proof.
  unfold evalConsWrapper.
  destruct (Z.gtb_spec (evaluations_total p) max_budget) as [Hgt|Hle].
  - intros [= <- <-]. done.
  - cbn. discriminate.
Qed.

(** Every evaluation the solver obtains through the wrappers was asked for
    at a moment when the count did not exceed the budget. *)
Lemma solver_run_logged (dimension : nat) (number_of_constraints : Z)
    (max_budget : Z) (solver : RayEs) (p : coco_problem_t) :
  exists rest : list evaluation,
    logged (fst (solver_run evaluate_function evaluate_constraint dimension
                   number_of_constraints max_budget solver p))
      = logged p ++ rest /\
    Forall (fun e => ev_count e <= max_budget) rest.
Proof.
  revert p. induction solver as [c | w | v | xVec resume IH | xVec resume IH];
    intros p; cbn [solver_run].
  - exists []. by rewrite app_nil_r.
  - exists []. by rewrite app_nil_r.
  - exists []. by rewrite app_nil_r.
  - unfold evalFuncWrapper.
    destruct (Z.gtb_spec (evaluations_total p) max_budget) as [Hgt|Hle].
    + exists []. by rewrite app_nil_r.
    + cbn [evaluate_function coco_evaluate_function].
      match goal with
      | |- context [solver_run _ _ _ _ _ (resume ?y) ?P] =>
          destruct (IH y P) as (rest & Hlog & Hall)
      end.
      eexists (_ :: rest). rewrite Hlog. cbn [logged].
      rewrite <- app_assoc. split; [reflexivity|].
      constructor; [exact Hle | exact Hall].
  - unfold evalConsWrapper.
    destruct (Z.gtb_spec (evaluations_total p) max_budget) as [Hgt|Hle].
    + exists []. by rewrite app_nil_r.
    + cbn [evaluate_constraint coco_evaluate_constraint].
      match goal with
      | |- context [solver_run _ _ _ _ _ (resume ?y) ?P] =>
          destruct (IH y P) as (rest & Hlog & Hall)
      end.
      eexists (_ :: rest). rewrite Hlog. cbn [logged].
      rewrite <- app_assoc. split; [reflexivity|].
      constructor; [exact Hle | exact Hall].
Qed.

(** Above the budget the solver obtains nothing: its first request, if it
    makes one, is answered by [BudgetExhaustedException]. *)
Lemma solver_run_exhausted (dimension : nat) (number_of_constraints : Z)
    (max_budget : Z) (solver : RayEs) (p : coco_problem_t) :
  max_budget < evaluations_total p ->
  fst (solver_run evaluate_function evaluate_constraint dimension
         number_of_constraints max_budget solver p) = p /\
  (asks_for_evaluation solver = true ->
   snd (solver_run evaluate_function evaluate_constraint dimension
          number_of_constraints max_budget solver p)
   = inl BudgetExhaustedException).
Proof.
  intros Hgt. apply Z.gtb_lt in Hgt.
  destruct solver as [c | w | v | xVec resume | xVec resume];
    cbn [solver_run].
  - done.
  - done.
  - done.
  - unfold evalFuncWrapper. rewrite Hgt. done.
  - unfold evalConsWrapper. rewrite Hgt. done.
Qed.

(** A solver that throws nothing but [std::exception]s leaves the [try]
    block with nothing else. *)
Lemma solver_run_throws_only_std (dimension : nat) (number_of_constraints : Z)
    (max_budget : Z) (solver : RayEs) (p : coco_problem_t) (value : string) :
  throws_only_std solver ->
  snd (solver_run evaluate_function evaluate_constraint dimension
         number_of_constraints max_budget solver p)
  <> inl (other_throwable value).
Proof.
  revert p. induction solver as [c | w | v | xVec resume IH | xVec resume IH];
    intros p Hstd; cbn [solver_run].
  - done.
  - done.
  - done.
  - unfold evalFuncWrapper.
    destruct (evaluations_total p >? max_budget); [done|].
    destruct (evaluate_function (copy_vector dimension xVec) p) as [p1 y].
    apply IH, Hstd.
  - unfold evalConsWrapper.
    destruct (evaluations_total p >? max_budget); [done|].
    destruct (evaluate_constraint (copy_vector dimension xVec) p) as [p1 y].
    apply IH, Hstd.
Qed.

(** The two [catch] clauses leave uncaught what is not a [std::exception],
    and nothing else. *)
Lemma my_search_catch_returns (p : coco_problem_t) (thrown : exception + string) :
  returns_normally (search_ending (my_search_catch p thrown))
  = match thrown with
    | inl (other_throwable _) => false
    | _ => true
    end.
Proof. destruct thrown as [[|w|v]|c]; reflexivity. Qed.

(** When its two assertions hold, [my_search] is the warm-up, the [try]
    block and the [catch] clauses. *)
Lemma my_search_asserted
    (solver : list Q -> list Q -> list Q -> RayEs)
    (dimension : nat) (number_of_objectives number_of_constraints : Z)
    (lower_bounds upper_bounds : list Q) (max_budget : Z)
    (PROBLEM : coco_problem_t) :
  number_of_objectives = 1 -> 0 < number_of_constraints ->
  let tried :=
    my_search_try solver evaluate_function evaluate_constraint dimension
      number_of_constraints (copy_vector dimension lower_bounds)
      (copy_vector dimension upper_bounds) max_budget
      (my_search_warm_up evaluate_function evaluate_constraint PROBLEM) in
  my_search solver evaluate_function evaluate_constraint dimension
    number_of_objectives number_of_constraints
    lower_bounds upper_bounds max_budget PROBLEM
  = my_search_catch (fst tried) (snd tried).
Proof.
  intros -> Hcons tried. unfold my_search.
  replace (number_of_constraints >? 0) with true
    by (symmetry; apply Z.gtb_lt; lia).
  cbn [Z.eqb Pos.eqb negb]. fold tried. by destruct tried.
Qed.

(** When its assertions hold, [my_search] returns normally or what the
    solver threw is not a [std::exception]; it returns normally for a solver
    that throws nothing else. *)
Lemma my_search_returns
    (solver : list Q -> list Q -> list Q -> RayEs)
    (dimension : nat) (number_of_objectives number_of_constraints : Z)
    (lower_bounds upper_bounds : list Q) (max_budget : Z)
    (PROBLEM : coco_problem_t) :
  number_of_objectives = 1 -> 0 < number_of_constraints ->
  let r := my_search solver evaluate_function evaluate_constraint dimension
             number_of_objectives number_of_constraints
             lower_bounds upper_bounds max_budget PROBLEM in
  (returns_normally (search_ending r) = true \/
   exists value, search_ending r = Uncaught (other_throwable value)) /\
  (solver_throws_only_std solver -> returns_normally (search_ending r) = true).
Proof.
  intros Hobj Hcons r. subst r.
  rewrite my_search_asserted by done. unfold my_search_try.
  match goal with
  | |- context [solver_run _ _ ?d ?c ?b ?s ?p] =>
      pose proof (fun value => solver_run_throws_only_std d c b s p value)
        as Hstd;
      destruct (solver_run evaluate_function evaluate_constraint d c b s p)
        as [P3 thrown]
  end.
  cbn [fst snd] in Hstd |- *.
  destruct thrown as [[|w|v]|c]; cbn; split; try (by left); try done.
  - right. by exists v.
  - intros Hsolver. destruct (Hstd v); [apply Hsolver | done].
Qed.

(** The evaluations [my_search] adds when its assertions hold: the pair of
    the warm-up, then those the solver obtains, each asked for at a moment
    when the count did not exceed the budget. *)
Lemma my_search_logged
    (solver : list Q -> list Q -> list Q -> RayEs)
    (dimension : nat) (number_of_objectives number_of_constraints : Z)
    (lower_bounds upper_bounds : list Q) (max_budget : Z)
    (PROBLEM : coco_problem_t) :
  number_of_objectives = 1 -> 0 < number_of_constraints ->
  let r := my_search solver evaluate_function evaluate_constraint dimension
             number_of_objectives number_of_constraints
             lower_bounds upper_bounds max_budget PROBLEM in
  let x0 := coco_problem_get_initial_solution PROBLEM in
  exists e1 e2 rest,
    logged (search_problem r) = logged PROBLEM ++ e1 :: e2 :: rest /\
    calls_of [e1; e2] = [(Constraint, x0); (Objective, x0)] /\
    ev_count e1 = evaluations_total PROBLEM /\
    Forall (fun e => ev_count e <= max_budget) rest.
Proof.
  intros Hobj Hcons r x0. subst r.
  rewrite my_search_asserted by done. unfold my_search_try.
  match goal with
  | |- context [solver_run _ _ ?d ?c ?b ?s ?p] =>
      destruct (solver_run_logged d c b s p) as (rest & Hlog & Hall);
      destruct (solver_run evaluate_function evaluate_constraint d c b s p)
        as [P3 thrown]
  end.
  cbn [fst snd] in Hlog |- *. rewrite logged_warm_up in Hlog.
  eexists _, _, rest. split; [|split; [|split]].
  - destruct thrown as [[|w|v]|c]; cbn [my_search_catch
      catch_BudgetExhaustedException catch_std_exception search_problem];
      rewrite Hlog, <- app_assoc; reflexivity.
  - reflexivity.
  - reflexivity.
  - exact Hall.
Qed.

(** C6, as the code has it.  When the assertions hold, what leaves the
    [try] block decides how [my_search] ends.  A
    [BudgetExhaustedException] of a wrapper is caught by the first clause,
    silently, and [my_search] returns normally; a failure of the solver that
    is a [std::exception] is caught by the second clause, which prints its
    message, and [my_search] returns normally; what the solver throws that
    is not derived from [std::exception] is caught by no clause and leaves
    [my_search], with nothing printed.  In every case the problem keeps the
    evaluations made inside the block.  So [my_search] returns normally for
    every solver that throws nothing but [std::exception]s. *)
Theorem my_search_catches_at_boundary
    (solver : list Q -> list Q -> list Q -> RayEs)
    (dimension : nat) (number_of_objectives number_of_constraints : Z)
    (lower_bounds upper_bounds : list Q) (max_budget : Z)
    (PROBLEM : coco_problem_t) :
  number_of_objectives = 1 -> 0 < number_of_constraints ->
  let r := my_search solver evaluate_function evaluate_constraint dimension
             number_of_objectives number_of_constraints
             lower_bounds upper_bounds max_budget PROBLEM in
  let warmed :=
    my_search_warm_up evaluate_function evaluate_constraint PROBLEM in
  let started :=
    solver (copy_vector dimension lower_bounds)
      (copy_vector dimension upper_bounds)
      (copy_vector dimension (coco_problem_get_initial_solution warmed)) in
  let tried :=
    solver_run evaluate_function evaluate_constraint dimension
      number_of_constraints max_budget started warmed in
  search_problem r = fst tried /\
  match snd tried with
  | inl BudgetExhaustedException =>
      search_ending r = BudgetExhausted /\ search_stdout r = [] /\
      returns_normally (search_ending r) = true
  | inl (std_exception what) =>
      search_ending r = UnexpectedError what /\
      search_stdout r = [("unexpected error: " ++ what)%string] /\
      returns_normally (search_ending r) = true
  | inl (other_throwable value) =>
      search_ending r = Uncaught (other_throwable value) /\
      search_stdout r = [] /\
      returns_normally (search_ending r) = false
  | inr criterion =>
      search_ending r = SolverTerminated criterion /\
      search_stdout r
      = [("Termination criterion: " ++ criterion ++ ".")%string] /\
      returns_normally (search_ending r) = true
  end /\
  (throws_only_std started -> returns_normally (search_ending r) = true).
Proof.
  intros Hobj Hcons r warmed started tried. subst r.
  rewrite my_search_asserted by done. unfold my_search_try.
  fold warmed started tried.
  pose proof (fun value =>
                solver_run_throws_only_std dimension number_of_constraints
                  max_budget started warmed value) as Hstd.
  fold tried in Hstd.
  destruct tried as [P3 thrown]. cbn [fst snd] in Hstd |- *.
  destruct thrown as [[|w|v]|c]; cbn; repeat split; try done.
  intros Hsolver. by destruct (Hstd v Hsolver).
Qed.

Lemma my_search_catches_at_boundary_witness :
  let r := my_search failing_solver evaluate_function evaluate_constraint 2
             1 1 [(-5)%Q; (-5)%Q] [5%Q; 5%Q] 10
             (new_problem 2 1 [(-5)%Q; (-5)%Q] [5%Q; 5%Q] [1%Q; 1%Q]) in
  returns_normally (search_ending r) = true /\
  search_stdout r = ["unexpected error: std::bad_alloc"%string].
Proof.
  pose proof (my_search_catches_at_boundary failing_solver 2 1 1
                [(-5)%Q; (-5)%Q] [5%Q; 5%Q] 10
                (new_problem 2 1 [(-5)%Q; (-5)%Q] [5%Q; 5%Q] [1%Q; 1%Q])
                eq_refl ltac:(lia)) as (_ & Hcatch & _).
  split; [exact (proj2 (proj2 Hcatch)) | exact (proj1 (proj2 Hcatch))].
Defined.

(** C6, as stated, fails for a solver that throws something that is not a
    [std::exception]: neither clause catches it, and [my_search] does not
    return. *)
Lemma my_search_uncaught_throwable :
  ~ failures_caught_at_boundary throwing_solver 2 1 1
      [(-5)%Q; (-5)%Q] [5%Q; 5%Q] 10
      (new_problem 2 1 [(-5)%Q; (-5)%Q] [5%Q; 5%Q] [1%Q; 1%Q]).
Proof.
  unfold failures_caught_at_boundary. vm_compute. discriminate.
Qed.

(** C3, as the code has it.  When its assertions hold, [my_search] first
    evaluates the constraints and then the objective at the initial solution
    of the problem, whatever [max_budget] is, and hands the problem to the
    solver only then.  With [max_budget = 0] no other evaluation is made, and
    [my_search] returns normally unless the solver throws, before any
    request, something that is not a [std::exception]; it ends through the
    clause for [BudgetExhaustedException] when the solver asks for an
    evaluation. *)
Theorem my_search_warm_up_pair
    (solver : list Q -> list Q -> list Q -> RayEs)
    (dimension : nat) (number_of_objectives number_of_constraints : Z)
    (lower_bounds upper_bounds : list Q) (max_budget : Z)
    (PROBLEM : coco_problem_t) :
  number_of_objectives = 1 -> 0 < number_of_constraints ->
  let r := my_search solver evaluate_function evaluate_constraint dimension
             number_of_objectives number_of_constraints
             lower_bounds upper_bounds max_budget PROBLEM in
  let x0 := coco_problem_get_initial_solution PROBLEM in
  let warmed := my_search_warm_up evaluate_function evaluate_constraint PROBLEM in
  (calls_of (logged warmed)
     = calls_of (logged PROBLEM) ++ [(Constraint, x0); (Objective, x0)] /\
   search_problem r
     = fst (my_search_try solver evaluate_function evaluate_constraint
              dimension number_of_constraints
              (copy_vector dimension lower_bounds)
              (copy_vector dimension upper_bounds) max_budget warmed) /\
   exists rest, logged (search_problem r) = logged warmed ++ rest) /\
  (max_budget = 0 -> counters_in_range PROBLEM ->
   search_problem r = warmed /\
   returns_normally (search_ending r)
   = negb (throws_at_once
             (solver (copy_vector dimension lower_bounds)
                (copy_vector dimension upper_bounds)
                (copy_vector dimension x0))) /\
   (asks_for_evaluation
      (solver (copy_vector dimension lower_bounds)
         (copy_vector dimension upper_bounds)
         (copy_vector dimension x0)) = true ->
    search_ending r = BudgetExhausted)).
Proof.
  intros Hobj Hcons r x0 warmed.
  pose proof (my_search_asserted solver dimension number_of_objectives
                number_of_constraints lower_bounds upper_bounds max_budget
                PROBLEM Hobj Hcons) as Hr.
  cbv zeta in Hr. fold r warmed in Hr.
  assert (Hproblem : search_problem r
            = fst (my_search_try solver evaluate_function evaluate_constraint
                     dimension number_of_constraints
                     (copy_vector dimension lower_bounds)
                     (copy_vector dimension upper_bounds) max_budget warmed)).
  { rewrite Hr. by destruct (snd _) as [[|w|v]|c]. }
  split; [split; [|split]|].
  - unfold warmed. rewrite logged_warm_up.
    unfold calls_of. rewrite map_app. reflexivity.
  - exact Hproblem.
  - rewrite Hproblem. unfold my_search_try.
    match goal with
    | |- context [solver_run _ _ ?d ?c ?b ?s ?p] =>
        destruct (solver_run_logged d c b s p) as (rest & Hlog & _)
    end.
    by exists rest.
  - intros -> Hrange.
    assert (Hgt : 0 < evaluations_total warmed).
    { unfold warmed. rewrite evaluations_total_warm_up by done.
      destruct Hrange as (? & ? & ?). lia. }
    unfold my_search_try in Hproblem, Hr.
    match type of Hproblem with
    | _ = fst (solver_run _ _ _ _ _ ?s _) =>
        destruct (solver_run_exhausted dimension number_of_constraints 0 s
                    warmed Hgt) as [Hsame Hthrown]
    end.
    split; [by rewrite Hproblem|].
    split.
    + rewrite Hr, my_search_catch_returns.
      change (initial_solution warmed) with x0 in Hthrown |- *.
      destruct (solver _ _ _) as [c | w | v | xVec resume | xVec resume];
        cbn [throws_at_once negb];
        [reflexivity | reflexivity | reflexivity | |];
        by rewrite Hthrown.
    + intros Hasks. rewrite Hr, Hthrown by exact Hasks. reflexivity.
Qed.

Lemma my_search_warm_up_pair_witness :
  let r := my_search one_step_solver evaluate_function evaluate_constraint 2
             1 1 [(-5)%Q; (-5)%Q] [5%Q; 5%Q] 0
             (new_problem 2 1 [(-5)%Q; (-5)%Q] [5%Q; 5%Q] [1%Q; 1%Q]) in
  calls_of (logged (search_problem r))
    = [(Constraint, [1%Q; 1%Q]); (Objective, [1%Q; 1%Q])] /\
  search_ending r = BudgetExhausted.
Proof.
  pose proof (my_search_warm_up_pair one_step_solver 2 1 1
                [(-5)%Q; (-5)%Q] [5%Q; 5%Q] 0
                (new_problem 2 1 [(-5)%Q; (-5)%Q] [5%Q; 5%Q] [1%Q; 1%Q])
                eq_refl ltac:(lia)) as [(Hcalls & _) Hzero].
  destruct (Hzero eq_refl) as (Hsame & _ & Hend).
  - unfold counters_in_range, SIZE_T_MODULUS. simpl. lia.
  - split; [rewrite Hsame; exact Hcalls | apply Hend; reflexivity].
Defined.

(** C3, as stated, fails for a solver that fails before its first request:
    with [max_budget = 0] the call then ends through the clause for
    [std::exception]. *)
Lemma my_search_zero_budget_solver_failure :
  ~ zero_budget_ends_by_exhaustion failing_solver 2 1 1
      [(-5)%Q; (-5)%Q] [5%Q; 5%Q]
      (new_problem 2 1 [(-5)%Q; (-5)%Q] [5%Q; 5%Q] [1%Q; 1%Q]).
Proof. intros [_ Hend]. vm_compute in Hend. discriminate. Qed.

(** ** The restart loop *)

Lemma to_long_small (n : Z) : 0 <= n < LONG_LIMIT -> to_long n = n.
Proof.
  unfold to_long, LONG_LIMIT, SIZE_T_MODULUS. intros Hn.
  rewrite Z.mod_small by lia.
  destruct (Z.ltb_spec n (2 ^ 63)); lia.
Qed.

Lemma size_t_wrap_small (n : Z) : 0 <= n < SIZE_T_MODULUS -> size_t_wrap n = n.
Proof. intros Hn. unfold size_t_wrap. by apply Z.mod_small. Qed.

Lemma to_long_range (n : Z) : - LONG_LIMIT <= to_long n < LONG_LIMIT.
Proof.
  unfold to_long, LONG_LIMIT, SIZE_T_MODULUS.
  pose proof (Z.mod_pos_bound n (2 ^ 64) ltac:(lia)).
  destruct (Z.ltb_spec (n mod 2 ^ 64) (2 ^ 63)); lia.
Qed.

Lemma restart_run_before (search : search_strategy) (multiplier : Z)
    (p : coco_problem_t) :
  let r := restart_run search multiplier p in
  run_before r = p /\
  run_evaluations_done r
    = size_t_wrap (evaluations p + evaluations_constraints p) /\
  run_evaluations_remaining r = remaining_of multiplier p.
Proof.
  unfold restart_run. fold (remaining_of multiplier p).
  fold (stops_before_call multiplier p).
  repeat match goal with
         | |- context [if ?b then _ else _] => destruct b
         end; done.
Qed.

Lemma restart_run_stopped (search : search_strategy) (multiplier : Z)
    (p : coco_problem_t) :
  run_ending (restart_run search multiplier p) = StoppedBeforeCall
  <-> stops_before_call multiplier p = true.
Proof.
  unfold restart_run. fold (remaining_of multiplier p).
  fold (stops_before_call multiplier p).
  destruct (stops_before_call multiplier p); [done|].
  split; [|done].
  repeat match goal with
         | |- context [if ?b then _ else _] => destruct b
         end; done.
Qed.

(** The problem a run leaves, when the strategy was called. *)
Lemma restart_run_after (search : search_strategy) (multiplier : Z)
    (p : coco_problem_t) :
  stops_before_call multiplier p = false ->
  run_after (restart_run search multiplier p)
  = search_problem
      (search evaluate_function evaluate_constraint
         (Z.to_nat (dimension p)) (number_of_objectives p)
         (number_of_constraints p) (smallest_values_of_interest p)
         (largest_values_of_interest p)
         (size_t_wrap (remaining_of multiplier p)) p).
Proof.
  intros Hgo. unfold restart_run. fold (remaining_of multiplier p).
  fold (stops_before_call multiplier p). rewrite Hgo.
  repeat match goal with
         | |- context [if ?b then _ else _] => destruct b
         end; done.
Qed.

Lemma remaining_of_budget (multiplier : Z) (p : coco_problem_t) :
  stops_before_call multiplier p = false ->
  0 < remaining_of multiplier p /\
  size_t_wrap (remaining_of multiplier p) = remaining_of multiplier p.
Proof.
  unfold stops_before_call. intros Hgo.
  apply orb_false_iff in Hgo as [_ Hrem]. apply Z.leb_gt in Hrem.
  split; [done|]. apply size_t_wrap_small.
  unfold remaining_of in *.
  pose proof (to_long_range (size_t_wrap (dimension p * multiplier))).
  pose proof (to_long_range
                (size_t_wrap (evaluations p + evaluations_constraints p))).
  unfold LONG_LIMIT, SIZE_T_MODULUS in *. lia.
Qed.

(** Every record of the restart loop is the run made from the problem it
    started with. *)
Lemma restart_loop_runs (search : search_strategy) (multiplier : Z)
    (runs_left : nat) (p : coco_problem_t) :
  Forall (fun r => r = restart_run search multiplier (run_before r))
         (restart_loop search multiplier runs_left p).
Proof.
  revert p. induction runs_left as [|n IH]; intros p; cbn [restart_loop].
  - constructor.
  - assert (Hr : restart_run search multiplier p
                 = restart_run search multiplier
                     (run_before (restart_run search multiplier p)))
      by (by rewrite (proj1 (restart_run_before search multiplier p))).
    destruct (run_ending (restart_run search multiplier p));
      repeat constructor; try exact Hr. apply IH.
Qed.



(** A run that does not end with [RunCompleted] is the last one. *)
Lemma restart_loop_last (search : search_strategy) (multiplier : Z)
    (runs_left : nat) (p : coco_problem_t) (r : run_record) :
  r ∈ restart_loop search multiplier runs_left p ->
  run_ending r <> RunCompleted ->
  last (restart_loop search multiplier runs_left p) = Some r.
Proof.
  revert p. induction runs_left as [|n IH]; intros p; cbn [restart_loop].
  - intros Hin. by apply elem_of_nil in Hin.
  - destruct (run_ending (restart_run search multiplier p)) eqn:Hend;
      intros Hin Hne.
    1-4: apply list_elem_of_singleton in Hin; by subst.
    apply elem_of_cons in Hin as [-> | Hin]; [congruence|].
    rewrite last_cons. by rewrite (IH _ Hin Hne).
Qed.


(** The ending of a run in which the strategy is called. *)
Lemma restart_run_called (search : search_strategy) (multiplier : Z)
    (p : coco_problem_t) :
  stops_before_call multiplier p = false ->
  let result :=
    search evaluate_function evaluate_constraint
      (Z.to_nat (dimension p)) (number_of_objectives p)
      (number_of_constraints p) (smallest_values_of_interest p)
      (largest_values_of_interest p)
      (size_t_wrap (remaining_of multiplier p)) p in
  let P1 := search_problem result in
  let evaluations_done :=
    size_t_wrap (evaluations p + evaluations_constraints p) in
  run_ending (restart_run search multiplier p)
  = if negb (returns_normally (search_ending result))
    then StrategyDied (search_ending result)
    else if evaluations P1 =? evaluations_done then StrategyMalfunction
    else if size_t_wrap (evaluations P1 + evaluations_constraints P1)
            <? evaluations_done
    then EvaluationsDecreased
    else RunCompleted.
Proof.
  intros Hgo. unfold restart_run. fold (remaining_of multiplier p).
  fold (stops_before_call multiplier p). rewrite Hgo. cbv zeta.
  repeat match goal with
         | |- context [if ?b then _ else _] => destruct b
         end; done.
Qed.





(** C5.  When the strategy was called in a run and returned, and the sum of
    the two counters of the problem is smaller after the call than before,
    the run ends in [coco_error]: it is the last run, and the experiment
    stops there with the fatal error, whatever problems remain. *)
Theorem evaluations_decrease_is_fatal (search : search_strategy)
    (multiplier restarts firstFunction lastFunction : Z)
    (PROBLEM : coco_problem_t) (problems : list coco_problem_t)
    (s : experiment_state) (r : run_record) :
  let runs := restarts_of_problem search multiplier restarts PROBLEM in
  r ∈ runs ->
  strategy_returned r = true ->
  counters_representable (run_before r) ->
  counters_representable (run_after r) ->
  evaluations (run_after r) + evaluations_constraints (run_after r)
    < evaluations (run_before r) + evaluations_constraints (run_before r) ->
  run_ending r = EvaluationsDecreased /\
  last runs = Some r /\
  (in_function_range firstFunction lastFunction (cnt_for s PROBLEM) = true ->
   snd (experiment_loop search multiplier restarts firstFunction lastFunction
          (PROBLEM :: problems) s)
   = FatalError
       "Something unexpected happened - function evaluations were decreased!").
Proof.
  intros runs Hin Hret (He & Hc & Hsum) (He' & Hc' & Hsum') Hless.
  assert (Hr : r = restart_run search multiplier (run_before r)).
  { pose proof (restart_loop_runs search multiplier (number_of_runs restarts)
                  PROBLEM) as Hall.
    rewrite Forall_forall in Hall. by apply Hall. }
  remember (run_before r) as p eqn:Hp.
  assert (Hgo : stops_before_call multiplier p = false).
  { destruct (stops_before_call multiplier p) eqn:Hstop; [|done].
    apply restart_run_stopped with (search := search) in Hstop.
    rewrite <- Hr in Hstop. unfold strategy_returned in Hret.
    by rewrite Hstop in Hret. }
  assert (Hend : run_ending r = EvaluationsDecreased).
  { pose proof (restart_run_called search multiplier p Hgo) as Hcase.
    pose proof (restart_run_after search multiplier p Hgo) as Hafter.
    cbv zeta in Hcase. rewrite <- Hafter, <- Hr in Hcase.
    rewrite (size_t_wrap_small (evaluations p + evaluations_constraints p))
      in Hcase by lia.
    rewrite (size_t_wrap_small
               (evaluations (run_after r)
                + evaluations_constraints (run_after r))) in Hcase by lia.
    destruct (negb _) eqn:Hdied in Hcase.
    { unfold strategy_returned in Hret. by rewrite Hcase in Hret. }
    destruct (Z.eqb_spec (evaluations (run_after r))
                (evaluations p + evaluations_constraints p)) as [Heq|_].
    { lia. }
    destruct (Z.ltb_spec
                (evaluations (run_after r)
                 + evaluations_constraints (run_after r))
                (evaluations p + evaluations_constraints p)); [done | lia]. }
  assert (Hlast : last runs = Some r).
  { apply restart_loop_last; [done | by rewrite Hend]. }
  split; [done|]. split; [done|].
  intros Hgood. cbn [experiment_loop]. fold (cnt_for s PROBLEM).
  rewrite Hgood. cbn [negb]. fold runs.
  unfold fatal_ending. rewrite Hlast, Hend. reflexivity.
Qed.

Lemma evaluations_decrease_is_fatal_witness :
  snd (experiment_loop resetting_search BUDGET_MULTIPLIER INDEPENDENT_RESTARTS
         1 48 [used_problem 3 2; used_problem 0 0] initial_state)
  = FatalError
      "Something unexpected happened - function evaluations were decreased!".
Proof.
  refine (proj2 (proj2 (evaluations_decrease_is_fatal resetting_search
            BUDGET_MULTIPLIER INDEPENDENT_RESTARTS 1 48 (used_problem 3 2)
            [used_problem 0 0] initial_state
            (restart_run resetting_search BUDGET_MULTIPLIER (used_problem 3 2))
            _ _ _ _ _)) _).
  - vm_compute. apply list_elem_of_here.
  - reflexivity.
  - unfold counters_representable, SIZE_T_MODULUS. simpl. lia.
  - unfold counters_representable, SIZE_T_MODULUS. simpl. lia.
  - simpl. lia.
  - reflexivity.
Defined.



(** ** Timing *)

Lemma pending_summaries_live (prev : Z) (live : bool) (dims : list Z) :
  (pending_summaries prev live dims <= pending_summaries prev true dims)%nat.
Proof.
  destruct dims as [|d rest]; cbn [pending_summaries].
  - destruct live; lia.
  - destruct (prev =? d); destruct live; lia.
Qed.

(** The bound counts at most one summary per maximal run of equal
    dimension, and one more when the tracked segment is live and is not
    continued by the stream. *)
Lemma pending_summaries_groups (prev : Z) (live : bool) (dims : list Z) :
  (pending_summaries prev live dims
   <= dimension_groups dims
      + (if live && negb (match dims with
                          | d :: _ => (prev =? d)%Z
                          | [] => false
                          end)
         then 1 else 0))%nat.
Proof.
  revert prev live. induction dims as [|d rest IH]; intros prev live.
  - cbn. destruct live; cbn; lia.
  - cbn [pending_summaries dimension_groups].
    destruct (Z.eqb_spec prev d) as [->|Hne].
    + rewrite andb_false_r.
      specialize (IH d true). cbn [andb] in IH.
      destruct rest as [|d' rest'].
      * cbn in IH |- *. lia.
      * destruct (d =? d'); cbn [negb] in IH; lia.
    + cbn [negb]. rewrite andb_true_r.
      specialize (IH d true). cbn [andb] in IH.
      destruct rest as [|d' rest'].
      * cbn in IH |- *. destruct live; lia.
      * destruct (d =? d'); cbn [negb] in IH; destruct live; lia.
Qed.

(** The flush with the [NULL] problem stays inside [output] when there is
    room for one more summary. *)
Lemma timing_flush_in_bounds (td : timing_data_t) (clock : wall_clock) :
  0 <= current_idx td ->
  current_idx td
    + Z.of_nat (pending_summaries (previous_dimension td)
                  (cumulative_evaluations td >? 0) [])
    <= number_of_dimensions td ->
  writes_in_bounds td ->
  let td' := fst (timing_data_time_problem td None clock) in
  writes_in_bounds td' /\ number_of_dimensions td' = number_of_dimensions td.
Proof.
  intros Hidx Hroom Hin. unfold timing_data_time_problem.
  cbn [pending_summaries] in Hroom.
  destruct (cumulative_evaluations td >? 0); cbn [fst time].
  - split; [|done]. unfold writes_in_bounds, timing_data_write.
    cbn [written number_of_dimensions].
    apply Forall_app. split; [done|]. constructor; [lia | done].
  - done.
Qed.

(** One problem: the index stays non-negative, the writes stay inside
    [output], and there is still room for what is to come. *)
Lemma timing_problem_in_bounds (td : timing_data_t) (p : coco_problem_t)
    (rest : list Z) (clock : wall_clock) :
  number_of_dimensions td < SIZE_T_MODULUS ->
  0 <= current_idx td ->
  current_idx td
    + Z.of_nat (pending_summaries (previous_dimension td)
                  (cumulative_evaluations td >? 0) (dimension p :: rest))
    <= number_of_dimensions td ->
  writes_in_bounds td ->
  let td' := fst (timing_data_time_problem td (Some p) clock) in
  number_of_dimensions td' = number_of_dimensions td /\
  0 <= current_idx td' /\
  current_idx td'
    + Z.of_nat (pending_summaries (previous_dimension td')
                  (cumulative_evaluations td' >? 0) rest)
    <= number_of_dimensions td' /\
  writes_in_bounds td'.
Proof.
  intros HN Hidx Hroom Hin. unfold timing_data_time_problem.
  cbn [pending_summaries] in Hroom.
  destruct (previous_dimension td =? dimension p); cbn [negb].
  - cbn [fst timing_data_accumulate number_of_dimensions current_idx
         previous_dimension cumulative_evaluations].
    split; [done|]. split; [done|]. split; [|done].
    pose proof (pending_summaries_live (previous_dimension td)
                  (size_t_wrap (cumulative_evaluations td + evaluations p) >? 0)
                  rest).
    lia.
  - pose proof (pending_summaries_live (dimension p)
                  (evaluations p >? 0) rest) as Hlive.
    destruct (cumulative_evaluations td >? 0); cbn [fst time].
    + cbn [timing_data_restart timing_data_write number_of_dimensions
           current_idx previous_dimension cumulative_evaluations].
      assert (Hnext : size_t_wrap (current_idx td + 1) = current_idx td + 1)
        by (apply size_t_wrap_small; lia).
      rewrite Hnext. split; [done|]. split; [lia|]. split; [lia|].
      unfold writes_in_bounds.
      cbn [timing_data_restart timing_data_write written
           number_of_dimensions].
      apply Forall_app. split; [done|]. constructor; [lia | done].
    + cbn [timing_data_restart number_of_dimensions current_idx
           previous_dimension cumulative_evaluations].
      split; [done|]. split; [done|]. split; [lia | done].
Qed.

(** The whole stream and the final flush. *)
Lemma timing_stream_in_bounds (processed : list coco_problem_t)
    (td : timing_data_t) (clock : wall_clock) :
  number_of_dimensions td < SIZE_T_MODULUS ->
  0 <= current_idx td ->
  current_idx td
    + Z.of_nat (pending_summaries (previous_dimension td)
                  (cumulative_evaluations td >? 0) (map dimension processed))
    <= number_of_dimensions td ->
  writes_in_bounds td ->
  let '(td1, clock1) := time_problems processed td clock in
  let td' := fst (timing_data_time_problem td1 None clock1) in
  writes_in_bounds td' /\ number_of_dimensions td' = number_of_dimensions td.
Proof.
  revert td clock.
  induction processed as [|p rest IH]; intros td clock HN Hidx Hroom Hin.
  - cbn [time_problems foldl]. by apply timing_flush_in_bounds.
  - unfold time_problems. cbn [foldl].
    destruct (timing_data_time_problem td (Some p) clock) as [td1 clock1]
      eqn:Hstep.
    pose proof (timing_problem_in_bounds td p (map dimension rest) clock
                  HN Hidx Hroom Hin) as Hone.
    cbv zeta in Hone. rewrite Hstep in Hone. cbn [fst] in Hone.
    destruct Hone as (HN1 & Hidx1 & Hroom1 & Hin1).
    specialize (IH td1 clock1 ltac:(lia) Hidx1 Hroom1 Hin1).
    unfold time_problems in IH.
    destruct (foldl _ (td1, clock1) rest) as [td2 clock2].
    rewrite <- HN1. exact IH.
Qed.

(** C10.  When the dimensions of the processed problems form at most
    [number_of_dimensions] maximal runs of equal dimension, every summary
    string, the one of the final flush included, is stored at an index of
    [output] below [number_of_dimensions]. *)
Theorem timing_writes_within_output (suite : coco_suite_t)
    (processed : list coco_problem_t) (clock : wall_clock) :
  let allocated := number_of_dimensions (fst (timing_data_initialize suite clock)) in
  Z.of_nat (dimension_groups (map dimension processed)) <= allocated ->
  let td := snd (fst (timing_of_stream suite processed clock)) in
  number_of_dimensions td = allocated /\
  Forall (fun i => 0 <= i < allocated) (written td).
Proof.
  cbv zeta. unfold timing_of_stream, timing_data_initialize. cbn [time fst].
  set (td0 := TimingData _ _ _ _ _ _ _ _).
  set (clock0 := WallClock _ _).
  intros Hgroups.
  pose proof (timing_stream_in_bounds processed td0 clock0) as Hstream.
  destruct (time_problems processed td0 clock0) as [td1 clock1].
  unfold timing_data_finalize.
  destruct (timing_data_time_problem td1 None clock1) as [td2 clock2].
  cbn [fst snd time] in Hstream |- *.
  destruct Hstream as [Hin HN].
  - unfold td0. cbn [number_of_dimensions]. unfold size_t_wrap.
    apply Z.mod_pos_bound. unfold SIZE_T_MODULUS. lia.
  - done.
  - unfold td0 at 1 2 3. cbn [current_idx previous_dimension
      cumulative_evaluations]. cbn [Z.gtb Z.compare].
    pose proof (pending_summaries_groups 0 false (map dimension processed))
      as Hbound.
    cbn [andb] in Hbound. unfold td0 in Hgroups |- *.
    cbn [number_of_dimensions] in Hgroups |- *. lia.
  - constructor.
  - split; [exact HN|]. unfold writes_in_bounds in Hin.
    rewrite HN in Hin. exact Hin.
Qed.

Lemma timing_writes_within_output_witness :
  Forall (fun i => 0 <= i < 3)
    (written (snd (fst (timing_of_stream three_dimensions six_problems
                          frozen_clock)))).
Proof.
  exact (proj2 (timing_writes_within_output three_dimensions six_problems
                  frozen_clock ltac:(vm_compute; discriminate))).
Defined.

Lemma time_reading (clock : wall_clock) :
  time clock = (reading clock 0, later clock 1).
Proof.
  unfold time, reading, later. by rewrite Nat.add_0_r, Nat.add_1_r.
Qed.

Lemma reading_later (clock : wall_clock) (j k : nat) :
  reading (later clock j) k = reading clock (j + k).
Proof. unfold reading, later. cbn. f_equal. lia. Qed.

Lemma later_later (clock : wall_clock) (j k : nat) :
  later (later clock j) k = later clock (j + k).
Proof. unfold later. cbn. f_equal. lia. Qed.

(** A problem of the tracked dimension is added to the running total. *)
Lemma time_problem_same (N idx : Z) (out : list (option summary_line))
    (prev cum st ost : Z) (wr : list Z) (p : coco_problem_t)
    (clock : wall_clock) :
  prev = dimension p ->
  timing_data_time_problem (TimingData N idx out prev cum st ost wr)
    (Some p) clock
  = (TimingData N idx out prev (size_t_wrap (cum + evaluations p)) st ost wr,
     clock).
Proof.
  intros ->. unfold timing_data_time_problem. cbn [previous_dimension].
  rewrite Z.eqb_refl. reflexivity.
Qed.

(** A problem of another dimension, when the segment has evaluations: the
    summary is written and a new segment starts. *)
Lemma time_problem_change (N idx : Z) (out : list (option summary_line))
    (prev cum st ost : Z) (wr : list Z) (p : coco_problem_t)
    (clock : wall_clock) :
  prev <> dimension p -> 0 < cum ->
  timing_data_time_problem (TimingData N idx out prev cum st ost wr)
    (Some p) clock
  = (TimingData N (size_t_wrap (idx + 1))
       (<[Z.to_nat idx :=
            Some (SummaryLine prev
                    (inject_Z (reading clock 0 - st) / inject_Z cum))]> out)
       (dimension p) (evaluations p) (reading clock 1) ost (wr ++ [idx]),
     later clock 2).
Proof.
  intros Hne Hcum. unfold timing_data_time_problem.
  cbn [previous_dimension cumulative_evaluations].
  replace (prev =? dimension p) with false by (symmetry; by apply Z.eqb_neq).
  replace (cum >? 0) with true by (symmetry; apply Z.gtb_lt; lia).
  cbn [negb]. rewrite time_reading. rewrite time_reading.
  rewrite reading_later, later_later. reflexivity.
Qed.

(** A problem of another dimension, when the segment has no evaluation:
    nothing is written. *)
Lemma time_problem_first (N idx : Z) (out : list (option summary_line))
    (prev st ost : Z) (wr : list Z) (p : coco_problem_t)
    (clock : wall_clock) :
  prev <> dimension p ->
  timing_data_time_problem (TimingData N idx out prev 0 st ost wr)
    (Some p) clock
  = (TimingData N idx out (dimension p) (evaluations p) (reading clock 0)
       ost wr,
     later clock 1).
Proof.
  intros Hne. unfold timing_data_time_problem.
  cbn [previous_dimension cumulative_evaluations].
  replace (prev =? dimension p) with false by (symmetry; by apply Z.eqb_neq).
  cbn [negb Z.gtb Z.compare]. rewrite time_reading. reflexivity.
Qed.

(** The flush with the [NULL] problem. *)
Lemma time_problem_flush (N idx : Z) (out : list (option summary_line))
    (prev cum st ost : Z) (wr : list Z) (clock : wall_clock) :
  0 < cum ->
  timing_data_time_problem (TimingData N idx out prev cum st ost wr)
    None clock
  = (TimingData N (size_t_wrap (idx + 1))
       (<[Z.to_nat idx :=
            Some (SummaryLine prev
                    (inject_Z (reading clock 0 - st) / inject_Z cum))]> out)
       prev cum st ost (wr ++ [idx]),
     later clock 1).
Proof.
  intros Hcum. unfold timing_data_time_problem.
  cbn [cumulative_evaluations].
  replace (cum >? 0) with true by (symmetry; apply Z.gtb_lt; lia).
  rewrite time_reading. reflexivity.
Qed.

(** The lines [timing_data_finalize] prints are the strings stored in
    [output], in the order of their indices. *)
Lemma omap_lookup_total_seq {A : Type} (pre l : list (option A)) :
  omap (fun i => (pre ++ l) !!! i) (seq (length pre) (length l))
  = omap id l.
Proof.
  revert pre. induction l as [|x l IH]; intros pre; [done|].
  cbn [length seq omap list_omap].
  rewrite list_lookup_total_middle by done.
  replace (pre ++ x :: l) with ((pre ++ [x]) ++ l)
    by (by rewrite <- app_assoc).
  replace (S (length pre)) with (length (pre ++ [x]))
    by (rewrite length_app; simpl; lia).
  specialize (IH (pre ++ [x])). cbn [omap] in IH. rewrite IH. done.
Qed.

Lemma omap_replicate_None {A : Type} (n : nat) :
  omap id (replicate n (@None A)) = [].
Proof. induction n as [|n IH]; [done | exact IH]. Qed.

Lemma seconds_nonnegative (t0 t1 cum : Z) :
  0 < cum -> t0 <= t1 -> (0 <= inject_Z (t1 - t0) / inject_Z cum)%Q.
Proof.
  intros Hcum Ht. apply Qle_shift_div_l.
  - change 0%Q with (inject_Z 0). rewrite <- Zlt_Qlt. lia.
  - rewrite Qmult_0_l. change 0%Q with (inject_Z 0). rewrite <- Zle_Qle. lia.
Qed.

Lemma seconds_positive (t0 t1 cum : Z) :
  0 < cum -> (0 < inject_Z (t1 - t0) / inject_Z cum)%Q <-> t0 < t1.
Proof.
  intros Hcum.
  assert (Hc : (0 < inject_Z cum)%Q)
    by (change 0%Q with (inject_Z 0); rewrite <- Zlt_Qlt; lia).
  split.
  - intros Hpos.
    destruct (Z.lt_ge_cases t0 t1) as [|Hge]; [done|]. exfalso.
    assert (Hle : (inject_Z (t1 - t0) / inject_Z cum <= 0)%Q).
    { apply Qle_shift_div_r; [done|]. rewrite Qmult_0_l.
      change 0%Q with (inject_Z 0). rewrite <- Zle_Qle. lia. }
    apply (Qlt_irrefl 0). eapply Qlt_le_trans; [exact Hpos | exact Hle].
  - intros Hlt. apply Qlt_shift_div_l; [done|]. rewrite Qmult_0_l.
    change 0%Q with (inject_Z 0). rewrite <- Zlt_Qlt. lia.
Qed.

(** C9, as the code has it.  For processed problems of dimensions
    2, 2, 3, 3, 3, 5 with positive evaluation counts, [timing_data_finalize]
    prints exactly three summary lines, for the dimensions 2, 3 and 5; each
    gives the time on the clock between the start of its segment and its
    summary, divided by the evaluations of the segment: a value that is not
    negative when the clock is monotone, and that is positive exactly when
    the clock advanced in between.  After an empty stream no line is printed
    and the total is the time between the initialisation and the end, zero
    when the clock did not advance. *)
Theorem timing_three_dimension_groups (suite : coco_suite_t)
    (p1 p2 p3 p4 p5 p6 : coco_problem_t) (clock : wall_clock) :
  map dimension [p1; p2; p3; p4; p5; p6] = [2; 2; 3; 3; 3; 5] ->
  Forall (fun p => 0 < evaluations p) [p1; p2; p3; p4; p5; p6] ->
  evaluations p1 + evaluations p2 + evaluations p3 + evaluations p4
    + evaluations p5 + evaluations p6 < SIZE_T_MODULUS ->
  2 <= suite_last_dimension_idx suite < SIZE_T_MODULUS - 1 ->
  let report := report_of suite [p1; p2; p3; p4; p5; p6] clock in
  let empty := report_of suite [] clock in
  report_lines report
    = [SummaryLine 2
         (inject_Z (reading clock 3 - reading clock 2)
          / inject_Z (evaluations p1 + evaluations p2));
       SummaryLine 3
         (inject_Z (reading clock 5 - reading clock 4)
          / inject_Z (evaluations p3 + evaluations p4 + evaluations p5));
       SummaryLine 5
         (inject_Z (reading clock 7 - reading clock 6)
          / inject_Z (evaluations p6))] /\
  (monotone_clock clock ->
   Forall (fun l => (0 <= seconds_per_evaluation l)%Q) (report_lines report)) /\
  (Forall (fun l => (0 < seconds_per_evaluation l)%Q) (report_lines report)
   <-> reading clock 2 < reading clock 3 /\
       reading clock 4 < reading clock 5 /\
       reading clock 6 < reading clock 7) /\
  report_lines empty = [] /\
  report_hours empty * 3600 + report_minutes empty * 60 + report_seconds empty
    = reading clock 2 - reading clock 1 /\
  (reading clock 2 = reading clock 1 ->
   report_hours empty = 0 /\ report_minutes empty = 0 /\
   report_seconds empty = 0).
Proof.
  intros Hdims Hpos Hsum Hidx.
  cbn [map] in Hdims. injection Hdims as Hd1 Hd2 Hd3 Hd4 Hd5 Hd6.
  repeat match goal with
         | H : Forall _ (_ :: _) |- _ =>
             let Hp := fresh "Hp" in
             apply Forall_cons in H as [Hp H]
         end.
  assert (HN : size_t_wrap (suite_last_dimension_idx suite + 1)
               = suite_last_dimension_idx suite + 1)
    by (apply size_t_wrap_small; lia).
  assert (Hcells : exists n,
            Z.to_nat (suite_last_dimension_idx suite + 1) = S (S (S n))).
  { exists (Z.to_nat (suite_last_dimension_idx suite + 1) - 3)%nat. lia. }
  destruct Hcells as [n Hcells].
  assert (Hlines : report_lines
            (report_of suite [p1; p2; p3; p4; p5; p6] clock)
    = [SummaryLine 2
         (inject_Z (reading clock 3 - reading clock 2)
          / inject_Z (evaluations p1 + evaluations p2));
       SummaryLine 3
         (inject_Z (reading clock 5 - reading clock 4)
          / inject_Z (evaluations p3 + evaluations p4 + evaluations p5));
       SummaryLine 5
         (inject_Z (reading clock 7 - reading clock 6)
          / inject_Z (evaluations p6))]).
  { unfold report_of, timing_of_stream, timing_data_initialize.
    rewrite HN, Hcells. rewrite !time_reading.
    unfold time_problems. cbn [foldl].
    rewrite time_problem_first by lia.
    rewrite time_problem_same by lia.
    rewrite (size_t_wrap_small (evaluations p1 + evaluations p2)) by lia.
    rewrite time_problem_change by lia.
    rewrite time_problem_same by lia.
    rewrite (size_t_wrap_small (evaluations p3 + evaluations p4)) by lia.
    rewrite time_problem_same by lia.
    rewrite (size_t_wrap_small
               (evaluations p3 + evaluations p4 + evaluations p5)) by lia.
    rewrite time_problem_change by lia.
    unfold timing_data_finalize.
    rewrite time_problem_flush by lia.
    rewrite !later_later, !reading_later, !time_reading.
    cbn [fst report_lines number_of_dimensions output].
    change (size_t_wrap (0 + 1)) with 1.
    change (size_t_wrap (1 + 1)) with 2.
    change (Z.to_nat 0) with 0%nat. change (Z.to_nat 1) with 1%nat.
    change (Z.to_nat 2) with 2%nat.
    rewrite Hcells. cbn [replicate insert list_insert].
    match goal with
    | |- omap _ (seq 0 _) = _ =>
        match goal with
        | |- context [?a :: ?b :: ?c :: replicate n None] =>
            pose proof (omap_lookup_total_seq []
                          (a :: b :: c :: replicate n None)) as Homap
        end
    end.
    cbn [app length] in Homap. rewrite length_replicate in Homap.
    rewrite Homap. cbn [omap list_omap id]. rewrite Hd1, Hd3, Hd6.
    change (list_omap _ _ id (replicate n None))
      with (omap id (replicate n (@None summary_line))).
    rewrite omap_replicate_None. cbn [Nat.add]. reflexivity. }
  cbv zeta. rewrite Hlines. split; [reflexivity|]. split; [|split].
  - intros Hmono.
    assert (Hle : forall j k, (j <= k)%nat -> reading clock j <= reading clock k)
      by (intros j k Hjk; apply Hmono; lia).
    repeat constructor; cbn [seconds_per_evaluation];
      apply seconds_nonnegative; try lia; apply Hle; lia.
  - rewrite !Forall_cons, Forall_nil. cbn [seconds_per_evaluation].
    rewrite !seconds_positive by lia. tauto.
  - unfold report_of, timing_of_stream, timing_data_initialize.
    rewrite HN, Hcells. rewrite !time_reading.
    unfold time_problems. cbn [foldl]. unfold timing_data_finalize.
    unfold timing_data_time_problem.
    cbn [cumulative_evaluations Z.gtb Z.compare].
    rewrite !reading_later, !time_reading, !reading_later.
    cbn [fst report_lines report_hours report_minutes report_seconds
         number_of_dimensions output overall_start_time Nat.add].
    split; [|split].
    + pose proof (omap_lookup_total_seq []
                    (replicate (S (S (S n))) (@None summary_line))) as Homap.
      cbn [app length] in Homap. rewrite length_replicate in Homap.
      rewrite Hcells, Homap. apply omap_replicate_None.
    + set (elapsed := reading clock 2 - reading clock 1).
      pose proof (Z.quot_rem' elapsed 3600).
      pose proof (Z.quot_rem' (Z.rem elapsed 3600) 60). lia.
    + intros ->. rewrite Z.sub_diag. repeat split; reflexivity.
Qed.

Lemma timing_three_dimension_groups_witness :
  length (report_lines (report_of three_dimensions six_problems ticking_clock))
    = 3%nat /\
  Forall (fun l => (0 < seconds_per_evaluation l)%Q)
    (report_lines (report_of three_dimensions six_problems ticking_clock)).
Proof.
  pose proof (timing_three_dimension_groups three_dimensions
                (processed_problem 2 10) (processed_problem 2 10)
                (processed_problem 3 10) (processed_problem 3 10)
                (processed_problem 3 10) (processed_problem 5 10)
                ticking_clock eq_refl
                ltac:(repeat constructor)
                ltac:(unfold SIZE_T_MODULUS; simpl; lia)
                ltac:(unfold SIZE_T_MODULUS; simpl; lia))
    as (Hlines & _ & Hpositive & _).
  split.
  - fold six_problems in Hlines. rewrite Hlines. reflexivity.
  - apply Hpositive. vm_compute. repeat split; reflexivity.
Defined.

(** C9, as stated, fails when the clock does not advance while the problems
    are processed: the three lines are printed, each with a time per
    evaluation of zero. *)
Lemma timing_frozen_clock_reports_zero :
  ~ timing_reports_positive three_dimensions six_problems frozen_clock.
Proof.
  intros (_ & Hpositive & _).
  vm_compute in Hpositive.
  inversion Hpositive as [|? ? Hfirst _]. discriminate Hfirst.
Qed.

(** The timing calls of the experiment loop are those of [time_problems] on
    the problems it processed. *)
Lemma experiment_loop_timing (search : search_strategy)
    (multiplier restarts firstFunction lastFunction : Z)
    (problems : list coco_problem_t) (s s' : experiment_state) :
  experiment_loop search multiplier restarts firstFunction lastFunction
    problems s = (s', SuiteCompleted) ->
  exists timed,
    processed s' = processed s ++ timed /\
    (timing_data s', clock s')
    = time_problems timed (timing_data s) (clock s).
Proof.
  revert s. induction problems as [|p problems IH]; intros s;
    cbn [experiment_loop].
  - intros [= <-]. exists []. by rewrite app_nil_r.
  - destruct (negb (in_function_range _ _ _)).
    + intros Hrun. destruct (IH _ Hrun) as (timed & Hp & Ht).
      exists timed. done.
    + destruct (fatal_ending _) as [e|] eqn:Hfatal.
      * intros [= _ He]. unfold fatal_ending in Hfatal.
        destruct (last _) as [r|]; [|done].
        destruct (run_ending r); try done; congruence.
      * destruct (timing_data_time_problem _ _ _) as [td clock1] eqn:Hstep.
        intros Hrun. destruct (IH _ Hrun) as (timed & Hp & Ht).
        cbn [processed timing_data clock] in Hp, Ht.
        eexists (_ :: timed). rewrite Hp, <- app_assoc. split; [done|].
        unfold time_problems in Ht |- *. cbn [foldl]. rewrite Hstep. done.
Qed.

(** An experiment that reaches the end of its suite prints the report of the
    problems it processed. *)
Lemma example_experiment_report (search : search_strategy)
    (multiplier restarts firstFunction lastFunction : Z)
    (suite : coco_suite_t) (clock0 : wall_clock) (s : experiment_state) :
  example_experiment search multiplier restarts firstFunction lastFunction
    suite clock0 = (s, SuiteCompleted) ->
  last (stdout s)
  = Some (TimingOutput (report_of suite (processed s) clock0)) /\
  written (timing_data s)
  = written (snd (fst (timing_of_stream suite (processed s) clock0))).
Proof.
  unfold example_experiment, report_of, timing_of_stream.
  destruct (timing_data_initialize suite clock0) as [td0 clock1].
  destruct (experiment_loop _ _ _ _ _ _ _) as [s1 e] eqn:Hloop.
  destruct e; try (intros [= _ ?]; done).
  apply experiment_loop_timing in Hloop as (timed & Hp & Ht).
  cbn [processed timing_data clock app] in Hp, Ht.
  destruct (timing_data_finalize (timing_data s1) (clock s1))
    as [[report td] clock2] eqn:Hfinal.
  intros [= <-]. cbn [stdout processed timing_data].
  rewrite Hp, <- Ht, Hfinal. cbn [fst snd].
  split; [|done]. rewrite last_app. done.
Qed.

(** * Further properties *)

(** ** The solver-backed search: the counters *)

Lemma evaluations_total_representable (p : coco_problem_t) :
  counters_representable p -> evaluations_total p = evaluations_sum p.
Proof.
  intros (He & Hc & Hsum). unfold evaluations_total, evaluations_sum.
  apply size_t_wrap_small. lia.
Qed.

(** One evaluation of the objective on counters with room for it. *)
Lemma evaluate_function_counters (x : list Q) (p : coco_problem_t) :
  counters_representable p -> evaluations_sum p + 1 < SIZE_T_MODULUS ->
  let p' := fst (evaluate_function x p) in
  counters_representable p' /\
  evaluations p' = evaluations p + 1 /\
  evaluations_constraints p' = evaluations_constraints p.
Proof.
  intros (He & Hc & Hsum) Hroom. unfold evaluations_sum in Hroom.
  cbn. rewrite size_t_wrap_small by lia.
  unfold counters_representable. cbn. lia.
Qed.

Lemma evaluate_constraint_counters (x : list Q) (p : coco_problem_t) :
  counters_representable p -> evaluations_sum p + 1 < SIZE_T_MODULUS ->
  let p' := fst (evaluate_constraint x p) in
  counters_representable p' /\
  evaluations p' = evaluations p /\
  evaluations_constraints p' = evaluations_constraints p + 1.
Proof.
  intros (He & Hc & Hsum) Hroom. unfold evaluations_sum in Hroom.
  cbn. rewrite size_t_wrap_small by lia.
  unfold counters_representable. cbn. lia.
Qed.

(** The run of the solver never lowers a counter, and it leaves the sum of
    the counters at most one above the budget, unless it was above before. *)
Lemma solver_run_counters (dimension : nat) (number_of_constraints : Z)
    (max_budget : Z) (solver : RayEs) (p : coco_problem_t) :
  counters_representable p -> max_budget + 1 < SIZE_T_MODULUS ->
  let p' := fst (solver_run evaluate_function evaluate_constraint dimension
                   number_of_constraints max_budget solver p) in
  counters_representable p' /\
  evaluations p <= evaluations p' /\
  evaluations_constraints p <= evaluations_constraints p' /\
  evaluations_sum p' <= Z.max (evaluations_sum p) (max_budget + 1).
Proof.
  intros Hp Hbudget. revert p Hp.
  induction solver as [c | w | v | xVec resume IH | xVec resume IH];
    intros p Hp; cbn [solver_run].
  - cbn [fst]. split; [done|]. lia.
  - cbn [fst]. split; [done|]. lia.
  - cbn [fst]. split; [done|]. lia.
  - unfold evalFuncWrapper.
    rewrite (evaluations_total_representable p Hp).
    destruct (Z.gtb_spec (evaluations_sum p) max_budget) as [Hgt|Hle].
    + cbn [fst]. split; [done|]. lia.
    + destruct (evaluate_function_counters (copy_vector dimension xVec) p Hp
                  ltac:(lia)) as (Hp1 & He1 & Hc1).
      destruct (evaluate_function (copy_vector dimension xVec) p)
        as [p1 y] eqn:Heval.
      cbn [fst] in Hp1, He1, Hc1.
      destruct (IH (y !!! 0%nat) p1 Hp1) as (Hp' & He' & Hc' & Hsum').
      split; [done|]. unfold evaluations_sum in *. lia.
  - unfold evalConsWrapper.
    rewrite (evaluations_total_representable p Hp).
    destruct (Z.gtb_spec (evaluations_sum p) max_budget) as [Hgt|Hle].
    + cbn [fst]. split; [done|]. lia.
    + destruct (evaluate_constraint_counters (copy_vector dimension xVec) p
                  Hp ltac:(lia)) as (Hp1 & He1 & Hc1).
      destruct (evaluate_constraint (copy_vector dimension xVec) p)
        as [p1 y] eqn:Heval.
      cbn [fst] in Hp1, He1, Hc1.
      destruct (IH (copy_vector (Z.to_nat number_of_constraints) y) p1 Hp1)
        as (Hp' & He' & Hc' & Hsum').
      split; [done|]. unfold evaluations_sum in *. lia.
Qed.

(** The warm-up adds one to each counter. *)
Lemma warm_up_counters (p : coco_problem_t) :
  counters_in_range p ->
  let p' := my_search_warm_up evaluate_function evaluate_constraint p in
  counters_representable p' /\
  evaluations p' = evaluations p + 1 /\
  evaluations_constraints p' = evaluations_constraints p + 1.
Proof.
  intros (He & Hc & Hsum). unfold my_search_warm_up. cbn.
  rewrite !size_t_wrap_small by lia.
  unfold counters_representable. cbn. lia.
Qed.

(** The problem [my_search] leaves is the one the solver's run leaves, or
    the given one when an assertion fails. *)
Lemma my_search_problem
    (solver : list Q -> list Q -> list Q -> RayEs)
    (dimension : nat) (number_of_objectives number_of_constraints : Z)
    (lower_bounds upper_bounds : list Q) (max_budget : Z)
    (PROBLEM : coco_problem_t) :
  let r := my_search solver evaluate_function evaluate_constraint dimension
             number_of_objectives number_of_constraints
             lower_bounds upper_bounds max_budget PROBLEM in
  (search_ending r = AssertionFailed /\ search_problem r = PROBLEM /\
   search_stdout r = [] /\
   (number_of_objectives <> 1 \/ number_of_constraints <= 0))
  \/ (search_ending r <> AssertionFailed /\
      number_of_objectives = 1 /\ 0 < number_of_constraints /\
      search_problem r
      = fst (my_search_try solver evaluate_function evaluate_constraint
               dimension number_of_constraints
               (copy_vector dimension lower_bounds)
               (copy_vector dimension upper_bounds) max_budget
               (my_search_warm_up evaluate_function evaluate_constraint
                  PROBLEM))).
Proof.
  cbv zeta.
  destruct (Z.eqb_spec number_of_objectives 1) as [Hobj|Hobj].
  - destruct (Z.gtb_spec number_of_constraints 0) as [Hcons|Hcons].
    + right. rewrite my_search_asserted by lia.
      destruct (my_search_try _ _ _ _ _ _ _ _ _) as [P3 thrown].
      cbn [fst snd]. destruct thrown as [[|w|v]|c]; done.
    + left. unfold my_search.
      replace (number_of_objectives =? 1) with true
        by (symmetry; by apply Z.eqb_eq).
      replace (number_of_constraints >? 0) with false
        by (symmetry; rewrite Z.gtb_ltb; apply Z.ltb_ge; lia).
      cbn. repeat split; try done. right. lia.
  - left. unfold my_search.
    replace (number_of_objectives =? 1) with false
      by (symmetry; by apply Z.eqb_neq).
    cbn. repeat split; try done. by left.
Qed.

(** X1.  [my_search] stops at its assertions exactly when the problem does
    not have one objective or has no constraint, and then nothing is
    evaluated and nothing is printed. *)
Theorem my_search_assertion_failure
    (solver : list Q -> list Q -> list Q -> RayEs)
    (dimension : nat) (number_of_objectives number_of_constraints : Z)
    (lower_bounds upper_bounds : list Q) (max_budget : Z)
    (PROBLEM : coco_problem_t) :
  let r := my_search solver evaluate_function evaluate_constraint dimension
             number_of_objectives number_of_constraints
             lower_bounds upper_bounds max_budget PROBLEM in
  (search_ending r = AssertionFailed <->
   number_of_objectives <> 1 \/ number_of_constraints <= 0) /\
  (search_ending r = AssertionFailed ->
   search_problem r = PROBLEM /\ search_stdout r = []) /\
  (search_ending r <> AssertionFailed ->
   exists warm_up rest,
     length warm_up = 2%nat /\
     logged (search_problem r) = logged PROBLEM ++ warm_up ++ rest).
Proof.
  cbv zeta.
  destruct (my_search_problem solver dimension number_of_objectives
              number_of_constraints lower_bounds upper_bounds max_budget
              PROBLEM)
    as [(Hend & Hsame & Hout & Hwhy) | (Hend & Hobj & Hcons & Hproblem)].
  - split; [done|]. split; [done|]. intros Hne. done.
  - split; [split; [done | lia]|]. split; [done|]. intros _.
    rewrite Hproblem. unfold my_search_try.
    match goal with
    | |- context [solver_run _ _ ?d ?c ?b ?s ?p] =>
        destruct (solver_run_logged d c b s p) as (rest & Hlog & _)
    end.
    rewrite Hlog, logged_warm_up. eexists [_; _], rest.
    rewrite <- app_assoc. done.
Qed.

(** The counters of the problem [my_search] leaves. *)
Lemma my_search_counters
    (solver : list Q -> list Q -> list Q -> RayEs)
    (dimension : nat) (number_of_objectives number_of_constraints : Z)
    (lower_bounds upper_bounds : list Q) (max_budget : Z)
    (PROBLEM : coco_problem_t) :
  counters_in_range PROBLEM -> max_budget + 1 < SIZE_T_MODULUS ->
  let r := my_search solver evaluate_function evaluate_constraint dimension
             number_of_objectives number_of_constraints
             lower_bounds upper_bounds max_budget PROBLEM in
  let p' := search_problem r in
  counters_representable p' /\
  evaluations PROBLEM <= evaluations p' /\
  evaluations_constraints PROBLEM <= evaluations_constraints p' /\
  evaluations_sum p'
    <= Z.max (evaluations_sum PROBLEM + 2) (max_budget + 1) /\
  (search_ending r <> AssertionFailed ->
   evaluations PROBLEM + 1 <= evaluations p' /\
   evaluations_constraints PROBLEM + 1 <= evaluations_constraints p').
Proof.
  intros Hrange Hbudget. cbv zeta.
  destruct (my_search_problem solver dimension number_of_objectives
              number_of_constraints lower_bounds upper_bounds max_budget
              PROBLEM)
    as [(Hend & Hsame & Hout & Hwhy) | (Hend & Hobj & Hcons & Hproblem)].
  - rewrite Hsame. destruct Hrange as (He & Hc & Hsum).
    unfold counters_representable, evaluations_sum. repeat split; try lia.
    all: intros Hne; done.
  - rewrite Hproblem. unfold my_search_try.
    destruct (warm_up_counters PROBLEM Hrange) as (Hw & Hwe & Hwc).
    match goal with
    | |- context [solver_run _ _ ?d ?c ?b ?s ?p] =>
        destruct (solver_run_counters d c b s p Hw Hbudget)
          as (Hp' & He' & Hc' & Hsum')
    end.
    unfold evaluations_sum in *.
    split; [done|]. split; [lia|]. split; [lia|]. split; [lia|].
    intros _. lia.
Qed.

(** X2.  [my_search] never lowers a counter of the problem, and the sum of
    the two counters it leaves is at most the larger of the sum before plus
    the two evaluations of the warm-up and of the budget plus one: the budget
    is overrun by one evaluation at most, the warm-up apart. *)
Theorem my_search_budget_overrun
    (solver : list Q -> list Q -> list Q -> RayEs)
    (dimension : nat) (number_of_objectives number_of_constraints : Z)
    (lower_bounds upper_bounds : list Q) (max_budget : Z)
    (PROBLEM : coco_problem_t) :
  counters_in_range PROBLEM -> max_budget + 1 < SIZE_T_MODULUS ->
  let r := my_search solver evaluate_function evaluate_constraint dimension
             number_of_objectives number_of_constraints
             lower_bounds upper_bounds max_budget PROBLEM in
  let p' := search_problem r in
  counters_representable p' /\
  evaluations PROBLEM <= evaluations p' /\
  evaluations_constraints PROBLEM <= evaluations_constraints p' /\
  evaluations_sum p'
    <= Z.max (evaluations_sum PROBLEM + 2) (max_budget + 1) /\
  (search_ending r <> AssertionFailed ->
   evaluations PROBLEM + 1 <= evaluations p' /\
   evaluations_constraints PROBLEM + 1 <= evaluations_constraints p').
Proof.
  intros Hrange Hbudget.
  exact (my_search_counters solver dimension number_of_objectives
           number_of_constraints lower_bounds upper_bounds max_budget
           PROBLEM Hrange Hbudget).
Qed.

Lemma my_search_budget_overrun_witness :
  evaluations_sum
    (search_problem
       (my_search two_step_solver evaluate_function evaluate_constraint 2
          1 1 [(-5)%Q; (-5)%Q] [5%Q; 5%Q] 2
          (new_problem 2 1 [(-5)%Q; (-5)%Q] [5%Q; 5%Q] [1%Q; 1%Q])))
  <= Z.max (0 + 2) (2 + 1).
Proof.
  refine (proj1 (proj2 (proj2 (proj2 (my_search_budget_overrun two_step_solver
            2 1 1 [(-5)%Q; (-5)%Q] [5%Q; 5%Q] 2
            (new_problem 2 1 [(-5)%Q; (-5)%Q] [5%Q; 5%Q] [1%Q; 1%Q]) _ _))))).
  - unfold counters_in_range, SIZE_T_MODULUS. simpl. lia.
  - unfold SIZE_T_MODULUS. lia.
Defined.

(** An exception of a wrapper leaves the solver's run with the count above
    the budget. *)
Lemma solver_run_exhausted_above (dimension : nat) (number_of_constraints : Z)
    (max_budget : Z) (solver : RayEs) (p : coco_problem_t) :
  snd (solver_run evaluate_function evaluate_constraint dimension
         number_of_constraints max_budget solver p)
  = inl BudgetExhaustedException ->
  max_budget
  < evaluations_total
      (fst (solver_run evaluate_function evaluate_constraint dimension
              number_of_constraints max_budget solver p)).
Proof.
  revert p. induction solver as [c | w | v | xVec resume IH | xVec resume IH];
    intros p; cbn [solver_run].
  - discriminate.
  - discriminate.
  - discriminate.
  - unfold evalFuncWrapper.
    destruct (Z.gtb_spec (evaluations_total p) max_budget) as [Hgt|Hle].
    + intros _. exact Hgt.
    + destruct (evaluate_function (copy_vector dimension xVec) p) as [p1 y].
      apply IH.
  - unfold evalConsWrapper.
    destruct (Z.gtb_spec (evaluations_total p) max_budget) as [Hgt|Hle].
    + intros _. exact Hgt.
    + destruct (evaluate_constraint (copy_vector dimension xVec) p)
        as [p1 y].
      apply IH.
Qed.

(** X3.  When [my_search] ends through the clause for
    [BudgetExhaustedException], the count of evaluations of the problem it
    leaves is above [max_budget]: the exception is never raised within the
    budget. *)
Theorem my_search_exhausted_above_budget
    (solver : list Q -> list Q -> list Q -> RayEs)
    (dimension : nat) (number_of_objectives number_of_constraints : Z)
    (lower_bounds upper_bounds : list Q) (max_budget : Z)
    (PROBLEM : coco_problem_t) :
  let r := my_search solver evaluate_function evaluate_constraint dimension
             number_of_objectives number_of_constraints
             lower_bounds upper_bounds max_budget PROBLEM in
  search_ending r = BudgetExhausted ->
  max_budget < evaluations_total (search_problem r).
Proof.
  cbv zeta. unfold my_search.
  destruct (negb (number_of_objectives =? 1)); [discriminate|].
  destruct (negb (number_of_constraints >? 0)); [discriminate|].
  unfold my_search_try.
  match goal with
  | |- context [solver_run _ _ ?d ?c ?b ?s ?p] =>
      pose proof (solver_run_exhausted_above d c b s p) as Habove;
      destruct (solver_run evaluate_function evaluate_constraint d c b s p)
        as [P3 thrown]
  end.
  cbn [fst snd] in Habove.
  destruct thrown as [[|w|v]|c]; cbn; try discriminate.
  intros _. by apply Habove.
Qed.

Lemma my_search_exhausted_above_budget_witness :
  0 < evaluations_total
        (search_problem
           (my_search one_step_solver evaluate_function evaluate_constraint 2
              1 1 [(-5)%Q; (-5)%Q] [5%Q; 5%Q] 0
              (new_problem 2 1 [(-5)%Q; (-5)%Q] [5%Q; 5%Q] [1%Q; 1%Q]))).
Proof.
  apply (my_search_exhausted_above_budget one_step_solver 2 1 1
           [(-5)%Q; (-5)%Q] [5%Q; 5%Q] 0
           (new_problem 2 1 [(-5)%Q; (-5)%Q] [5%Q; 5%Q] [1%Q; 1%Q])).
  reflexivity.
Defined.

(** ** The restart loop with [my_search] *)

(** The warning is printed in the runs that end with it, and in no other. *)
Lemma restart_run_warning (search : search_strategy) (multiplier : Z)
    (p : coco_problem_t) :
  (exists a b,
     BudgetNotExhaustedWarning a b ∈ run_stdout (restart_run search multiplier p))
  <-> run_ending (restart_run search multiplier p) = StrategyMalfunction.
Proof.
  assert (Hquiet : forall (out : list string) a b,
            BudgetNotExhaustedWarning a b ∉ map StrategyOutput out).
  { intros out a b Hin.
    apply list_elem_of_fmap in Hin as (text & Heq & _). discriminate. }
  unfold restart_run.
  repeat match goal with
         | |- context [if ?b then _ else _] => destruct b
         end; cbn [run_stdout run_ending];
    (split; [intros (a & b & Hin) | intros Hend]); try done;
    try (by apply Hquiet in Hin); try (by apply elem_of_nil in Hin).
  eexists _, _. apply elem_of_app. right. apply list_elem_of_here.
Qed.

(** A run that calls [my_search] on counters that fit [long]. *)
Lemma restart_run_my_search
    (solver : list Q -> list Q -> list Q -> RayEs) (multiplier : Z)
    (p : coco_problem_t) :
  0 <= evaluations p -> 0 <= evaluations_constraints p ->
  evaluations_sum p < LONG_LIMIT ->
  0 <= dimension p * multiplier < LONG_LIMIT ->
  let r := restart_run (my_search solver) multiplier p in
  run_ending r = StoppedBeforeCall
  \/ (run_ending r = StrategyDied AssertionFailed /\
      (number_of_objectives p <> 1 \/ number_of_constraints p <= 0))
  \/ (number_of_objectives p = 1 /\ 0 < number_of_constraints p /\
      (run_ending r = RunCompleted \/
       run_ending r = StrategyMalfunction /\ 0 < evaluations_constraints p \/
       exists value,
         run_ending r = StrategyDied (Uncaught (other_throwable value))) /\
      (solver_throws_only_std solver -> strategy_returned r = true) /\
      (2 <= evaluations_performed r)%nat /\
      evaluations_sum p + 2 <= evaluations_sum (run_after r) /\
      evaluations_sum (run_after r)
        <= Z.max (evaluations_sum p + 2)
             (dimension p * multiplier - evaluations_sum p + 1)).
Proof.
  intros He Hc Hsum Hbudget. cbv zeta. unfold evaluations_sum in *.
  destruct (stops_before_call multiplier p) eqn:Hgo.
  { left. by apply restart_run_stopped. }
  right.
  destruct (remaining_of_budget multiplier p Hgo) as [Hpos Hwrap].
  assert (Hrem : remaining_of multiplier p
                 = dimension p * multiplier
                   - (evaluations p + evaluations_constraints p)).
  { unfold remaining_of, LONG_LIMIT in *.
    rewrite !size_t_wrap_small by (unfold SIZE_T_MODULUS; lia).
    rewrite !to_long_small by (unfold LONG_LIMIT; lia). done. }
  pose proof (restart_run_called (my_search solver) multiplier p Hgo) as Hend.
  pose proof (restart_run_after (my_search solver) multiplier p Hgo) as Hafter.
  pose proof (proj1 (restart_run_before (my_search solver) multiplier p))
    as Hbefore.
  cbv zeta in Hend. rewrite Hwrap in Hend, Hafter.
  assert (Hrange : counters_in_range p)
    by (unfold counters_in_range, LONG_LIMIT, SIZE_T_MODULUS in *; lia).
  assert (Hroom : remaining_of multiplier p + 1 < SIZE_T_MODULUS)
    by (unfold LONG_LIMIT, SIZE_T_MODULUS in *; lia).
  destruct (my_search_counters solver (Z.to_nat (dimension p))
              (number_of_objectives p) (number_of_constraints p)
              (smallest_values_of_interest p) (largest_values_of_interest p)
              (remaining_of multiplier p) p Hrange Hroom)
    as (Hp' & He' & Hc' & Hsum' & Hgrow).
  pose proof (my_search_problem solver (Z.to_nat (dimension p))
                (number_of_objectives p) (number_of_constraints p)
                (smallest_values_of_interest p)
                (largest_values_of_interest p)
                (remaining_of multiplier p) p) as Hcases.
  cbv zeta in Hcases.
  pose proof (my_search_returns solver (Z.to_nat (dimension p))
                (number_of_objectives p) (number_of_constraints p)
                (smallest_values_of_interest p)
                (largest_values_of_interest p)
                (remaining_of multiplier p) p) as Hreturns.
  cbv zeta in Hreturns.
  pose proof (my_search_logged solver (Z.to_nat (dimension p))
                (number_of_objectives p) (number_of_constraints p)
                (smallest_values_of_interest p)
                (largest_values_of_interest p)
                (remaining_of multiplier p) p) as Hlogged.
  cbv zeta in Hlogged.
  set (result := my_search solver evaluate_function evaluate_constraint
                   (Z.to_nat (dimension p)) (number_of_objectives p)
                   (number_of_constraints p) (smallest_values_of_interest p)
                   (largest_values_of_interest p)
                   (remaining_of multiplier p) p) in *.
  destruct Hcases as [(Hfail & _ & _ & Hwhy) | (Hok & Hobj & Hcons & _)].
  - left. rewrite Hend, Hfail. done.
  - right. specialize (Hgrow Hok) as [He1 Hc1].
    destruct (Hreturns Hobj Hcons) as [Hret Hstd].
    destruct (Hlogged Hobj Hcons) as (e1 & e2 & rest & Hlog & _).
    destruct Hp' as (Hp0 & Hp1 & Hp2).
    rewrite (size_t_wrap_small (evaluations p + evaluations_constraints p))
      in Hend by (unfold LONG_LIMIT, SIZE_T_MODULUS in *; lia).
    rewrite (size_t_wrap_small
               (evaluations (search_problem result)
                + evaluations_constraints (search_problem result)))
      in Hend by lia.
    unfold evaluations_sum in Hsum'.
    assert (Hcalled :
      returns_normally (search_ending result) = true ->
      run_ending (restart_run (my_search solver) multiplier p) = RunCompleted
      \/ run_ending (restart_run (my_search solver) multiplier p)
         = StrategyMalfunction /\ 0 < evaluations_constraints p).
    { intros Hnormal. rewrite Hnormal in Hend. cbn [negb] in Hend.
      destruct (Z.eqb_spec (evaluations (search_problem result))
                  (evaluations p + evaluations_constraints p)) as [Heq|Hne].
      - right. split; [done | lia].
      - left. rewrite Hend.
        destruct (Z.ltb_spec
                    (evaluations (search_problem result)
                     + evaluations_constraints (search_problem result))
                    (evaluations p + evaluations_constraints p));
          [lia | done]. }
    split; [done|]. split; [done|].
    split; [|split; [|split; [|rewrite Hafter, <- Hrem; lia]]].
    + destruct Hret as [Hnormal | (value & Hvalue)].
      * destruct (Hcalled Hnormal) as [? | ?]; [by left | right; by left].
      * right. right. exists value. rewrite Hend, Hvalue. done.
    + intros Hsolver. unfold strategy_returned.
      destruct (Hcalled (Hstd Hsolver)) as [-> | [-> _]]; done.
    + unfold evaluations_performed. rewrite Hbefore, Hafter, Hlog.
      rewrite length_app. simpl. lia.
Qed.

(** X4.  With [my_search] as the strategy, on counters and a budget that fit
    [long], a run never ends in [coco_error]; it ends with the warning only
    when the problem had constraint evaluations counted before the run; the
    strategy fails to return only through its assertions or through
    something the solver throws that is not a [std::exception]; and a call
    that returns has added at least two evaluations. *)
Theorem my_search_run_never_fatal
    (solver : list Q -> list Q -> list Q -> RayEs) (multiplier : Z)
    (p : coco_problem_t) :
  0 <= evaluations p -> 0 <= evaluations_constraints p ->
  evaluations_sum p < LONG_LIMIT ->
  0 <= dimension p * multiplier < LONG_LIMIT ->
  let r := restart_run (my_search solver) multiplier p in
  run_ending r <> EvaluationsDecreased /\
  (run_ending r = StrategyMalfunction -> 0 < evaluations_constraints p) /\
  (forall e, run_ending r = StrategyDied e ->
     e = AssertionFailed \/ exists value, e = Uncaught (other_throwable value)) /\
  (solver_throws_only_std solver ->
   forall e, run_ending r = StrategyDied e -> e = AssertionFailed) /\
  (strategy_returned r = true ->
   evaluations_sum p + 2 <= evaluations_sum (run_after r)).
Proof.
  intros He Hc Hsum Hbudget.
  destruct (restart_run_my_search solver multiplier p He Hc Hsum Hbudget)
    as [Hstop | [[Hdied _] | (_ & _ & Hend & Hstd & _ & Hgrow & _)]];
    cbv zeta.
  - unfold strategy_returned. rewrite Hstop. repeat split; try done.
  - unfold strategy_returned. rewrite Hdied. repeat split; try done.
    + intros e [= <-]. by left.
    + intros _ e [= <-]. done.
  - split; [|split; [|split; [|split]]].
    + destruct Hend as [-> | [[-> _] | (value & ->)]]; done.
    + destruct Hend as [-> | [[_ Hpos] | (value & ->)]]; done.
    + intros e. destruct Hend as [-> | [[-> _] | (value & ->)]]; try done.
      intros [= <-]. right. by exists value.
    + intros Hsolver e Hdied. specialize (Hstd Hsolver).
      unfold strategy_returned in Hstd. by rewrite Hdied in Hstd.
    + done.
Qed.

Lemma my_search_run_never_fatal_witness :
  let r := restart_run (my_search throwing_solver) BUDGET_MULTIPLIER
             (new_problem 2 1 [(-5)%Q; (-5)%Q] [5%Q; 5%Q] [1%Q; 1%Q]) in
  run_ending r <> EvaluationsDecreased /\
  forall e, run_ending r = StrategyDied e ->
    e = AssertionFailed \/ exists value, e = Uncaught (other_throwable value).
Proof.
  pose proof (my_search_run_never_fatal throwing_solver BUDGET_MULTIPLIER
                (new_problem 2 1 [(-5)%Q; (-5)%Q] [5%Q; 5%Q] [1%Q; 1%Q]))
    as Hrun.
  destruct Hrun as (Hfatal & _ & Hdied & _).
  - simpl. lia.
  - simpl. lia.
  - unfold evaluations_sum, LONG_LIMIT. simpl. lia.
  - unfold BUDGET_MULTIPLIER, LONG_LIMIT. simpl. lia.
  - split; [exact Hfatal | exact Hdied].
Defined.

(** The one run of a new problem under [my_search]. *)
Lemma restart_run_new_problem
    (solver : list Q -> list Q -> list Q -> RayEs) (multiplier : Z)
    (p : coco_problem_t) :
  new_constrained_problem multiplier p ->
  let r := restart_run (my_search solver) multiplier p in
  restarts_of_problem (my_search solver) multiplier INDEPENDENT_RESTARTS p
  = [r] /\
  run_before r = p /\
  (run_ending r = RunCompleted \/
   exists value,
     run_ending r = StrategyDied (Uncaught (other_throwable value))) /\
  (solver_throws_only_std solver -> run_ending r = RunCompleted) /\
  (2 <= evaluations_performed r)%nat /\
  2 <= evaluations_sum (run_after r) <= dimension p * multiplier + 1.
Proof.
  intros (He & Hc & Hobj & Hcons & Hbudget). cbv zeta.
  assert (Hruns : restarts_of_problem (my_search solver) multiplier
                    INDEPENDENT_RESTARTS p
                  = [restart_run (my_search solver) multiplier p]).
  { unfold restarts_of_problem.
    change (number_of_runs INDEPENDENT_RESTARTS) with 1%nat.
    cbn [restart_loop].
    by destruct (run_ending (restart_run (my_search solver) multiplier p)). }
  split; [done|].
  split; [apply restart_run_before|].
  destruct (restart_run_my_search solver multiplier p) as
    [Hstop | [[_ Hwhy] | (_ & _ & Hend & Hstd & Hmade & Hge & Hle)]].
  - lia.
  - lia.
  - unfold evaluations_sum, LONG_LIMIT in *. lia.
  - lia.
  - apply restart_run_stopped in Hstop. unfold stops_before_call in Hstop.
    apply orb_true_iff in Hstop as [Hhit | Hrem].
    + apply andb_true_iff in Hhit as [_ Hzero]. apply Z.eqb_eq in Hzero. lia.
    + apply Z.leb_le in Hrem. unfold remaining_of, LONG_LIMIT in *.
      rewrite He, Hc in Hrem.
      rewrite (size_t_wrap_small (dimension p * multiplier)) in Hrem
        by (unfold SIZE_T_MODULUS; lia).
      rewrite to_long_small in Hrem by (unfold LONG_LIMIT; lia).
      change (to_long (size_t_wrap (0 + 0))) with 0 in Hrem. lia.
  - lia.
  - assert (Hends : run_ending (restart_run (my_search solver) multiplier p)
                    = RunCompleted \/
                    exists value,
                      run_ending (restart_run (my_search solver) multiplier p)
                      = StrategyDied (Uncaught (other_throwable value))).
    { destruct Hend as [? | [[_ ?] | ?]]; [by left | lia | by right]. }
    split; [done|]. split; [|split; [done|]].
    + intros Hsolver. specialize (Hstd Hsolver).
      unfold strategy_returned in Hstd.
      destruct Hends as [? | (value & Hdied)]; [done|].
      by rewrite Hdied in Hstd.
    + unfold evaluations_sum in *. rewrite He, Hc in Hge, Hle. lia.
Qed.

(** The runs of a new problem under [my_search], for a solver that throws
    nothing but [std::exception]s. *)
Lemma restarts_of_new_problem
    (solver : list Q -> list Q -> list Q -> RayEs) (multiplier : Z)
    (p : coco_problem_t) :
  solver_throws_only_std solver ->
  new_constrained_problem multiplier p ->
  let runs := restarts_of_problem (my_search solver) multiplier
                INDEPENDENT_RESTARTS p in
  completed_run_of multiplier p runs /\
  fatal_ending runs = None /\
  Forall not_a_warning (concat (map run_stdout runs)).
Proof.
  intros Hsolver Hnew. cbv zeta.
  destruct (restart_run_new_problem solver multiplier p Hnew)
    as (Hruns & Hbefore & _ & Hcompleted & _ & Hsum).
  specialize (Hcompleted Hsolver). rewrite Hruns. split; [|split].
  - eexists. split; [reflexivity|]. done.
  - unfold fatal_ending. cbn [last]. by rewrite Hcompleted.
  - cbn [map concat]. rewrite app_nil_r. apply Forall_forall.
    intros line Hin a b ->.
    assert (Hwarned : run_ending (restart_run (my_search solver) multiplier p)
                      = StrategyMalfunction)
      by (apply restart_run_warning; by exists a, b).
    congruence.
Qed.

(** The experiment loop over new problems. *)
Lemma experiment_loop_new_problems
    (solver : list Q -> list Q -> list Q -> RayEs)
    (multiplier firstFunction lastFunction : Z)
    (problems : list coco_problem_t) (s : experiment_state) :
  solver_throws_only_std solver ->
  Forall (new_constrained_problem multiplier) problems ->
  Forall not_a_warning (stdout s) ->
  exists s' added,
    experiment_loop (my_search solver) multiplier INDEPENDENT_RESTARTS
      firstFunction lastFunction problems s = (s', SuiteCompleted) /\
    history s' = history s ++ added /\
    Forall2 (completed_run_of multiplier)
      (accepted_problems firstFunction lastFunction (prevDimension s) (cnt s)
         problems) added /\
    Forall not_a_warning (stdout s').
Proof.
  intros Hsolver Hnew. revert s.
  induction Hnew as [|p problems Hp _ IH]; intros s Hout;
    cbn [experiment_loop accepted_problems].
  - exists s, []. rewrite app_nil_r. split; [done|]. split; [done|].
    split; [constructor | done].
  - destruct (in_function_range _ _ _); cbn [negb].
    + destruct (restarts_of_new_problem solver multiplier p Hsolver Hp)
        as (Hone & Hfatal & Hquiet).
      rewrite Hfatal.
      destruct (timing_data_time_problem _ _ _) as [td clock1].
      match goal with
      | |- context [experiment_loop _ _ _ _ _ problems ?s1] =>
          destruct (IH s1) as (s' & added & Hloop & Hhist & Hall & Hout')
      end.
      { cbn [stdout]. apply Forall_app. done. }
      cbn [history prevDimension cnt] in Hhist, Hall.
      eexists s', (_ :: added). split; [exact Hloop|].
      split; [by rewrite Hhist, <- app_assoc|].
      split; [by constructor | done].
    + match goal with
      | |- context [experiment_loop _ _ _ _ _ problems ?s1] =>
          destruct (IH s1) as (s' & added & Hloop & Hhist & Hall & Hout')
      end; [done|].
      cbn [history prevDimension cnt] in Hhist, Hall.
      by exists s', added.
Qed.

(** X5.  On a suite of new problems with one objective and at least one
    constraint, and for a solver that throws nothing but [std::exception]s,
    the experiment with [my_search] and no restart runs to the end of the
    suite: no fatal error, no warning, and for every problem that passes
    the test of [good], in the order of the suite, exactly one run, made
    from that problem, which leaves at least the two evaluations of the
    warm-up and at most one evaluation more than the budget
    [dimension * multiplier]; no other problem has a run. *)
Theorem example_experiment_completes
    (solver : list Q -> list Q -> list Q -> RayEs)
    (multiplier firstFunction lastFunction : Z)
    (suite : coco_suite_t) (clock0 : wall_clock) :
  solver_throws_only_std solver ->
  Forall (new_constrained_problem multiplier) (suite_problems suite) ->
  let result :=
    example_experiment (my_search solver) multiplier INDEPENDENT_RESTARTS
      firstFunction lastFunction suite clock0 in
  snd result = SuiteCompleted /\
  Forall2 (completed_run_of multiplier)
    (accepted_problems firstFunction lastFunction 0 1 (suite_problems suite))
    (history (fst result)) /\
  (forall a b, BudgetNotExhaustedWarning a b ∉ stdout (fst result)).
Proof.
  intros Hsolver Hnew. cbv zeta. unfold example_experiment.
  destruct (timing_data_initialize suite clock0) as [td0 clock1].
  destruct (experiment_loop_new_problems solver multiplier firstFunction
              lastFunction (suite_problems suite)
              (ExperimentState 1 0 td0 clock1 [] [] []) Hsolver Hnew)
    as (s' & added & Hloop & Hhist & Hall & Hout); [constructor|].
  rewrite Hloop.
  destruct (timing_data_finalize (timing_data s') (clock s'))
    as [[report td] clock2].
  cbn [fst snd history stdout prevDimension cnt] in *.
  split; [done|]. split; [by rewrite Hhist|].
  intros a b Hin. apply elem_of_app in Hin as [Hin | Hin].
  - rewrite Forall_forall in Hout. by apply (Hout _ Hin a b).
  - apply elem_of_cons in Hin as [? | Hin]; [done|].
    apply list_elem_of_singleton in Hin. done.
Qed.

Lemma example_experiment_completes_witness :
  let suite :=
    Suite (replicate 17
             (new_problem 2 1 [(-5)%Q; (-5)%Q] [5%Q; 5%Q] [1%Q; 1%Q])) 0 in
  let result :=
    example_experiment (my_search two_step_solver) BUDGET_MULTIPLIER
      INDEPENDENT_RESTARTS 2 48 suite frozen_clock in
  snd result = SuiteCompleted /\ length (history (fst result)) = 2%nat.
Proof.
  pose proof (example_experiment_completes two_step_solver
                BUDGET_MULTIPLIER 2 48
                (Suite (replicate 17
                          (new_problem 2 1 [(-5)%Q; (-5)%Q] [5%Q; 5%Q]
                             [1%Q; 1%Q])) 0)
                frozen_clock) as Hrun.
  destruct Hrun as (Hend & Hhist & _).
  - intros lbnds ubnds rayInit y z. exact I.
  - apply Forall_replicate. unfold new_constrained_problem, BUDGET_MULTIPLIER,
      LONG_LIMIT. simpl. lia.
  - split; [exact Hend|].
    apply Forall2_length in Hhist. rewrite <- Hhist. reflexivity.
Defined.

(** X6.  [main], on a suite of new problems with one objective and at least
    one constraint and with a solver that throws nothing but
    [std::exception]s, prints ["Done!"] as its last line and no warning, and
    returns with the suite completed. *)
Theorem main_runs_to_done
    (solver : list Q -> list Q -> list Q -> RayEs)
    (suite : coco_suite_t) (clock0 : wall_clock) :
  solver_throws_only_std solver ->
  Forall (new_constrained_problem BUDGET_MULTIPLIER) (suite_problems suite) ->
  snd (main solver suite clock0) = SuiteCompleted /\
  head (fst (main solver suite clock0)) = Some RunningTheExperiment /\
  last (fst (main solver suite clock0)) = Some Done /\
  (forall a b,
     ExperimentOutput (BudgetNotExhaustedWarning a b)
     ∉ fst (main solver suite clock0)).
Proof.
  intros Hsolver Hnew. unfold main, example_experiment.
  destruct (timing_data_initialize suite clock0) as [td0 clock1].
  destruct (experiment_loop_new_problems solver BUDGET_MULTIPLIER 1 48
              (suite_problems suite)
              (ExperimentState 1 0 td0 clock1 [] [] []) Hsolver Hnew)
    as (s' & added & Hloop & _ & _ & Hout); [constructor|].
  rewrite Hloop.
  destruct (timing_data_finalize (timing_data s') (clock s'))
    as [[report td] clock2].
  cbn [fst snd stdout]. split; [done|]. split; [done|]. split.
  - rewrite last_cons, last_app. done.
  - intros a b Hin. apply elem_of_cons in Hin as [? | Hin]; [done|].
    apply elem_of_app in Hin as [Hin | Hin].
    + apply list_elem_of_fmap in Hin as (line & [= <-] & Hin).
      apply elem_of_app in Hin as [Hin | Hin].
      * rewrite Forall_forall in Hout. by apply (Hout _ Hin a b).
      * apply elem_of_cons in Hin as [? | Hin]; [done|].
        apply list_elem_of_singleton in Hin. done.
    + apply list_elem_of_singleton in Hin. done.
Qed.

Lemma main_runs_to_done_witness :
  let output :=
    fst (main two_step_solver
           (Suite [new_problem 2 1 [(-5)%Q; (-5)%Q] [5%Q; 5%Q] [1%Q; 1%Q]] 0)
           frozen_clock) in
  head output = Some RunningTheExperiment /\ last output = Some Done.
Proof.
  pose proof (main_runs_to_done two_step_solver
                (Suite [new_problem 2 1 [(-5)%Q; (-5)%Q] [5%Q; 5%Q]
                          [1%Q; 1%Q]] 0)
                frozen_clock) as Hmain.
  destruct Hmain as (_ & Hhead & Hlast & _).
  - intros lbnds ubnds rayInit y z. exact I.
  - repeat constructor.
  - split; [exact Hhead | exact Hlast].
Defined.

(** ** The selection of the problems *)

(** X7.  A problem is accepted exactly when the number of its function,
    computed from its rank [cnt] among the problems of its dimension with 15
    instances per function, lies between [firstFunction] and
    [lastFunction]. *)
Theorem in_function_range_function_number (firstFunction lastFunction cnt : Z) :
  in_function_range firstFunction lastFunction cnt = true <->
  firstFunction <= function_number cnt <= lastFunction.
Proof.
  unfold in_function_range, function_number.
  rewrite andb_true_iff, !Z.ltb_lt.
  pose proof (Z.div_mod (cnt - 1) 15 ltac:(lia)) as Hdiv.
  pose proof (Z.mod_pos_bound (cnt - 1) 15 ltac:(lia)) as Hmod.
  lia.
Qed.

(** The problems of one dimension, from a state whose count for that
    dimension is [c]: those whose rank falls in the range are processed, in
    order, and no other. *)
Lemma experiment_loop_block (search : search_strategy)
    (multiplier restarts firstFunction lastFunction d : Z)
    (block : list coco_problem_t) (s s' : experiment_state) (c : Z) :
  Forall (fun p => dimension p = d) block ->
  (prevDimension s = d /\ cnt s = c) \/ (prevDimension s <> d /\ c = 1) ->
  experiment_loop search multiplier restarts firstFunction lastFunction
    block s = (s', SuiteCompleted) ->
  processed s'
  = processed s ++
    map (processed_as search multiplier restarts)
      (take (Z.to_nat (lastFunction * 15 + 1
                       - Z.max c ((firstFunction - 1) * 15 + 1)))
         (drop (Z.to_nat ((firstFunction - 1) * 15 + 1 - c)) block)).
Proof.
  intros Hblock. revert s c.
  induction Hblock as [|p block Hp _ IH]; intros s c Hstate;
    cbn [experiment_loop].
  - intros [= <-]. by rewrite drop_nil, take_nil, app_nil_r.
  - assert (Hcnt : (if negb (dimension p =? prevDimension s) then 1
                    else cnt s) = c).
    { rewrite Hp. destruct Hstate as [[-> <-] | [Hne ->]].
      - by rewrite Z.eqb_refl.
      - replace (d =? prevDimension s) with false
          by (symmetry; apply Z.eqb_neq; congruence).
        done. }
    rewrite Hcnt.
    destruct (in_function_range firstFunction lastFunction c) eqn:Hrange;
      cbn [negb].
    + apply andb_true_iff in Hrange as [Hlow Hhigh].
      apply Z.ltb_lt in Hlow, Hhigh.
      destruct (fatal_ending _) as [e|] eqn:Hfatal.
      { intros [= _ He]. unfold fatal_ending in Hfatal.
        destruct (last _) as [r|]; [|done].
        destruct (run_ending r); try done; congruence. }
      destruct (timing_data_time_problem _ _ _) as [td clock1].
      intros Hloop.
      apply IH with (c := c + 1) in Hloop;
        [|left; split; [exact Hp | reflexivity]].
      rewrite Hloop. cbn [processed].
      replace (Z.to_nat ((firstFunction - 1) * 15 + 1 - c)) with 0%nat by lia.
      replace (Z.to_nat ((firstFunction - 1) * 15 + 1 - (c + 1)))
        with 0%nat by lia.
      replace (Z.to_nat (lastFunction * 15 + 1
                         - Z.max c ((firstFunction - 1) * 15 + 1)))
        with (S (Z.to_nat (lastFunction * 15 + 1
                           - Z.max (c + 1) ((firstFunction - 1) * 15 + 1))))
        by lia.
      rewrite !drop_0. cbn [take map]. rewrite <- app_assoc. done.
    + apply andb_false_iff in Hrange.
      intros Hloop.
      apply IH with (c := c + 1) in Hloop;
        [|left; split; [exact Hp | reflexivity]].
      rewrite Hloop. cbn [processed]. f_equal. f_equal.
      destruct Hrange as [Hlow | Hhigh].
      * apply Z.ltb_ge in Hlow.
        replace (Z.to_nat ((firstFunction - 1) * 15 + 1 - c))
          with (S (Z.to_nat ((firstFunction - 1) * 15 + 1 - (c + 1))))
          by lia.
        replace (Z.max c ((firstFunction - 1) * 15 + 1))
          with (Z.max (c + 1) ((firstFunction - 1) * 15 + 1)) by lia.
        done.
      * apply Z.ltb_ge in Hhigh.
        replace (Z.to_nat (lastFunction * 15 + 1
                           - Z.max c ((firstFunction - 1) * 15 + 1)))
          with 0%nat by lia.
        replace (Z.to_nat (lastFunction * 15 + 1
                           - Z.max (c + 1) ((firstFunction - 1) * 15 + 1)))
          with 0%nat by lia.
        done.
Qed.

(** X8.  Of the problems of a new dimension, the experiment that reaches
    their end has run and timed the contiguous slice that starts after the
    [(firstFunction - 1) * 15] first ones and has
    [(lastFunction - firstFunction + 1) * 15] problems, in their order, and
    it has neither run nor timed any other. *)
Theorem experiment_loop_processes_slice (search : search_strategy)
    (multiplier restarts firstFunction lastFunction d : Z)
    (block : list coco_problem_t) (s s' : experiment_state) :
  1 <= firstFunction ->
  Forall (fun p => dimension p = d) block ->
  prevDimension s <> d ->
  experiment_loop search multiplier restarts firstFunction lastFunction
    block s = (s', SuiteCompleted) ->
  processed s'
  = processed s ++
    map (processed_as search multiplier restarts)
      (take (Z.to_nat ((lastFunction - firstFunction + 1) * 15))
         (drop (Z.to_nat ((firstFunction - 1) * 15)) block)).
Proof.
  intros Hfirst Hblock Hnew Hloop.
  rewrite (experiment_loop_block search multiplier restarts firstFunction
             lastFunction d block s s' 1 Hblock
             (or_intror (conj Hnew eq_refl)) Hloop).
  replace (Z.to_nat (lastFunction * 15 + 1
                     - Z.max 1 ((firstFunction - 1) * 15 + 1)))
    with (Z.to_nat ((lastFunction - firstFunction + 1) * 15)) by lia.
  replace (Z.to_nat ((firstFunction - 1) * 15 + 1 - 1))
    with (Z.to_nat ((firstFunction - 1) * 15)) by lia.
  reflexivity.
Qed.

Lemma experiment_loop_processes_slice_witness :
  processed
    (fst (experiment_loop idle_search BUDGET_MULTIPLIER INDEPENDENT_RESTARTS
            1 48 [used_problem 0 0; used_problem 0 0] initial_state))
  = [] ++ map (processed_as idle_search BUDGET_MULTIPLIER INDEPENDENT_RESTARTS)
            (take (Z.to_nat ((48 - 1 + 1) * 15))
               (drop (Z.to_nat ((1 - 1) * 15))
                  [used_problem 0 0; used_problem 0 0])).
Proof.
  apply (experiment_loop_processes_slice idle_search BUDGET_MULTIPLIER
           INDEPENDENT_RESTARTS 1 48 2
           [used_problem 0 0; used_problem 0 0] initial_state).
  - lia.
  - repeat constructor.
  - simpl. lia.
  - vm_compute. reflexivity.
Defined.

(** ** Grid search: the order of the enumeration *)

Lemma grid_node_of_rank_inverse (max_nodes : Z) (nodes : list Z) :
  0 <= max_nodes -> grid_nodes_ok max_nodes nodes ->
  grid_node_of_rank max_nodes (length nodes) (grid_rank max_nodes nodes)
  = nodes.
Proof.
  intros HM. induction 1 as [|n rest Hn _ IH]; [done|].
  cbn [length grid_node_of_rank grid_rank].
  rewrite (Z.mul_comm (max_nodes + 1)).
  rewrite Z_mod_plus_full, Z.div_add by lia.
  rewrite Z.mod_small, Z.div_small by lia.
  rewrite Z.add_0_l, IH. done.
Qed.

Lemma grid_node_of_rank_0 (max_nodes : Z) (dimension : nat) :
  grid_node_of_rank max_nodes dimension 0 = replicate dimension 0.
Proof.
  induction dimension as [|d IH]; [done|].
  cbn [grid_node_of_rank replicate].
  rewrite Zmod_0_l, Zdiv_0_l. by rewrite IH.
Qed.

Lemma grid_node_of_rank_last (max_nodes : Z) (dimension : nat) :
  1 <= max_nodes ->
  grid_node_of_rank max_nodes dimension
    ((max_nodes + 1) ^ Z.of_nat dimension - 1)
  = replicate dimension max_nodes.
Proof.
  intros HM.
  rewrite <- (grid_rank_replicate_max max_nodes dimension).
  rewrite <- (length_replicate dimension max_nodes) at 1.
  apply grid_node_of_rank_inverse; [lia|].
  apply Forall_replicate. lia.
Qed.

(** The points the loop evaluates from a node of rank [r] are those of the
    nodes of rank [r], [r + 1], ..., as many as the budget and the grid
    allow. *)
Lemma grid_loop_points (dimension : nat) (lower_bounds grid_step : list Q)
    (max_nodes : Z) (remaining : nat) (nodes : list Z)
    (PROBLEM : coco_problem_t) :
  1 <= max_nodes -> (1 <= dimension)%nat ->
  length nodes = dimension -> grid_nodes_ok max_nodes nodes ->
  exists evaluated : list evaluation,
    logged (grid_loop evaluate_function max_nodes dimension lower_bounds
              grid_step remaining nodes PROBLEM)
      = logged PROBLEM ++ evaluated /\
    map ev_point evaluated
      = map (fun k =>
               grid_point dimension lower_bounds grid_step
                 (grid_node_of_rank max_nodes dimension
                    (grid_rank max_nodes nodes + Z.of_nat k)))
            (seq 0 (Z.to_nat
                      (Z.min (Z.of_nat remaining)
                         ((max_nodes + 1) ^ Z.of_nat dimension
                          - grid_rank max_nodes nodes)))).
Proof.
  intros HM Hd. revert nodes PROBLEM.
  induction remaining as [|remaining IH]; intros nodes PROBLEM Hlen Hok.
  - exists []. cbn [grid_loop]. rewrite app_nil_r. split; [done|].
    pose proof (grid_rank_bounds max_nodes HM nodes Hok) as Hr.
    rewrite Hlen in Hr.
    replace (Z.to_nat _) with 0%nat by lia. done.
  - cbn [grid_loop].
    unfold evaluate_function at 1. unfold coco_evaluate_function.
    set (e := Evaluation Objective
                (grid_point dimension lower_bounds grid_step nodes)
                (evaluations_total PROBLEM)).
    destruct (grid_advance max_nodes dimension nodes) as [nodes' at_end]
      eqn:Hadv.
    pose proof (grid_rank_bounds max_nodes HM nodes Hok) as Hr.
    rewrite Hlen in Hr.
    assert (Hhere : grid_point dimension lower_bounds grid_step nodes
                    = grid_point dimension lower_bounds grid_step
                        (grid_node_of_rank max_nodes dimension
                           (grid_rank max_nodes nodes + Z.of_nat 0))).
    { rewrite Z.add_0_r, <- Hlen.
      by rewrite grid_node_of_rank_inverse by (done || lia). }
    destruct (grid_advance_spec max_nodes HM dimension nodes nodes' at_end
                Hd Hlen Hok Hadv)
      as [(-> & Hlast) | (-> & Hrank & Hok' & Hlen')].
    + exists [e]. cbn [logged]. split; [done|].
      replace (Z.to_nat _) with 1%nat by lia.
      cbn [seq map ev_point e]. by rewrite <- Hhere.
    + match goal with
      | |- context [grid_loop _ _ _ _ _ _ _ ?P] =>
          destruct (IH nodes' P Hlen' Hok') as (evs & Hlog & Hpoints)
      end.
      exists (e :: evs). rewrite Hlog. cbn [logged].
      rewrite <- app_assoc. split; [done|].
      replace (Z.to_nat
                 (Z.min (Z.of_nat (S remaining))
                    ((max_nodes + 1) ^ Z.of_nat dimension
                     - grid_rank max_nodes nodes)))
        with (S (Z.to_nat
                   (Z.min (Z.of_nat remaining)
                      ((max_nodes + 1) ^ Z.of_nat dimension
                       - grid_rank max_nodes nodes'))))
        by lia.
      cbn [seq map ev_point e]. rewrite <- Hhere. f_equal.
      rewrite Hpoints, map_seq_shift. apply map_ext. intros k.
      do 2 f_equal. lia.
Qed.

(** X9.  [my_grid_search] visits the nodes of the grid in the order of
    their rank, the first coordinate moving fastest: its [k]-th evaluation is
    at the node whose indices are the digits of [k] in base [max_nodes + 1],
    for [k] from 0 up to the budget or the size of the grid. *)
Theorem my_grid_search_order (floor_pow : Z -> nat -> Z)
    (dimension : nat) (number_of_objectives : Z)
    (lower_bounds upper_bounds : list Q) (max_budget : Z)
    (PROBLEM : coco_problem_t) :
  (1 <= dimension)%nat ->
  let max_nodes := Z.max 1 (floor_pow max_budget dimension - 1) in
  let grid_step :=
    grid_steps dimension lower_bounds upper_bounds max_nodes in
  exists evaluated : list evaluation,
    logged (my_grid_search floor_pow evaluate_function dimension
              number_of_objectives lower_bounds upper_bounds max_budget
              PROBLEM)
      = logged PROBLEM ++ evaluated /\
    map ev_point evaluated
      = map (fun k =>
               grid_point dimension lower_bounds grid_step
                 (grid_node_of_rank max_nodes dimension (Z.of_nat k)))
            (seq 0 (Z.to_nat
                      (Z.min max_budget
                         ((max_nodes + 1) ^ Z.of_nat dimension)))).
Proof.
  intros Hd max_nodes grid_step.
  assert (HM : grid_max_nodes floor_pow dimension max_budget = max_nodes).
  { unfold grid_max_nodes, max_nodes.
    destruct (Z.ltb_spec (floor_pow max_budget dimension - 1) 1); lia. }
  unfold my_grid_search. rewrite HM. fold grid_step.
  destruct (grid_loop_points dimension lower_bounds grid_step max_nodes
              (Z.to_nat max_budget) (replicate dimension 0) PROBLEM)
    as (evs & Hlog & Hpoints).
  - unfold max_nodes. lia.
  - done.
  - by rewrite length_replicate.
  - apply Forall_replicate. unfold max_nodes. lia.
  - exists evs. split; [done|]. rewrite Hpoints.
    rewrite grid_rank_replicate_0.
    assert (0 < (max_nodes + 1) ^ Z.of_nat dimension)
      by (apply Z.pow_pos_nonneg; unfold max_nodes; lia).
    replace (Z.to_nat (Z.min (Z.of_nat (Z.to_nat max_budget))
                         ((max_nodes + 1) ^ Z.of_nat dimension - 0)))
      with (Z.to_nat (Z.min max_budget
                        ((max_nodes + 1) ^ Z.of_nat dimension))) by lia.
    apply map_ext. intros k. by rewrite Z.add_0_l.
Qed.

Lemma my_grid_search_order_witness :
  exists evaluated : list evaluation,
    logged (my_grid_search exact_floor_pow evaluate_function 2 1
              [(-5)%Q; (-5)%Q] [5%Q; 5%Q] 25
              (new_problem 2 0 [(-5)%Q; (-5)%Q] [5%Q; 5%Q] [0%Q; 0%Q]))
      = [] ++ evaluated /\
    map ev_point evaluated
      = map (fun k =>
               grid_point 2 [(-5)%Q; (-5)%Q]
                 (grid_steps 2 [(-5)%Q; (-5)%Q] [5%Q; 5%Q]
                    (Z.max 1 (exact_floor_pow 25 2 - 1)))
                 (grid_node_of_rank (Z.max 1 (exact_floor_pow 25 2 - 1)) 2
                    (Z.of_nat k)))
            (seq 0 (Z.to_nat
                      (Z.min 25
                         ((Z.max 1 (exact_floor_pow 25 2 - 1) + 1)
                          ^ Z.of_nat 2)))).
Proof.
  apply (my_grid_search_order exact_floor_pow 2 1
           [(-5)%Q; (-5)%Q] [5%Q; 5%Q] 25). lia.
Defined.

Lemma grid_point_coordinate (dimension : nat) (lower_bounds upper_bounds : list Q)
    (max_nodes n : Z) (j : nat) :
  (j < dimension)%nat ->
  grid_point dimension lower_bounds
    (grid_steps dimension lower_bounds upper_bounds max_nodes)
    (replicate dimension n) !!! j
  = (lower_bounds !!! j
     + (upper_bounds !!! j - lower_bounds !!! j) / inject_Z max_nodes
       * inject_Z n)%Q.
Proof.
  intros Hj. unfold grid_point, grid_steps.
  rewrite !lookup_total_map_seq by done.
  by rewrite (list_lookup_total_correct _ _ _ (lookup_replicate_2 _ _ _ Hj)).
Qed.

(** X10.  The first point [my_grid_search] evaluates is the corner of the
    lower bounds; when the budget covers the grid, the last one is the point
    of the node whose indices are all [max_nodes], the far corner of the
    grid. *)
Theorem my_grid_search_corners (floor_pow : Z -> nat -> Z)
    (dimension : nat) (number_of_objectives : Z)
    (lower_bounds upper_bounds : list Q) (max_budget : Z)
    (PROBLEM : coco_problem_t) :
  (1 <= dimension)%nat -> 1 <= max_budget ->
  let max_nodes := Z.max 1 (floor_pow max_budget dimension - 1) in
  let grid_step :=
    grid_steps dimension lower_bounds upper_bounds max_nodes in
  exists evaluated : list evaluation,
    logged (my_grid_search floor_pow evaluate_function dimension
              number_of_objectives lower_bounds upper_bounds max_budget
              PROBLEM)
      = logged PROBLEM ++ evaluated /\
    (exists x, head (map ev_point evaluated) = Some x /\
       forall j, (j < dimension)%nat -> (x !!! j == lower_bounds !!! j)%Q) /\
    ((max_nodes + 1) ^ Z.of_nat dimension <= max_budget ->
     last (map ev_point evaluated)
     = Some (grid_point dimension lower_bounds grid_step
               (replicate dimension max_nodes))).
Proof.
  intros Hd Hb max_nodes grid_step.
  assert (HM : grid_max_nodes floor_pow dimension max_budget = max_nodes).
  { unfold grid_max_nodes, max_nodes.
    destruct (Z.ltb_spec (floor_pow max_budget dimension - 1) 1); lia. }
  assert (HM1 : 1 <= max_nodes) by (unfold max_nodes; lia).
  unfold my_grid_search. rewrite HM. fold grid_step.
  destruct (grid_loop_points dimension lower_bounds grid_step
              max_nodes (Z.to_nat max_budget) (replicate dimension 0) PROBLEM)
    as (evs & Hlog & Hpoints); [done | done | by rewrite length_replicate | |].
  { apply Forall_replicate. lia. }
  exists evs. split; [done|]. rewrite Hpoints, grid_rank_replicate_0.
  assert (Hsize : 0 < (max_nodes + 1) ^ Z.of_nat dimension)
    by (apply Z.pow_pos_nonneg; lia).
  set (count := Z.to_nat (Z.min (Z.of_nat (Z.to_nat max_budget))
                            ((max_nodes + 1) ^ Z.of_nat dimension - 0))).
  assert (Hcount : exists n, count = S n)
    by (exists (count - 1)%nat; unfold count; lia).
  destruct Hcount as [n Hn]. rewrite Hn. split.
  - eexists. split; [reflexivity|]. intros j Hj.
    rewrite Z.add_0_l. cbn [Z.of_nat]. rewrite grid_node_of_rank_0.
    unfold grid_step. rewrite grid_point_coordinate by done.
    cbn [inject_Z]. ring.
  - intros Hcovers.
    rewrite seq_S, map_app, last_app. cbn [map last]. f_equal.
    rewrite Z.add_0_l. cbn [Nat.add].
    replace (Z.of_nat n) with ((max_nodes + 1) ^ Z.of_nat dimension - 1)
      by (unfold count in Hn; lia).
    by rewrite grid_node_of_rank_last.
Qed.

Lemma my_grid_search_corners_witness :
  exists evaluated : list evaluation,
    logged (my_grid_search exact_floor_pow evaluate_function 2 1
              [(-5)%Q; (-5)%Q] [5%Q; 5%Q] 25
              (new_problem 2 0 [(-5)%Q; (-5)%Q] [5%Q; 5%Q] [0%Q; 0%Q]))
      = [] ++ evaluated /\
    (exists x, head (map ev_point evaluated) = Some x /\
       forall j, (j < 2)%nat -> (x !!! j == [(-5)%Q; (-5)%Q] !!! j)%Q) /\
    ((Z.max 1 (exact_floor_pow 25 2 - 1) + 1) ^ Z.of_nat 2 <= 25 ->
     last (map ev_point evaluated)
     = Some (grid_point 2 [(-5)%Q; (-5)%Q]
               (grid_steps 2 [(-5)%Q; (-5)%Q] [5%Q; 5%Q]
                  (Z.max 1 (exact_floor_pow 25 2 - 1)))
               (replicate 2 (Z.max 1 (exact_floor_pow 25 2 - 1))))).
Proof.
  apply (my_grid_search_corners exact_floor_pow 2 1
           [(-5)%Q; (-5)%Q] [5%Q; 5%Q] 25); lia.
Defined.

(** ** Random search: the use of the random source *)

(** X11.  [my_random_search] draws [max_budget * dimension] numbers from the
    random source, in order: iteration [i] builds its point from the
    deliveries [i * dimension] to [i * dimension + dimension - 1], evaluates
    the objective at it and then, when there are constraints, the
    constraints at the same point.  So the same source gives the same
    points again. *)
Theorem my_random_search_draws (dimension : nat)
    (number_of_objectives number_of_constraints : Z)
    (lower_bounds upper_bounds : list Q) (max_budget : Z)
    (g : coco_random_state_t) (PROBLEM : coco_problem_t) :
  let result :=
    my_random_search evaluate_function evaluate_constraint dimension
      number_of_objectives number_of_constraints lower_bounds upper_bounds
      max_budget g PROBLEM in
  snd result
    = RandomState (deliveries g) (drawn g + Z.to_nat max_budget * dimension) /\
  exists evaluated : list evaluation,
    logged (fst result) = logged PROBLEM ++ evaluated /\
    calls_of evaluated
    = concat (map (random_round number_of_constraints)
                (map (random_sample dimension lower_bounds upper_bounds g)
                   (seq 0 (Z.to_nat max_budget)))).
Proof.
  exact (random_loop_explicit dimension number_of_constraints lower_bounds
           upper_bounds (Z.to_nat max_budget) g PROBLEM).
Qed.

(** X12.  With every lower bound at most its upper bound, and the two may
    be equal, every coordinate [my_random_search] samples lies between its
    two bounds, both included. *)
Theorem my_random_search_within_bounds (dimension : nat)
    (number_of_objectives number_of_constraints : Z)
    (lower_bounds upper_bounds : list Q) (max_budget : Z)
    (g : coco_random_state_t) (PROBLEM : coco_problem_t) :
  uniform_source g ->
  (forall j, (j < dimension)%nat ->
     (lower_bounds !!! j <= upper_bounds !!! j)%Q) ->
  exists evaluated : list evaluation,
    logged (fst (my_random_search evaluate_function evaluate_constraint
                   dimension number_of_objectives number_of_constraints
                   lower_bounds upper_bounds max_budget g PROBLEM))
      = logged PROBLEM ++ evaluated /\
    Forall (fun e => within_bounds dimension lower_bounds upper_bounds
                       (ev_point e)) evaluated.
Proof.
  intros Hg Hbounds.
  destruct (random_loop_explicit dimension number_of_constraints lower_bounds
              upper_bounds (Z.to_nat max_budget) g PROBLEM)
    as (_ & evs & Hlog & Hcalls).
  exists evs. split; [exact Hlog|].
  apply Forall_forall. intros e He.
  assert (Hcall : (ev_kind e, ev_point e) ∈ calls_of evs)
    by (unfold calls_of; apply list_elem_of_fmap; by exists e).
  rewrite Hcalls in Hcall.
  apply list_elem_of_In, in_concat in Hcall as (round & Hround & Hin).
  apply in_map_iff in Hround as (x & <- & Hx).
  apply in_map_iff in Hx as (i & <- & _).
  assert (Hpoint : ev_point e
                   = random_sample dimension lower_bounds upper_bounds g i).
  { unfold random_round in Hin.
    destruct (0 <? number_of_constraints); cbn in Hin;
      intuition congruence. }
  rewrite Hpoint. split.
  - unfold random_sample. by rewrite length_map, length_seq.
  - intros j Hj. unfold random_sample.
    rewrite lookup_total_map_seq by done.
    destruct (Hg (drawn g + i * dimension + j)%nat) as [H0 H1].
    specialize (Hbounds j Hj). split; nra.
Qed.

Lemma my_random_search_within_bounds_witness :
  exists evaluated : list evaluation,
    logged (fst (my_random_search evaluate_function evaluate_constraint
                   1 1 0 [0%Q] [0%Q] 1 halves
                   (new_problem 1 0 [0%Q] [0%Q] [0%Q])))
      = [] ++ evaluated /\
    Forall (fun e => within_bounds 1 [0%Q] [0%Q] (ev_point e)) evaluated.
Proof.
  apply (my_random_search_within_bounds 1 1 0 [0%Q] [0%Q] 1 halves).
  - intros n. split; by vm_compute.
  - intros j Hj. destruct j as [|j]; [by vm_compute | lia].
Defined.

(** ** Timing: any stream *)

Lemma summary_dimensions_heads (prev : Z) (live : bool) (dims : list Z) :
  summary_dimensions prev live dims
  = (if live && negb (match dims with
                      | d :: _ => prev =? d
                      | [] => false
                      end)
     then [prev] else [])
    ++ group_heads dims.
Proof.
  revert prev live. induction dims as [|d rest IH]; intros prev live.
  - cbn. destruct live; done.
  - cbn [summary_dimensions group_heads].
    destruct (Z.eqb_spec prev d) as [->|Hne].
    + rewrite andb_false_r, IH. cbn [andb app].
      destruct rest as [|d' rest']; [done|].
      destruct (d =? d'); done.
    + cbn [negb]. rewrite andb_true_r, IH. cbn [andb]. f_equal.
      destruct rest as [|d' rest']; [done|].
      destruct (d =? d'); done.
Qed.

Lemma length_group_heads (dims : list Z) :
  length (group_heads dims) = dimension_groups dims.
Proof.
  induction dims as [|d rest IH]; [done|].
  cbn [group_heads dimension_groups].
  destruct rest as [|d' rest']; [done|].
  destruct (d =? d'); cbn [length]; by rewrite IH.
Qed.

(** A summary is stored in the first free cell of [output]. *)
Lemma insert_first_free (lines : list summary_line) (line : summary_line)
    (k : nat) :
  <[length lines := Some line]> ((Some <$> lines) ++ replicate (S k) None)
  = (Some <$> (lines ++ [line])) ++ replicate k None.
Proof.
  rewrite insert_app_r_alt by (rewrite length_fmap; lia).
  rewrite length_fmap, Nat.sub_diag, fmap_app, <- app_assoc. done.
Qed.

Lemma omap_id_Some {A : Type} (l : list A) : omap id (Some <$> l) = l.
Proof. induction l as [|x l IH]; [done|]. cbn. by rewrite IH. Qed.

(** The strings [timing_data_finalize] prints from an [output] whose first
    cells are filled. *)
Lemma printed_lines (lines : list summary_line) (k : nat) :
  omap (fun i => ((Some <$> lines) ++ replicate k None) !!! i)
       (seq 0 (length lines + k))
  = lines.
Proof.
  pose proof (omap_lookup_total_seq []
                ((Some <$> lines) ++ replicate k None)) as H.
  cbn [app length] in H.
  rewrite length_app, length_fmap, length_replicate in H. rewrite H.
  rewrite omap_app, omap_id_Some, omap_replicate_None. by rewrite app_nil_r.
Qed.

Lemma stream_evaluations_nonneg (processed : list coco_problem_t) :
  Forall (fun p => 0 <= evaluations p) processed ->
  0 <= stream_evaluations processed.
Proof.
  induction 1 as [|p rest Hp _ IH]; cbn [stream_evaluations foldr]; [done|].
  fold (stream_evaluations rest). lia.
Qed.

(** A stream of problems with positive evaluation counts, then the flush:
    one summary for every segment, stored in the next free cells. *)
Lemma timing_stream_lines (processed : list coco_problem_t)
    (td : timing_data_t) (clock : wall_clock)
    (lines : list summary_line) (k : nat) :
  output td = (Some <$> lines) ++ replicate k None ->
  current_idx td = Z.of_nat (length lines) ->
  Z.of_nat (length lines + k) < SIZE_T_MODULUS ->
  Forall (fun p => 0 < evaluations p) processed ->
  0 <= cumulative_evaluations td ->
  cumulative_evaluations td + stream_evaluations processed < SIZE_T_MODULUS ->
  (length (summary_dimensions (previous_dimension td)
             (cumulative_evaluations td >? 0) (map dimension processed))
   <= k)%nat ->
  let '(td1, clock1) := time_problems processed td clock in
  let td' := fst (timing_data_time_problem td1 None clock1) in
  exists new : list summary_line,
    output td' = (Some <$> (lines ++ new)) ++ replicate (k - length new) None /\
    map summary_dimension new
    = summary_dimensions (previous_dimension td)
        (cumulative_evaluations td >? 0) (map dimension processed) /\
    number_of_dimensions td' = number_of_dimensions td.
Proof.
  intros Hout Hidx Hsize Hpos. revert td clock lines k Hout Hidx Hsize.
  induction Hpos as [|p rest Hp Hrest IH];
    intros [N idx out prev cum st ost wr] clock lines k;
    cbn [output current_idx cumulative_evaluations previous_dimension
         number_of_dimensions];
    intros -> -> Hsize Hcum Hsum Hroom.
  - unfold time_problems. cbn [foldl map summary_dimensions] in *.
    destruct (Z.gtb_spec cum 0) as [Hlive|Hidle].
    + rewrite time_problem_flush by done. cbn [fst output number_of_dimensions].
      cbn [length] in Hroom. destruct k as [|k]; [lia|].
      rewrite Nat2Z.id, insert_first_free.
      eexists [_]. cbn [length map summary_dimension].
      replace (S k - 1)%nat with k by lia. done.
    + assert (cum = 0) as -> by lia.
      unfold timing_data_time_problem. cbn.
      exists []. by rewrite app_nil_r, Nat.sub_0_r.
  - unfold time_problems. cbn [foldl].
    cbn [stream_evaluations foldr] in Hsum.
    fold (stream_evaluations rest) in Hsum.
    assert (0 <= stream_evaluations rest).
    { apply stream_evaluations_nonneg.
      eapply Forall_impl; [exact Hrest|]. intros q Hq. cbv beta in Hq. lia. }
    cbn [map summary_dimensions] in Hroom |- *.
    destruct (Z.eqb_spec prev (dimension p)) as [Hsame|Hchange].
    + rewrite time_problem_same by done.
      rewrite size_t_wrap_small by lia.
      specialize (IH (TimingData N (Z.of_nat (length lines))
                        ((Some <$> lines) ++ replicate k None) prev
                        (cum + evaluations p) st ost wr)
                    clock lines k eq_refl eq_refl Hsize).
      cbn [cumulative_evaluations previous_dimension number_of_dimensions]
        in IH.
      replace (cum + evaluations p >? 0) with true in IH
        by (symmetry; apply Z.gtb_lt; lia).
      apply IH; [lia | lia | done].
    + destruct (Z.gtb_spec cum 0) as [Hlive|Hidle].
      * rewrite time_problem_change by done.
        cbn [app length] in Hroom. destruct k as [|k]; [lia|].
        rewrite Nat2Z.id, insert_first_free.
        rewrite size_t_wrap_small by lia.
        set (line := SummaryLine prev _).
        specialize (IH (TimingData N (Z.of_nat (length lines) + 1)
                          ((Some <$> (lines ++ [line])) ++ replicate k None)
                          (dimension p) (evaluations p) (reading clock 1) ost
                          (wr ++ [Z.of_nat (length lines)]))
                      (later clock 2) (lines ++ [line]) k eq_refl).
        cbn [cumulative_evaluations previous_dimension number_of_dimensions
             current_idx] in IH.
        replace (evaluations p >? 0) with true in IH
          by (symmetry; apply Z.gtb_lt; lia).
        destruct (time_problems rest _ (later clock 2)) as [td1 clock1]
          eqn:Hrun.
        unfold time_problems in Hrun. rewrite Hrun.
        destruct IH as (new & Hout' & Hdims & HN).
        -- rewrite length_app. simpl. lia.
        -- rewrite length_app. simpl. lia.
        -- lia.
        -- lia.
        -- lia.
        -- exists (line :: new). rewrite Hout', <- app_assoc.
           cbn [app length map summary_dimension line]. rewrite Hdims.
           done.
      * assert (cum = 0) as -> by lia.
        rewrite time_problem_first by done.
        specialize (IH (TimingData N (Z.of_nat (length lines))
                          ((Some <$> lines) ++ replicate k None)
                          (dimension p) (evaluations p) (reading clock 0) ost
                          wr)
                      (later clock 1) lines k eq_refl eq_refl Hsize).
        cbn [cumulative_evaluations previous_dimension number_of_dimensions]
          in IH.
        replace (evaluations p >? 0) with true in IH
          by (symmetry; apply Z.gtb_lt; lia).
        cbn [app] in Hroom |- *.
        apply IH; [lia | lia | done].
Qed.

(** X13.  For any stream of processed problems with positive evaluation
    counts whose dimensions form at most [number_of_dimensions] maximal runs,
    [timing_data_finalize] prints one summary line per maximal run of equal
    dimension, in the order of the stream, each for the dimension of its
    run. *)
Theorem timing_one_line_per_group (suite : coco_suite_t)
    (processed : list coco_problem_t) (clock : wall_clock) :
  Forall (fun p => 0 < evaluations p) processed ->
  stream_evaluations processed < SIZE_T_MODULUS ->
  Z.of_nat (dimension_groups (map dimension processed))
    <= number_of_dimensions (fst (timing_data_initialize suite clock)) ->
  map summary_dimension (report_lines (report_of suite processed clock))
  = group_heads (map dimension processed).
Proof.
  intros Hpos Hsum Hgroups.
  unfold report_of, timing_of_stream. unfold timing_data_initialize in *.
  rewrite !time_reading in *. cbn [fst number_of_dimensions] in Hgroups.
  set (N := size_t_wrap (suite_last_dimension_idx suite + 1)) in *.
  assert (HN : 0 <= N < SIZE_T_MODULUS)
    by (apply Z.mod_pos_bound; unfold SIZE_T_MODULUS; lia).
  pose proof (timing_stream_lines processed
                (TimingData N 0 (replicate (Z.to_nat N) None) 0 0
                   (reading clock 0) (reading (later clock 1) 0) [])
                (later (later clock 1) 1) [] (Z.to_nat N)
                eq_refl eq_refl ltac:(simpl; lia) Hpos ltac:(simpl; lia)
                ltac:(simpl; lia)) as Hstream.
  cbn [previous_dimension cumulative_evaluations number_of_dimensions]
    in Hstream.
  change (0 >? 0) with false in Hstream.
  rewrite summary_dimensions_heads in Hstream. cbn [andb app] in Hstream.
  rewrite length_group_heads in Hstream.
  specialize (Hstream ltac:(lia)).
  destruct (time_problems processed _ _) as [td1 clock1].
  unfold timing_data_finalize.
  destruct (timing_data_time_problem td1 None clock1) as [td2 clock2].
  cbn [fst] in Hstream. destruct Hstream as (new & Hout & Hdims & HN').
  rewrite time_reading. cbn [fst report_lines].
  rewrite Hout, HN'. cbn [app] in Hout |- *.
  assert (Hlen : (length new <= Z.to_nat N)%nat).
  { rewrite <- (length_map summary_dimension), Hdims, length_group_heads.
    lia. }
  replace (seq 0 (Z.to_nat N))
    with (seq 0 (length new + (Z.to_nat N - length new)))
    by (f_equal; lia).
  rewrite printed_lines. exact Hdims.
Qed.

Lemma timing_one_line_per_group_witness :
  map summary_dimension
    (report_lines (report_of three_dimensions six_problems frozen_clock))
  = group_heads (map dimension six_problems).
Proof.
  apply (timing_one_line_per_group three_dimensions six_problems
           frozen_clock).
  - repeat constructor.
  - vm_compute. reflexivity.
  - vm_compute. discriminate.
Defined.

(** Problems without evaluations leave the timing record as it is, the
    dimension it tracks and its start time apart. *)
Lemma time_problems_idle (processed : list coco_problem_t)
    (td : timing_data_t) (clock : wall_clock) :
  cumulative_evaluations td = 0 ->
  Forall (fun p => evaluations p = 0) processed ->
  let td1 := fst (time_problems processed td clock) in
  cumulative_evaluations td1 = 0 /\
  output td1 = output td /\ written td1 = written td /\
  number_of_dimensions td1 = number_of_dimensions td.
Proof.
  intros Hcum Hzero. revert td clock Hcum.
  induction Hzero as [|p rest Hp _ IH];
    intros [N idx out prev cum st ost wr] clock;
    cbn [cumulative_evaluations]; intros ->.
  - done.
  - unfold time_problems. cbn [foldl].
    destruct (Z.eqb_spec prev (dimension p)) as [Hsame|Hchange].
    + rewrite time_problem_same by done. rewrite Hp.
      change (size_t_wrap (0 + 0)) with 0.
      apply (IH (TimingData N idx out prev 0 st ost wr) clock eq_refl).
    + rewrite time_problem_first by done. rewrite Hp.
      apply (IH (TimingData N idx out (dimension p) 0 (reading clock 0) ost
                   wr) (later clock 1) eq_refl).
Qed.

(** X14.  Problems on which nothing was evaluated give no summary line and
    no division: when every processed problem has an evaluation count of
    zero, nothing is stored in [output] and [timing_data_finalize] prints no
    per-dimension line, however many dimensions the stream has. *)
Theorem timing_without_evaluations (suite : coco_suite_t)
    (processed : list coco_problem_t) (clock : wall_clock) :
  Forall (fun p => evaluations p = 0) processed ->
  report_lines (report_of suite processed clock) = [] /\
  written (snd (fst (timing_of_stream suite processed clock))) = [].
Proof.
  intros Hzero. unfold report_of, timing_of_stream, timing_data_initialize.
  rewrite !time_reading.
  set (N := size_t_wrap (suite_last_dimension_idx suite + 1)).
  pose proof (time_problems_idle processed
                (TimingData N 0 (replicate (Z.to_nat N) None) 0 0
                   (reading clock 0) (reading (later clock 1) 0) [])
                (later (later clock 1) 1) eq_refl Hzero) as Hidle.
  destruct (time_problems processed _ _) as [td1 clock1].
  cbn [fst output written number_of_dimensions] in Hidle.
  destruct Hidle as (Hcum & Hout & Hwr & HN).
  unfold timing_data_finalize, timing_data_time_problem.
  rewrite Hcum. cbn [Z.gtb Z.compare]. rewrite time_reading.
  cbn [fst snd report_lines]. rewrite Hout, Hwr, HN. split; [|done].
  pose proof (printed_lines [] (Z.to_nat N)) as Hprinted.
  cbn [fmap list_fmap app length Nat.add] in Hprinted. exact Hprinted.
Qed.

Lemma timing_without_evaluations_witness :
  report_lines
    (report_of three_dimensions
       [processed_problem 2 0; processed_problem 3 0] frozen_clock) = [].
Proof.
  refine (proj1 (timing_without_evaluations three_dimensions
                   [processed_problem 2 0; processed_problem 3 0]
                   frozen_clock _)).
  repeat constructor.
Defined.

Lemma later_0 (clock : wall_clock) : later clock 0 = clock.
Proof. destruct clock. unfold later. cbn. by rewrite Nat.add_0_r. Qed.

(** A call of [timing_data_time_problem] reads the clock a number of times
    and keeps the overall start time. *)
Lemma time_problem_clock (td : timing_data_t) (problem : option coco_problem_t)
    (clock : wall_clock) :
  exists j,
    snd (timing_data_time_problem td problem clock) = later clock j /\
    overall_start_time (fst (timing_data_time_problem td problem clock))
    = overall_start_time td.
Proof.
  unfold timing_data_time_problem.
  destruct problem as [p|];
    [destruct (negb (previous_dimension td =? dimension p))|];
    try destruct (cumulative_evaluations td >? 0);
    rewrite ?time_reading, ?later_later; cbn [fst snd];
    try (eexists; split; [reflexivity|]; done);
    exists 0%nat; by rewrite later_0.
Qed.

Lemma time_problems_clock (processed : list coco_problem_t)
    (td : timing_data_t) (clock : wall_clock) :
  exists j,
    snd (time_problems processed td clock) = later clock j /\
    overall_start_time (fst (time_problems processed td clock))
    = overall_start_time td.
Proof.
  revert td clock. induction processed as [|p rest IH]; intros td clock.
  - exists 0%nat. by rewrite later_0.
  - unfold time_problems. cbn [foldl].
    destruct (time_problem_clock td (Some p) clock) as (j & Hclock & Hstart).
    destruct (timing_data_time_problem td (Some p) clock) as [td1 clock1].
    cbn [fst snd] in Hclock, Hstart. subst clock1.
    destruct (IH td1 (later clock j)) as (j' & Hclock' & Hstart').
    unfold time_problems in Hclock', Hstart'.
    exists (j + j')%nat. by rewrite Hclock', Hstart', later_later.
Qed.

(** The total that [timing_data_finalize] prints. *)
Lemma finalize_total (td : timing_data_t) (clock : wall_clock) :
  let report := fst (fst (timing_data_finalize td clock)) in
  exists j,
    report_hours report * 3600 + report_minutes report * 60
      + report_seconds report
    = reading clock j - overall_start_time td /\
    (overall_start_time td <= reading clock j ->
     0 <= report_hours report /\ 0 <= report_minutes report < 60 /\
     0 <= report_seconds report < 60).
Proof.
  cbv zeta. unfold timing_data_finalize.
  destruct (time_problem_clock td None clock) as (j & Hclock & Hstart).
  destruct (timing_data_time_problem td None clock) as [td1 clock1].
  cbn [fst snd] in Hclock, Hstart. subst clock1.
  rewrite time_reading, reading_later, Hstart. rewrite Nat.add_0_r.
  cbn [fst report_hours report_minutes report_seconds].
  exists j. set (elapsed := reading clock j - overall_start_time td).
  split; [lia|]. intros Hle.
  assert (He : 0 <= elapsed) by (unfold elapsed; lia).
  rewrite Z.quot_div_nonneg, Z.rem_mod_nonneg by lia.
  pose proof (Z.div_mod elapsed 3600 ltac:(lia)).
  pose proof (Z.mod_pos_bound elapsed 3600 ltac:(lia)).
  rewrite Z.quot_div_nonneg by lia.
  pose proof (Z.div_mod (elapsed mod 3600) 60 ltac:(lia)).
  pose proof (Z.mod_pos_bound (elapsed mod 3600) 60 ltac:(lia)).
  assert (0 <= elapsed / 3600) by (apply Z.div_pos; lia).
  assert (0 <= (elapsed mod 3600) / 60) by (apply Z.div_pos; lia).
  lia.
Qed.

(** X15.  With a clock that never goes back and an elapsed time that fits
    [int], the total [timing_data_finalize] prints is the time on the clock
    between the second reading of the initialisation and a later reading,
    split into hours, minutes and seconds: the minutes and the seconds
    printed lie between 0 and 59 and the hours are not negative. *)
Theorem timing_total_elapsed (suite : coco_suite_t)
    (processed : list coco_problem_t) (clock : wall_clock) :
  monotone_clock clock -> elapsed_fits_int clock ->
  let report := report_of suite processed clock in
  exists k, (2 <= k)%nat /\
    report_hours report * 3600 + report_minutes report * 60
      + report_seconds report
    = reading clock k - reading clock 1 /\
    0 <= report_hours report /\ 0 <= report_minutes report < 60 /\
    0 <= report_seconds report < 60.
Proof.
  intros Hmono _. cbv zeta.
  unfold report_of, timing_of_stream, timing_data_initialize.
  rewrite !time_reading, reading_later, later_later.
  set (td0 := TimingData _ _ _ _ _ _ _ _).
  destruct (time_problems_clock processed td0 (later clock (1 + 1)))
    as (j & Hclock & Hstart).
  destruct (time_problems processed td0 (later clock (1 + 1)))
    as [td1 clock1].
  cbn [fst snd] in Hclock, Hstart. subst clock1.
  destruct (finalize_total td1 (later clock (1 + 1 + j)))
    as (i & Htotal & Hrange); rewrite later_later in *.
  rewrite reading_later, Hstart in Htotal, Hrange.
  unfold td0 in Htotal, Hrange. cbn [overall_start_time] in Htotal, Hrange.
  exists (1 + 1 + j + i)%nat. split; [lia|]. split; [exact Htotal|].
  apply Hrange. unfold reading. apply Hmono. lia.
Qed.

Lemma timing_total_elapsed_witness :
  exists k, (2 <= k)%nat /\
    report_hours (report_of three_dimensions six_problems day_clock) * 3600
      + report_minutes (report_of three_dimensions six_problems day_clock)
        * 60
      + report_seconds (report_of three_dimensions six_problems day_clock)
    = reading day_clock k - reading day_clock 1 /\
    0 <= report_hours (report_of three_dimensions six_problems day_clock)
    /\ 0 <= report_minutes
              (report_of three_dimensions six_problems day_clock) < 60 /\
    0 <= report_seconds
           (report_of three_dimensions six_problems day_clock) < 60.
Proof.
  apply (timing_total_elapsed three_dimensions six_problems day_clock).
  - intros m n Hmn. cbn. lia.
  - intros k. unfold reading. cbn. lia.
Defined.

(** The problems the loop hands to the timing are those that pass the test
    of [good], each as its runs left it. *)
Lemma experiment_loop_processed (search : search_strategy)
    (multiplier restarts firstFunction lastFunction : Z)
    (problems : list coco_problem_t) (s s' : experiment_state) :
  experiment_loop search multiplier restarts firstFunction lastFunction
    problems s = (s', SuiteCompleted) ->
  processed s'
  = processed s ++
    map (processed_as search multiplier restarts)
      (accepted_problems firstFunction lastFunction (prevDimension s) (cnt s)
         problems).
Proof.
  revert s. induction problems as [|p problems IH]; intros s;
    cbn [experiment_loop accepted_problems].
  - intros [= <-]. by rewrite app_nil_r.
  - destruct (in_function_range _ _ _); cbn [negb].
    + destruct (fatal_ending _) as [e|] eqn:Hfatal.
      { intros [= _ He]. unfold fatal_ending in Hfatal.
        destruct (last _) as [r|]; [|done].
        destruct (run_ending r); try done; congruence. }
      destruct (timing_data_time_problem _ _ _) as [td clock1].
      intros Hloop. apply IH in Hloop. rewrite Hloop.
      cbn [processed prevDimension cnt map]. by rewrite <- app_assoc.
    + intros Hloop. apply IH in Hloop. by rewrite Hloop.
Qed.

(** X16.  An experiment that reaches the end of its suite prints, as its
    last line, the timing report of the problems of the suite that pass the
    test of [good], each as its runs left it, in their order, and of no
    other problem: a problem that is skipped takes no part in the timing. *)
Theorem example_experiment_prints_report (search : search_strategy)
    (multiplier restarts firstFunction lastFunction : Z)
    (suite : coco_suite_t) (clock0 : wall_clock) (s : experiment_state) :
  example_experiment search multiplier restarts firstFunction lastFunction
    suite clock0 = (s, SuiteCompleted) ->
  let timed :=
    map (processed_as search multiplier restarts)
      (accepted_problems firstFunction lastFunction 0 1
         (suite_problems suite)) in
  last (stdout s) = Some (TimingOutput (report_of suite timed clock0)) /\
  written (timing_data s)
  = written (snd (fst (timing_of_stream suite timed clock0))).
Proof.
  intros Hrun timed.
  assert (Hprocessed : processed s = timed).
  { unfold example_experiment in Hrun.
    destruct (timing_data_initialize suite clock0) as [td0 clock1].
    destruct (experiment_loop _ _ _ _ _ _ _) as [s1 e] eqn:Hloop.
    destruct e; try (injection Hrun as _ ?; done).
    apply experiment_loop_processed in Hloop.
    destruct (timing_data_finalize (timing_data s1) (clock s1))
      as [[report td] clock2].
    injection Hrun as <-. cbn [processed]. by rewrite Hloop. }
  rewrite <- Hprocessed. by apply example_experiment_report in Hrun.
Qed.

Lemma example_experiment_prints_report_witness :
  let suite := Suite (replicate 17 (used_problem 0 0)) 0 in
  let s :=
    fst (example_experiment idle_search BUDGET_MULTIPLIER
           INDEPENDENT_RESTARTS 2 48 suite frozen_clock) in
  last (stdout s)
  = Some (TimingOutput
            (report_of suite
               (map (processed_as idle_search BUDGET_MULTIPLIER
                       INDEPENDENT_RESTARTS)
                  (accepted_problems 2 48 0 1 (suite_problems suite)))
               frozen_clock)) /\
  length (accepted_problems 2 48 0 1 (suite_problems suite)) = 2%nat.
Proof.
  split; [|reflexivity].
  refine (proj1 (example_experiment_prints_report idle_search
                   BUDGET_MULTIPLIER INDEPENDENT_RESTARTS 2 48
                   (Suite (replicate 17 (used_problem 0 0)) 0)
                   frozen_clock _ _)).
  vm_compute. reflexivity.
Defined.

(** ** The budget of a call and the warning of the restart loop *)







(** Outside the program as it is built, the test of the warning, which
    compares the objective counter alone with the sum of the two counters
    read before the call, parts from the number of evaluations made.  With
    one restart and a solver that asks for one objective and one constraint
    evaluation, the second call of [my_search] makes four evaluations and
    the warning is printed.  A strategy that only evaluates the constraints
    of a new problem is warned about, and a strategy that makes no
    evaluation on a problem with constraint evaluations counted is not. *)
Lemma warning_test_outside_the_program :
  (exists r1 r2,
     restarts_of_problem (my_search two_step_solver) BUDGET_MULTIPLIER 1
       (new_problem 2 1 [(-5)%Q; (-5)%Q] [5%Q; 5%Q] [1%Q; 1%Q]) = [r1; r2] /\
     run_ending r1 = RunCompleted /\
     run_ending r2 = StrategyMalfunction /\
     evaluations_performed r2 = 4%nat /\
     run_stdout r2
       = [StrategyOutput "Termination criterion: MaxIter.";
          BudgetNotExhaustedWarning 4 200000]) /\
  (let r := restart_run constraints_only_search BUDGET_MULTIPLIER
              (used_problem 0 0) in
   run_ending r = StrategyMalfunction /\ evaluations_performed r = 1%nat) /\
  (let r := restart_run idle_search BUDGET_MULTIPLIER (used_problem 3 2) in
   run_ending r = RunCompleted /\ evaluations_performed r = 0%nat /\
   run_stdout r = []).
Proof.
  split; [|split].
  - eexists _, _. split; [vm_compute; reflexivity|].
    repeat split; reflexivity.
  - split; reflexivity.
  - repeat split; reflexivity.
Qed.
